(** * Income verification portal: the server routes and their storage layer

    A shallow embedding of [server/routes.ts], [server/storage.ts] and the
    tables of [shared/schema.ts].

    - A table is the list of its rows, in the order a [select] without
      [orderBy] returns them; [const [x] = await db.select()...] is the head
      of the selected rows.
    - Columns declared [integer] or [serial] hold a [Z], [text] columns a
      [string], [timestamp] columns a [Z] (milliseconds); a nullable column
      is an [option].  [text(..., { enum })] constrains the TypeScript type
      only, so such a column holds any [string].
    - An [integer] column is PostgreSQL's [int4]: a statement that binds a
      number which is no integer of 32 bits to such a column, or compares
      it with one, is rejected.  This is checked for the numbers a route
      takes from the request (a route parameter, the query string, the
      body, the size of an uploaded file); the ids a handler has read
      from a row or from the session's user fit their columns, and so do
      the values of the sequences.
    - A JSON body holds no [Date]: drizzle throws a [TypeError] when a
      value other than [null] is written to a [timestamp] column from such
      a body.  Otherwise a body is taken as typed: each key is missing or
      holds a value of the JSON type of its column.
    - A [string] is a text without the character of code 0, which a
      [text] column does not hold.
    - The storage methods and the route handlers run in a small state and
      exception monad over the database: an [await]ed promise that rejects
      is [Thrown].
    - [new Date()] and [randomBytes] are inputs of the handler that calls
      them. *)

From Stdlib Require Import ZArith List String Ascii Bool Lia.
From Stdlib Require Import Permutation Sorted.
Import ListNotations.

Local Open Scope string_scope.
Local Open Scope list_scope.
Local Open Scope Z_scope.

(** ** shared/schema.ts: enums *)

Definition userRoles : list string := ["Admin"; "Reviewer"].
Definition applicationStatuses : list string :=
  ["Draft"; "Submitted"; "NeedsInfo"; "Approved"; "Denied"].
Definition systemResults : list string :=
  ["Eligible"; "NotEligible"; "NeedsReview"].
Definition activityTypes : list string :=
  ["Note"; "System"; "RequestInfo"; "StatusChange"].

(** ** JavaScript values *)

(** A JavaScript number: an integer, a finite number that is not an
    integer, or [NaN] (the infinities are left out). *)
Inductive number : Type :=
| NaN
| Int (z : Z)
| Fraction.

(** A JSON value of a request body, or [undefined] for a missing key
    (arrays and nested objects do not occur in the bodies modelled). *)
Inductive JsValue : Type :=
| undefined
| null
| boolean (b : bool)
| num (n : number)
| str (s : string).

(** ** shared/schema.ts: tables *)

Module User.
Record t : Type := mk
  { id : Z;
    email : string;
    passwordHash : string;
    role : string;
    createdAt : option Z }.
End User.

Module Program.
Record t : Type := mk
  { id : Z;
    name : string;
    regionLabel : string;
    effectiveStart : Z;
    effectiveEnd : option Z;
    createdAt : option Z }.
End Program.

Module IncomeLimit.
Record t : Type := mk
  { id : Z;
    programId : Z;
    householdSize : Z;
    limitCents : Z;
    versionLabel : string;
    createdAt : option Z }.
End IncomeLimit.

Module Application.
Record t : Type := mk
  { id : Z;
    programId : Z;
    applicantName : string;
    applicantEmail : string;
    applicantPhone : option string;
    applicantToken : string;
    addressLine1 : option string;
    city : option string;
    state : option string;
    zip : option string;
    householdSize : option Z;
    annualIncomeCents : option Z;
    computedLimitCents : option Z;
    systemResult : option string;
    ruleVersion : option string;
    status : string;
    submittedAt : option Z;
    reviewedBy : option Z;
    createdAt : option Z;
    updatedAt : option Z }.
End Application.

Module Document.
Record t : Type := mk
  { id : Z;
    applicationId : Z;
    filename : string;
    path : string;
    mimeType : string;
    sizeBytes : Z;
    uploadedAt : option Z }.
End Document.

Module ActivityEvent.
Record t : Type := mk
  { id : Z;
    applicationId : Z;
    type : string;
    message : string;
    createdByUserId : option Z;
    createdAt : option Z }.
End ActivityEvent.

(** [Partial<Application>], the argument of [updateApplication]: a key that
    is absent (or [undefined], which drizzle's [set] drops) is [None]; a
    nullable column can be set to [null], which is [Some None]. *)
Module PartialApplication.
Record t : Type := mk
  { id : option Z;
    programId : option Z;
    applicantName : option string;
    applicantEmail : option string;
    applicantPhone : option (option string);
    applicantToken : option string;
    addressLine1 : option (option string);
    city : option (option string);
    state : option (option string);
    zip : option (option string);
    householdSize : option (option Z);
    annualIncomeCents : option (option Z);
    computedLimitCents : option (option Z);
    systemResult : option (option string);
    ruleVersion : option (option string);
    status : option string;
    submittedAt : option (option Z);
    reviewedBy : option (option Z);
    createdAt : option (option Z);
    updatedAt : option (option Z) }.

(** The object [{}]. *)
Definition empty : t :=
  mk None None None None None None None None None None
     None None None None None None None None None None.
End PartialApplication.

(** The insert objects the handlers build. *)
Module InsertProgram.
Record t : Type := mk
  { name : string;
    regionLabel : string;
    effectiveStart : Z;
    effectiveEnd : option Z }.
End InsertProgram.

Module InsertIncomeLimit.
Record t : Type := mk
  { programId : Z;
    householdSize : Z;
    limitCents : Z;
    versionLabel : string }.
End InsertIncomeLimit.

(** [programId] is the [number] the start schema lets through. *)
Module InsertApplication.
Record t : Type := mk
  { programId : number;
    applicantName : string;
    applicantEmail : string;
    applicantToken : string;
    status : string;
    systemResult : option string }.
End InsertApplication.

Module InsertActivityEvent.
Record t : Type := mk
  { applicationId : Z;
    type : string;
    message : string;
    createdByUserId : option Z }.
End InsertActivityEvent.

Module InsertUser.
Record t : Type := mk
  { email : string;
    passwordHash : string;
    role : option string }.
End InsertUser.

Module InsertDocument.
Record t : Type := mk
  { applicationId : Z;
    filename : string;
    path : string;
    mimeType : string;
    sizeBytes : Z }.
End InsertDocument.

(** The JSON bodies the reviewer routes hand to the storage methods as
    they are.  The body of [POST /api/programs]: what matters of it are
    the two keys of the [timestamp] columns. *)
Module ProgramBody.
Record t : Type := mk
  { name : JsValue;
    regionLabel : JsValue;
    effectiveStart : JsValue;
    effectiveEnd : JsValue }.
End ProgramBody.

(** The body of [POST /api/programs/:id/limits], with JSON numbers for the
    [integer] columns; the handler overrides its [programId]. *)
Module IncomeLimitBody.
Record t : Type := mk
  { programId : option number;
    householdSize : number;
    limitCents : number;
    versionLabel : string }.
End IncomeLimitBody.

(** ** The database *)

(** The six tables and the sequences behind the [serial] keys of the tables
    the routes insert into. *)
Record Db : Type := mkDb
  { users : list User.t;
    programs : list Program.t;
    incomeLimits : list IncomeLimit.t;
    applications : list Application.t;
    documents : list Document.t;
    activityEvents : list ActivityEvent.t;
    programs_id_seq : Z;
    income_limits_id_seq : Z;
    applications_id_seq : Z;
    activity_events_id_seq : Z }.

Definition with_programs (l : list Program.t) (s : Z) (db : Db) : Db :=
  mkDb (users db) l (incomeLimits db) (applications db) (documents db)
       (activityEvents db) s (income_limits_id_seq db)
       (applications_id_seq db) (activity_events_id_seq db).

Definition with_incomeLimits (l : list IncomeLimit.t) (s : Z) (db : Db) : Db :=
  mkDb (users db) (programs db) l (applications db) (documents db)
       (activityEvents db) (programs_id_seq db) s
       (applications_id_seq db) (activity_events_id_seq db).

Definition with_applications (l : list Application.t) (s : Z) (db : Db) : Db :=
  mkDb (users db) (programs db) (incomeLimits db) l (documents db)
       (activityEvents db) (programs_id_seq db) (income_limits_id_seq db)
       s (activity_events_id_seq db).

Definition with_activityEvents (l : list ActivityEvent.t) (s : Z) (db : Db) : Db :=
  mkDb (users db) (programs db) (incomeLimits db) (applications db)
       (documents db) l (programs_id_seq db) (income_limits_id_seq db)
       (applications_id_seq db) s.

(** [applications.id] is the primary key and [applications.applicantToken]
    is declared [unique()]: a statement that would leave two rows with one
    id or one token is rejected.  These are the two constraints a request
    body can violate ([PATCH] by token passes its body to [set]); rows of
    the other tables take their ids from the sequences only. *)
Fixpoint distinct {A : Type} (eqb : A -> A -> bool) (l : list A) : bool :=
  match l with
  | [] => true
  | x :: l' => negb (existsb (eqb x) l') && distinct eqb l'
  end.

Definition constraints_ok (rows : list Application.t) : bool :=
  distinct Z.eqb (map Application.id rows)
  && distinct String.eqb (map Application.applicantToken rows).

Definition with_users (l : list User.t) (db : Db) : Db :=
  mkDb l (programs db) (incomeLimits db) (applications db) (documents db)
       (activityEvents db) (programs_id_seq db) (income_limits_id_seq db)
       (applications_id_seq db) (activity_events_id_seq db).

Definition with_documents (l : list Document.t) (db : Db) : Db :=
  mkDb (users db) (programs db) (incomeLimits db) (applications db) l
       (activityEvents db) (programs_id_seq db) (income_limits_id_seq db)
       (applications_id_seq db) (activity_events_id_seq db).

(** [users.id] is the primary key and [users.email] is declared
    [unique()]. *)
Definition users_ok (rows : list User.t) : bool :=
  distinct Z.eqb (map User.id rows)
  && distinct String.eqb (map User.email rows).

(** ** The monad of the storage methods and the handlers *)

Inductive Error : Type :=
| ZodError
| TypeError
| DatabaseError.

Inductive Outcome (A : Type) : Type :=
| Value (a : A)
| Thrown (e : Error).
Arguments Value {A} a.
Arguments Thrown {A} e.

Definition Promise (A : Type) : Type := Db -> Outcome A * Db.

Definition ret {A : Type} (a : A) : Promise A := fun db => (Value a, db).

Definition throw {A : Type} (e : Error) : Promise A := fun db => (Thrown e, db).

Definition bind {A B : Type} (m : Promise A) (k : A -> Promise B) : Promise B :=
  fun db =>
    match m db with
    | (Value a, db') => k a db'
    | (Thrown e, db') => (Thrown e, db')
    end.

Definition select {A : Type} (q : Db -> A) : Promise A :=
  fun db => (Value (q db), db).

Declare Scope promise_scope.
Delimit Scope promise_scope with promise.
Notation "'await' x <- m ; k" := (bind m (fun x => k))
  (at level 10, x name, m at level 100, k at level 200) : promise_scope.
Local Open Scope promise_scope.

(** [Promise.all(l.map(f))]. *)
Fixpoint all {A B : Type} (f : A -> Promise B) (l : list A) : Promise (list B) :=
  match l with
  | [] => ret []
  | a :: l' => await b <- f a; await bs <- all f l'; ret (b :: bs)
  end.

(** ** Numbers in conditions, templates and statements *)

(** Truthiness of a number, as tested by [if (x)] and [x ? a : b]. *)
Definition truthy (n : number) : bool :=
  match n with
  | NaN => false
  | Int z => negb (z =? 0)
  | Fraction => true
  end.

(** Template literals print a missing value as [undefined]. *)
Definition template (s : option string) : string :=
  match s with
  | Some s => s
  | None => "undefined"
  end.

(** The range of PostgreSQL's [integer]. *)
Definition in_int4 (z : Z) : bool :=
  (-2147483648 <=? z) && (z <=? 2147483647).

(** A number of the request bound to an [integer] column or compared with
    one: the statement is rejected unless the number is an integer of 32
    bits. *)
Definition int4 (n : number) : Promise Z :=
  match n with
  | Int z => if in_int4 z then ret z else throw DatabaseError
  | NaN | Fraction => throw DatabaseError
  end.

(** ** SQL operators *)

(** [ORDER BY key DESC]: PostgreSQL puts [NULL] first in descending order.
    [desc_before x y] says a row with key [x] may precede one with key [y]. *)
Definition desc_before (x y : option Z) : bool :=
  match x, y with
  | None, _ => true
  | Some _, None => false
  | Some a, Some b => b <=? a
  end.

Section OrderBy.
Context {A : Type} (key : A -> option Z).

Fixpoint insert_desc (x : A) (l : list A) : list A :=
  match l with
  | [] => [x]
  | y :: l' =>
      if desc_before (key x) (key y) then x :: y :: l'
      else y :: insert_desc x l'
  end.

(** Rows with equal keys keep their table order. *)
Fixpoint orderBy_desc (l : list A) : list A :=
  match l with
  | [] => []
  | x :: l' => insert_desc x (orderBy_desc l')
  end.
End OrderBy.

(** [text LIKE pattern] with the default escape character: [%] matches any
    run of characters, [_] any one character, a backslash makes the next
    pattern character literal.  (PostgreSQL raises an error for a pattern
    that ends in a lone backslash; it is no match here.  The pattern the
    storage layer builds always ends in [%].) *)
Fixpoint like_chars (p t : list ascii) {struct p} : bool :=
  match p with
  | [] => match t with [] => true | _ :: _ => false end
  | c :: p' =>
      if Ascii.eqb c "%" then
        (fix any (t : list ascii) : bool :=
           like_chars p' t
           || match t with [] => false | _ :: t' => any t' end) t
      else if Ascii.eqb c "_" then
        match t with [] => false | _ :: t' => like_chars p' t' end
      else if Ascii.eqb c "\" then
        match p' with
        | [] => false
        | c' :: p'' =>
            match t with
            | [] => false
            | d :: t' => Ascii.eqb c' d && like_chars p'' t'
            end
        end
      else
        match t with
        | [] => false
        | d :: t' => Ascii.eqb c d && like_chars p' t'
        end
  end.

Definition like (text pattern : string) : bool :=
  like_chars (list_ascii_of_string pattern) (list_ascii_of_string text).

(** ** server/storage.ts: class DatabaseStorage *)

Module storage.

Definition getUser (id : Z) : Promise (option User.t) :=
  select (fun db => hd_error (filter (fun u => User.id u =? id) (users db))).

Definition getProgram (id : Z) : Promise (option Program.t) :=
  select (fun db =>
    hd_error (filter (fun p => Program.id p =? id) (programs db))).

Definition createProgram (program : InsertProgram.t) (now : Z)
  : Promise Program.t :=
  fun db =>
    let newProgram :=
      Program.mk (programs_id_seq db) (InsertProgram.name program)
        (InsertProgram.regionLabel program)
        (InsertProgram.effectiveStart program)
        (InsertProgram.effectiveEnd program) (Some now) in
    (Value newProgram,
     with_programs (programs db ++ [newProgram]) (programs_id_seq db + 1) db).

(** [createProgram] on the JSON body of the route.  drizzle maps a value
    for a [timestamp] column with [value.toISOString()], which no JSON
    value has: a body that holds one throws a [TypeError] before a
    statement is sent.  [null] and a missing key are not mapped, and an
    insert without [effectiveStart] violates [NOT NULL]. *)
Definition createProgram_json (body : ProgramBody.t) : Promise Program.t :=
  match ProgramBody.effectiveStart body, ProgramBody.effectiveEnd body with
  | (undefined | null), (undefined | null) => throw DatabaseError
  | _, _ => throw TypeError
  end.

(** The insert binds three numbers to [integer] columns; a statement
    rejected for one of them changes nothing. *)
Definition createIncomeLimit (limit : InsertIncomeLimit.t) (now : Z)
  : Promise IncomeLimit.t :=
  fun db =>
    if in_int4 (InsertIncomeLimit.programId limit)
       && in_int4 (InsertIncomeLimit.householdSize limit)
       && in_int4 (InsertIncomeLimit.limitCents limit)
    then
      let newLimit :=
        IncomeLimit.mk (income_limits_id_seq db)
          (InsertIncomeLimit.programId limit)
          (InsertIncomeLimit.householdSize limit)
          (InsertIncomeLimit.limitCents limit)
          (InsertIncomeLimit.versionLabel limit) (Some now) in
      (Value newLimit,
       with_incomeLimits (incomeLimits db ++ [newLimit])
         (income_limits_id_seq db + 1) db)
    else (Thrown DatabaseError, db).

Definition getIncomeLimitForHousehold (programId size : Z)
  : Promise (option IncomeLimit.t) :=
  select (fun db =>
    hd_error
      (filter (fun l => (IncomeLimit.programId l =? programId)
                        && (IncomeLimit.householdSize l =? size))
              (incomeLimits db))).

(** The insert binds [programId] to an [integer] column: a number that
    is no integer of 32 bits is rejected before a row is built, and
    nothing changes.  The columns the insert object leaves out take their
    defaults: the next value of the sequence, [now()], or [NULL].  The
    sequence advances also when the row is rejected as a duplicate. *)
Definition createApplication (app : InsertApplication.t) (now : Z)
  : Promise Application.t :=
  fun db =>
    match InsertApplication.programId app with
    | Int programId =>
        if in_int4 programId then
          let newApp :=
            Application.mk (applications_id_seq db)
              programId
              (InsertApplication.applicantName app)
              (InsertApplication.applicantEmail app)
              None
              (InsertApplication.applicantToken app)
              None None None None None None None
              (InsertApplication.systemResult app)
              None
              (InsertApplication.status app)
              None None (Some now) (Some now) in
          let rows := applications db ++ [newApp] in
          if constraints_ok rows
          then (Value newApp,
                with_applications rows (applications_id_seq db + 1) db)
          else (Thrown DatabaseError,
                with_applications (applications db)
                  (applications_id_seq db + 1) db)
        else (Thrown DatabaseError, db)
    | NaN | Fraction => (Thrown DatabaseError, db)
    end.

Definition getApplicationByToken (token : string)
  : Promise (option Application.t) :=
  select (fun db =>
    hd_error
      (filter (fun a => String.eqb (Application.applicantToken a) token)
              (applications db))).

(** The routes call [getApplication] with the id of the request, which
    the query compares with the [integer] column. *)
Definition getApplication (id : Z) : Promise (option Application.t) :=
  fun db =>
    if in_int4 id
    then (Value (hd_error (filter (fun a => Application.id a =? id)
                                  (applications db))), db)
    else (Thrown DatabaseError, db).

Record Filters : Type := mkFilters
  { status : option string;
    programId : option number;
    search : option string }.

(** The [conditions] array, as one predicate on a row: a filter that is
    missing or falsy pushes no condition. *)
Definition conditions (filters : option Filters) (a : Application.t) : bool :=
  match filters with
  | None => true
  | Some f =>
      match status f with
      | Some s =>
          if String.eqb s EmptyString then true else String.eqb (Application.status a) s
      | None => true
      end
      && match programId f with
         | Some n =>
             if truthy n
             then match n with
                  | Int p => Application.programId a =? p
                  | NaN | Fraction => true
                  end
             else true
         | None => true
         end
      && match search f with
         | Some s =>
             if String.eqb s EmptyString then true
             else like (Application.applicantName a) ("%" ++ s ++ "%")%string
         | None => true
         end
  end.

(** The one number a condition compares with an [integer] column is the
    [programId] of the filters, when it is truthy. *)
Definition binds (filters : option Filters) : bool :=
  match filters with
  | None => true
  | Some f =>
      match programId f with
      | Some n =>
          if truthy n
          then match n with
               | Int p => in_int4 p
               | NaN | Fraction => false
               end
          else true
      | None => true
      end
  end.

Definition getApplications (filters : option Filters)
  : Promise (list Application.t) :=
  fun db =>
    if binds filters
    then (Value (orderBy_desc Application.submittedAt
                   (filter (conditions filters) (applications db))), db)
    else (Thrown DatabaseError, db).

Definition set_field {A : Type} (new : option A) (old : A) : A :=
  match new with
  | Some v => v
  | None => old
  end.

(** [UPDATE applications SET ...] on one row. *)
Definition set (u : PartialApplication.t) (a : Application.t)
  : Application.t :=
  Application.mk
    (set_field (PartialApplication.id u) (Application.id a))
    (set_field (PartialApplication.programId u) (Application.programId a))
    (set_field (PartialApplication.applicantName u) (Application.applicantName a))
    (set_field (PartialApplication.applicantEmail u) (Application.applicantEmail a))
    (set_field (PartialApplication.applicantPhone u) (Application.applicantPhone a))
    (set_field (PartialApplication.applicantToken u) (Application.applicantToken a))
    (set_field (PartialApplication.addressLine1 u) (Application.addressLine1 a))
    (set_field (PartialApplication.city u) (Application.city a))
    (set_field (PartialApplication.state u) (Application.state a))
    (set_field (PartialApplication.zip u) (Application.zip a))
    (set_field (PartialApplication.householdSize u) (Application.householdSize a))
    (set_field (PartialApplication.annualIncomeCents u) (Application.annualIncomeCents a))
    (set_field (PartialApplication.computedLimitCents u) (Application.computedLimitCents a))
    (set_field (PartialApplication.systemResult u) (Application.systemResult a))
    (set_field (PartialApplication.ruleVersion u) (Application.ruleVersion a))
    (set_field (PartialApplication.status u) (Application.status a))
    (set_field (PartialApplication.submittedAt u) (Application.submittedAt a))
    (set_field (PartialApplication.reviewedBy u) (Application.reviewedBy a))
    (set_field (PartialApplication.createdAt u) (Application.createdAt a))
    (set_field (PartialApplication.updatedAt u) (Application.updatedAt a)).

(** [{ ...updates, updatedAt: new Date() }] *)
Definition with_updatedAt (updates : PartialApplication.t) (now : Z)
  : PartialApplication.t :=
  PartialApplication.mk
    (PartialApplication.id updates)
    (PartialApplication.programId updates)
    (PartialApplication.applicantName updates)
    (PartialApplication.applicantEmail updates)
    (PartialApplication.applicantPhone updates)
    (PartialApplication.applicantToken updates)
    (PartialApplication.addressLine1 updates)
    (PartialApplication.city updates)
    (PartialApplication.state updates)
    (PartialApplication.zip updates)
    (PartialApplication.householdSize updates)
    (PartialApplication.annualIncomeCents updates)
    (PartialApplication.computedLimitCents updates)
    (PartialApplication.systemResult updates)
    (PartialApplication.ruleVersion updates)
    (PartialApplication.status updates)
    (PartialApplication.submittedAt updates)
    (PartialApplication.reviewedBy updates)
    (PartialApplication.createdAt updates)
    (Some (Some now)).

(** [returning()] yields the rows the statement updated, with their new
    values; a rejected statement changes nothing. *)
Definition updateApplication (id : Z) (updates : PartialApplication.t)
  (now : Z) : Promise (option Application.t) :=
  fun db =>
    let u := with_updatedAt updates now in
    let hit (a : Application.t) := Application.id a =? id in
    let rows := map (fun a => if hit a then set u a else a) (applications db) in
    if constraints_ok rows
    then (Value (hd_error (map (set u) (filter hit (applications db)))),
          with_applications rows (applications_id_seq db) db)
    else (Thrown DatabaseError, db).

(** [updateApplication] on the JSON body of [PATCH] by token.  The body
    holds no [Date]: a [submittedAt] or [createdAt] that is not [null]
    makes drizzle throw a [TypeError] before a statement is sent (the
    body's [updatedAt] is overridden by the [new Date()] of the method).
    The integers of the body are bound to [integer] columns. *)
Definition is_set {A : Type} (v : option (option A)) : bool :=
  match v with
  | Some (Some _) => true
  | _ => false
  end.

Definition sets_timestamp (body : PartialApplication.t) : bool :=
  is_set (PartialApplication.submittedAt body)
  || is_set (PartialApplication.createdAt body).

Definition fits (v : option Z) : bool :=
  match v with
  | Some z => in_int4 z
  | None => true
  end.

Definition fits_nullable (v : option (option Z)) : bool :=
  match v with
  | Some (Some z) => in_int4 z
  | _ => true
  end.

Definition integers_fit (body : PartialApplication.t) : bool :=
  fits (PartialApplication.id body)
  && fits (PartialApplication.programId body)
  && fits_nullable (PartialApplication.householdSize body)
  && fits_nullable (PartialApplication.annualIncomeCents body)
  && fits_nullable (PartialApplication.computedLimitCents body)
  && fits_nullable (PartialApplication.reviewedBy body).

Definition updateApplication_json (id : Z) (body : PartialApplication.t)
  (now : Z) : Promise (option Application.t) :=
  if sets_timestamp body then throw TypeError
  else if negb (integers_fit body) then throw DatabaseError
  else updateApplication id body now.

Definition getDocuments (applicationId : Z) : Promise (list Document.t) :=
  select (fun db =>
    filter (fun d => Document.applicationId d =? applicationId)
           (documents db)).

Definition createActivityEvent (event : InsertActivityEvent.t) (now : Z)
  : Promise ActivityEvent.t :=
  fun db =>
    let newEvent :=
      ActivityEvent.mk (activity_events_id_seq db)
        (InsertActivityEvent.applicationId event)
        (InsertActivityEvent.type event)
        (InsertActivityEvent.message event)
        (InsertActivityEvent.createdByUserId event) (Some now) in
    (Value newEvent,
     with_activityEvents (activityEvents db ++ [newEvent])
       (activity_events_id_seq db + 1) db).

Definition getActivityEvents (applicationId : Z)
  : Promise (list ActivityEvent.t) :=
  select (fun db =>
    orderBy_desc ActivityEvent.createdAt
      (filter (fun e => ActivityEvent.applicationId e =? applicationId)
              (activityEvents db))).

(** The methods below insert into [users] and [documents], whose sequences
    [Db] does not hold: the value the sequence yields is an argument. *)

Definition getUserByEmail (email : string) : Promise (option User.t) :=
  select (fun db =>
    hd_error (filter (fun u => String.eqb (User.email u) email) (users db))).

(** [role] has the default [Reviewer]. *)
Definition createUser (user : InsertUser.t) (nextval now : Z)
  : Promise User.t :=
  fun db =>
    let newUser :=
      User.mk nextval (InsertUser.email user) (InsertUser.passwordHash user)
        (match InsertUser.role user with
         | Some r => r
         | None => "Reviewer"
         end) (Some now) in
    let rows := users db ++ [newUser] in
    if users_ok rows
    then (Value newUser, with_users rows db)
    else (Thrown DatabaseError, db).

Definition getPrograms : Promise (list Program.t) :=
  select (fun db => orderBy_desc Program.createdAt (programs db)).

Definition getIncomeLimits (programId : Z) : Promise (list IncomeLimit.t) :=
  select (fun db =>
    filter (fun l => IncomeLimit.programId l =? programId) (incomeLimits db)).

(** [sizeBytes] is the size multer reports for the file, bound to an
    [integer] column; [applicationId] is the id of a row. *)
Definition createDocument (doc : InsertDocument.t) (nextval now : Z)
  : Promise Document.t :=
  fun db =>
    if in_int4 (InsertDocument.sizeBytes doc) then
      let newDoc :=
        Document.mk nextval (InsertDocument.applicationId doc)
          (InsertDocument.filename doc) (InsertDocument.path doc)
          (InsertDocument.mimeType doc) (InsertDocument.sizeBytes doc)
          (Some now) in
      (Value newDoc, with_documents (documents db ++ [newDoc]) db)
    else (Thrown DatabaseError, db).

End storage.

(** ** client/src/components/multi-select.tsx *)

Module MultiSelect.

(** [toggleOption]: the list it hands to [onChange]. *)
Definition toggleOption (value : list string) (option : string) : list string :=
  if existsb (String.eqb option) value
  then filter (fun v => negb (String.eqb v option)) value
  else value ++ [option].

End MultiSelect.

(** ** client/src/components/zip-code-input.tsx *)

Module ZipCodeInput.
Section Component.

(** [String.prototype.trim] *)
Variable trim : string -> string.

(** What a render of the component reads: the list [value] of its
    properties, which [onChange] replaces, and its two pieces of state. *)
Record State : Type := mk
  { value : list string;
    inputValue : string;
    error : string }.

Definition is_digit (c : ascii) : bool :=
  (48 <=? nat_of_ascii c)%nat && (nat_of_ascii c <=? 57)%nat.

(** The test of the regular expression: five characters, all digits. *)
Definition five_digits (s : string) : bool :=
  Nat.eqb (String.length s) 5 && forallb is_digit (list_ascii_of_string s).

Definition addZipCode (st : State) (zip : string) : State :=
  let trimmedZip := trim zip in
  if negb (five_digits trimmedZip)
  then mk (value st) (inputValue st) "ZIP code must be exactly 5 digits"
  else if existsb (String.eqb trimmedZip) (value st)
  then mk (value st) (inputValue st) "ZIP code already added"
  else mk (value st ++ [trimmedZip]) EmptyString EmptyString.

Definition removeZipCode (st : State) (zipToRemove : string) : State :=
  mk (filter (fun zip => negb (String.eqb zip zipToRemove)) (value st))
     (inputValue st) (error st).

(** [key] is [e.key]. *)
Definition handleKeyDown (st : State) (key : string) : State :=
  if String.eqb key "Enter" || String.eqb key "," then
    if negb (String.eqb (trim (inputValue st)) EmptyString)
    then addZipCode st (inputValue st)
    else st
  else if String.eqb key "Backspace"
          && String.eqb (inputValue st) EmptyString
          && (0 <? Z.of_nat (List.length (value st))) then
    removeZipCode st (last (value st) EmptyString)
  else st.

Definition handleBlur (st : State) : State :=
  if negb (String.eqb (trim (inputValue st)) EmptyString)
  then addZipCode st (inputValue st)
  else st.

(** The [onChange] of the input field. *)
Definition handleChange (st : State) (text : string) : State :=
  mk (value st) text EmptyString.

(** The events the component wires to its handlers; [Remove] is the click
    on the button of a listed ZIP code. *)
Inductive Event : Type :=
| KeyDown (key : string)
| Blur
| Change (text : string)
| Remove (zip : string).

Definition handle (st : State) (ev : Event) : State :=
  match ev with
  | KeyDown key => handleKeyDown st key
  | Blur => handleBlur st
  | Change text => handleChange st text
  | Remove zip => removeZipCode st zip
  end.

End Component.
End ZipCodeInput.

(** ** shared/routes.ts: the request schemas the server uses *)

Section Server.

(** Library functions the routes call, as parameters: JavaScript's
    [Number] on a string, zod's e-mail check, and the printing of numbers
    and dates in the CSV export. *)
Variable Number : string -> number.
Variable isEmail : string -> bool.
Variable Number_toString : Z -> string.
Variable cents_toFixed2 : Z -> string.
Variable Date_toISOString : Z -> string.

(** [Number(v)] on a value of a request body. *)
Definition Number_of (v : JsValue) : number :=
  match v with
  | undefined => NaN
  | null => Int 0
  | boolean b => Int (if b then 1 else 0)
  | num n => n
  | str s => Number s
  end.

Record StartBody : Type := mkStartBody
  { body_programId : JsValue;
    body_applicantName : JsValue;
    body_applicantEmail : JsValue }.

Record StartInput : Type := mkStartInput
  { input_programId : number;
    input_applicantName : string;
    input_applicantEmail : string }.

(** [startApplicationSchema.parse]: [z.coerce.number()] applies [Number]
    and rejects [NaN], and no other number; [z.string().min(1)] wants a
    string of length at least one; [z.string().email()] a string that
    passes the e-mail check.  [None] is the thrown [ZodError]. *)
Definition startApplicationSchema_parse (body : StartBody)
  : option StartInput :=
  match Number_of (body_programId body),
        body_applicantName body,
        body_applicantEmail body with
  | NaN, _, _ => None
  | programId, str applicantName, str applicantEmail =>
      if (1 <=? String.length applicantName)%nat && isEmail applicantEmail
      then Some (mkStartInput programId applicantName applicantEmail)
      else None
  | _, _, _ => None
  end.

(** ** server/routes.ts: registerRoutes *)

(** A handler takes what it reads of the request: the route parameter, the
    query or the body, and for the reviewer routes [req.user], the user of
    the session; [req.isAuthenticated()] holds when there is one. *)

Inductive Body : Type :=
| programJson (p : Program.t)
| incomeLimitJson (l : IncomeLimit.t)
| startedJson (token : string) (id : Z)
| messageJson (message : string)
| applicationJson (a : option Application.t)
| applicationByTokenJson (a : Application.t) (documents : list Document.t)
    (activityEvents : list ActivityEvent.t)
| applicationListJson (l : list (Application.t * option Program.t))
| applicationDetailJson (a : Application.t) (documents : list Document.t)
    (activityEvents : list (ActivityEvent.t * option User.t))
    (program : option Program.t) (incomeLimitSnapshot : option IncomeLimit.t).

Inductive Response : Type :=
| sendStatus (code : Z)
| json (code : Z) (body : Body)
| send (contentType : string) (body : string).

(** The body of a reviewer decision, read without validation; a key can
    be missing. *)
Record DecisionBody : Type := mkDecisionBody
  { decision_status : option string;
    decision_note : option string }.

(** The query string of the reviewer listing. *)
Record ListQuery : Type := mkListQuery
  { query_status : option string;
    query_programId : option string;
    query_search : option string }.

Definition quote : string := String "034"%char EmptyString.
Definition newline : string := String "010"%char EmptyString.

(** [POST /api/programs]: [req.body] goes to [createProgram] as it is. *)
Definition programs_create (user : option User.t) (body : ProgramBody.t)
  (now : Z) : Promise Response :=
  match user with
  | None => ret (sendStatus 401)
  | Some _ =>
      await program <- storage.createProgram_json body;
      ret (json 201 (programJson program))
  end.

(** [POST /api/programs/:id/limits]: the limit is
    [{ ...req.body, programId: Number(req.params.id) }], whose three
    numbers the insert binds. *)
Definition incomeLimits_create (user : option User.t) (id : string)
  (body : IncomeLimitBody.t) (now : Z) : Promise Response :=
  match user with
  | None => ret (sendStatus 401)
  | Some _ =>
      await programId <- int4 (Number id);
      await householdSize <- int4 (IncomeLimitBody.householdSize body);
      await limitCents <- int4 (IncomeLimitBody.limitCents body);
      await limit <-
        storage.createIncomeLimit
          (InsertIncomeLimit.mk programId householdSize limitCents
             (IncomeLimitBody.versionLabel body)) now;
      ret (json 201 (incomeLimitJson limit))
  end.

(** [POST /api/applications/start] *)
Definition applications_start (body : StartBody) (randomBytes : string)
  (now : Z) : Promise Response :=
  let token := randomBytes in
  match startApplicationSchema_parse body with
  | None => throw ZodError
  | Some input =>
      await app <-
        storage.createApplication
          (InsertApplication.mk (input_programId input)
             (input_applicantName input) (input_applicantEmail input)
             token "Draft" (Some "NeedsReview")) now;
      ret (json 201 (startedJson token (Application.id app)))
  end.

(** [GET /api/applications/by-token/:token] *)
Definition applications_getByToken (token : string) : Promise Response :=
  await app <- storage.getApplicationByToken token;
  match app with
  | None => ret (sendStatus 404)
  | Some app =>
      await documents <- storage.getDocuments (Application.id app);
      await activityEvents <- storage.getActivityEvents (Application.id app);
      ret (json 200 (applicationByTokenJson app documents activityEvents))
  end.

(** [PATCH /api/applications/by-token/:token] *)
Definition applications_updateByToken (token : string)
  (body : PartialApplication.t) (now : Z) : Promise Response :=
  await app <- storage.getApplicationByToken token;
  match app with
  | None => ret (sendStatus 404)
  | Some app =>
      if negb (String.eqb (Application.status app) "Draft")
         && negb (String.eqb (Application.status app) "NeedsInfo")
      then ret (json 403 (messageJson "Cannot edit submitted application"))
      else
        await updated <-
          storage.updateApplication_json (Application.id app) body now;
        ret (json 200 (applicationJson updated))
  end.

(** [POST /api/applications/by-token/:token/submit] *)
Definition applications_submitByToken (token : string) (now : Z)
  : Promise Response :=
  await app <- storage.getApplicationByToken token;
  match app with
  | None => ret (sendStatus 404)
  | Some app =>
      let needsReview := ("NeedsReview", @None Z, @None string) in
      await calc <-
        match Application.householdSize app,
              Application.annualIncomeCents app with
        | Some householdSize, Some annualIncomeCents =>
            if truthy (Int householdSize) then
              await limit <-
                storage.getIncomeLimitForHousehold
                  (Application.programId app) householdSize;
              match limit with
              | Some limit =>
                  ret (if annualIncomeCents <=? IncomeLimit.limitCents limit
                       then "Eligible" else "NotEligible",
                       Some (IncomeLimit.limitCents limit),
                       Some (IncomeLimit.versionLabel limit))
              | None => ret needsReview
              end
            else ret needsReview
        | _, _ => ret needsReview
        end;
      let '(result, computedLimitCents, ruleVersion) := calc in
      await updated <-
        storage.updateApplication (Application.id app)
          (PartialApplication.mk None None None None None None None None
             None None None None
             (Some computedLimitCents) (Some (Some result))
             (Some ruleVersion) (Some "Submitted") (Some (Some now))
             None None None) now;
      await event <-
        storage.createActivityEvent
          (InsertActivityEvent.mk (Application.id app) "System"
             ("Application submitted. System calculation: " ++ result)%string
             None) now;
      ret (json 200 (applicationJson updated))
  end.

(** [GET /api/applications] *)
Definition applications_list (user : option User.t) (query : ListQuery)
  : Promise Response :=
  match user with
  | None => ret (sendStatus 401)
  | Some _ =>
      let filters :=
        storage.mkFilters
          (query_status query)
          (match query_programId query with
           | Some s => if String.eqb s EmptyString then None else Some (Number s)
           | None => None
           end)
          (query_search query) in
      await apps <- storage.getApplications (Some filters);
      await enriched <-
        all (fun a =>
               await program <- storage.getProgram (Application.programId a);
               ret (a, program)) apps;
      ret (json 200 (applicationListJson enriched))
  end.

(** [GET /api/applications/:id] *)
Definition applications_get (user : option User.t) (id : string)
  : Promise Response :=
  match user with
  | None => ret (sendStatus 401)
  | Some _ =>
      await id <- int4 (Number id);
      await app <- storage.getApplication id;
      match app with
      | None => ret (sendStatus 404)
      | Some app =>
          await documents <- storage.getDocuments (Application.id app);
          await activityEvents <-
            storage.getActivityEvents (Application.id app);
          await program <- storage.getProgram (Application.programId app);
          await eventsWithUsers <-
            all (fun ev =>
                   match ActivityEvent.createdByUserId ev with
                   | Some uid =>
                       if truthy (Int uid) then
                         await user <- storage.getUser uid;
                         ret (ev, user)
                       else ret (ev, None)
                   | None => ret (ev, None)
                   end) activityEvents;
          await incomeLimitSnapshot <-
            match Application.householdSize app with
            | Some householdSize =>
                if truthy (Int householdSize) then
                  storage.getIncomeLimitForHousehold
                    (Application.programId app) householdSize
                else ret None
            | None => ret None
            end;
          ret (json 200
                 (applicationDetailJson app documents eventsWithUsers
                    program incomeLimitSnapshot))
      end
  end.

(** [POST /api/applications/:id/decision] *)
Definition applications_decision (user : option User.t) (id : string)
  (body : DecisionBody) (now : Z) : Promise Response :=
  match user with
  | None => ret (sendStatus 401)
  | Some user =>
      let status := decision_status body in
      let note := decision_note body in
      await id <- int4 (Number id);
      await app <- storage.getApplication id;
      match app with
      | None => ret (sendStatus 404)
      | Some app =>
          await updated <-
            storage.updateApplication (Application.id app)
              (PartialApplication.mk None None None None None None None
                 None None None None None None None None
                 status None (Some (Some (User.id user)))
                 None None) now;
          await event <-
            storage.createActivityEvent
              (InsertActivityEvent.mk (Application.id app)
                 (match status with
                  | Some s =>
                      if String.eqb s "NeedsInfo" then "RequestInfo"
                      else "StatusChange"
                  | None => "StatusChange"
                  end)
                 ("Status changed to " ++ template status
                    ++ ". Note: " ++ template note)%string
                 (Some (User.id user))) now;
          await updated <- storage.getApplication (Application.id app);
          ret (json 200 (applicationJson updated))
      end
  end.

(** One line of the export: [Array.prototype.join] prints a number in
    decimal and a string as it is. *)
Definition csvRow (a : Application.t) : string :=
  String.concat ","
    [ Number_toString (Application.id a);
      (quote ++ Application.applicantName a ++ quote)%string;
      Application.applicantEmail a;
      Number_toString (Application.programId a);
      Application.status a;
      match Application.systemResult a with
      | Some r => r
      | None => EmptyString
      end;
      match Application.annualIncomeCents a with
      | Some c => if truthy (Int c) then cents_toFixed2 c else EmptyString
      | None => EmptyString
      end;
      match Application.householdSize a with
      | Some h => if truthy (Int h) then Number_toString h else EmptyString
      | None => EmptyString
      end;
      match Application.submittedAt a with
      | Some t => Date_toISOString t
      | None => EmptyString
      end ].

(** [GET /api/exports/applications] *)
Definition exports_applications (user : option User.t) : Promise Response :=
  match user with
  | None => ret (sendStatus 401)
  | Some _ =>
      await apps <- storage.getApplications None;
      let header :=
        String.concat ","
          ["ID"; "Applicant"; "Email"; "Program ID"; "Status";
           "System Result"; "Income"; "Household Size"; "Submitted At"] in
      let csvRows := header :: map csvRow apps in
      ret (send "text/csv" (String.concat newline csvRows))
  end.


(** ** Definitions used by the statements *)

(** [contains s t]: [s] occurs in [t] as a run of consecutive characters. *)
Fixpoint starts_with (s t : list ascii) : bool :=
  match s, t with
  | [], _ => true
  | _ :: _, [] => false
  | c :: s', d :: t' => Ascii.eqb c d && starts_with s' t'
  end.

Fixpoint contains_chars (s t : list ascii) : bool :=
  starts_with s t
  || match t with
     | [] => false
     | _ :: t' => contains_chars s t'
     end.

Definition contains (s t : string) : bool :=
  contains_chars (list_ascii_of_string s) (list_ascii_of_string t).

(** A search string without the characters [LIKE] reads specially. *)
Definition plain_char (c : ascii) : bool :=
  negb (Ascii.eqb c "%") && negb (Ascii.eqb c "_") && negb (Ascii.eqb c "\").

Definition plain (s : string) : bool :=
  forallb plain_char (list_ascii_of_string s).

(** The rows a query of the reviewer listing selects: a filter that is
    missing or empty is not applied, nor is a [programId] that reads as
    zero or as no number; the search is a [LIKE] pattern. *)
Definition selected (query : ListQuery) (a : Application.t) : bool :=
  match query_status query with
  | Some s => String.eqb s EmptyString || String.eqb (Application.status a) s
  | None => true
  end
  && match query_programId query with
     | Some s =>
         String.eqb s EmptyString
         || match Number s with
            | Int p => (p =? 0) || (Application.programId a =? p)
            | NaN | Fraction => true
            end
     | None => true
     end
  && match query_search query with
     | Some s =>
         String.eqb s EmptyString
         || like (Application.applicantName a) ("%" ++ s ++ "%")%string
     | None => true
     end.

(** A query the listing can run: its [programId], when the filter is in
    force, reads as an integer of 32 bits. *)
Definition programId_binds (query : ListQuery) : bool :=
  match query_programId query with
  | Some s =>
      String.eqb s EmptyString
      || match Number s with
         | Int p => in_int4 p
         | NaN => true
         | Fraction => false
         end
  | None => true
  end.

(** Descending order of a key, rows without the key first. *)
Definition desc_by {A : Type} (key : A -> option Z) (a b : A) : Prop :=
  desc_before (key a) (key b) = true.

Definition submittedAt_desc : Application.t -> Application.t -> Prop :=
  desc_by Application.submittedAt.

(** The reading of the listing filters as an exact match on every filter
    that is given. *)
Definition matches_all_given (query : ListQuery) (a : Application.t) : Prop :=
  (forall s, query_status query = Some s -> Application.status a = s)
  /\ (forall s, query_programId query = Some s ->
                Number s = Int (Application.programId a))
  /\ (forall s, query_search query = Some s ->
                contains s (Application.applicantName a) = true).

(** An integer of 32 bits. *)
Definition int32 (z : Z) : Prop := -2147483648 <= z <= 2147483647.




(** What an update by a body leaves in a column: the value of the body
    when the body has the key, the old value otherwise. *)
Definition written {A : Type} (new : option A) (old stored : A) : Prop :=
  match new with
  | Some v => stored = v
  | None => stored = old
  end.

(** The row [new] is the row [old] with the body written to it at the
    time [now]. *)
Definition patched (body : PartialApplication.t) (now : Z)
  (old new : Application.t) : Prop :=
  written (PartialApplication.id body)
    (Application.id old) (Application.id new)
  /\ written (PartialApplication.programId body)
       (Application.programId old) (Application.programId new)
  /\ written (PartialApplication.applicantName body)
       (Application.applicantName old) (Application.applicantName new)
  /\ written (PartialApplication.applicantEmail body)
       (Application.applicantEmail old) (Application.applicantEmail new)
  /\ written (PartialApplication.applicantPhone body)
       (Application.applicantPhone old) (Application.applicantPhone new)
  /\ written (PartialApplication.applicantToken body)
       (Application.applicantToken old) (Application.applicantToken new)
  /\ written (PartialApplication.addressLine1 body)
       (Application.addressLine1 old) (Application.addressLine1 new)
  /\ written (PartialApplication.city body)
       (Application.city old) (Application.city new)
  /\ written (PartialApplication.state body)
       (Application.state old) (Application.state new)
  /\ written (PartialApplication.zip body)
       (Application.zip old) (Application.zip new)
  /\ written (PartialApplication.householdSize body)
       (Application.householdSize old) (Application.householdSize new)
  /\ written (PartialApplication.annualIncomeCents body)
       (Application.annualIncomeCents old) (Application.annualIncomeCents new)
  /\ written (PartialApplication.computedLimitCents body)
       (Application.computedLimitCents old) (Application.computedLimitCents new)
  /\ written (PartialApplication.systemResult body)
       (Application.systemResult old) (Application.systemResult new)
  /\ written (PartialApplication.ruleVersion body)
       (Application.ruleVersion old) (Application.ruleVersion new)
  /\ written (PartialApplication.status body)
       (Application.status old) (Application.status new)
  /\ written (PartialApplication.submittedAt body)
       (Application.submittedAt old) (Application.submittedAt new)
  /\ written (PartialApplication.reviewedBy body)
       (Application.reviewedBy old) (Application.reviewedBy new)
  /\ written (PartialApplication.createdAt body)
       (Application.createdAt old) (Application.createdAt new)
  /\ Application.updatedAt new = Some now.


(** An update that sets neither the id nor the token. *)
Definition keeps_keys (u : PartialApplication.t) : Prop :=
  PartialApplication.id u = None /\ PartialApplication.applicantToken u = None.

(** The three values the submission computes for an application, read off
    the table of income limits. *)
Definition calculation (db : Db) (app : Application.t)
  : string * option Z * option string :=
  match Application.householdSize app, Application.annualIncomeCents app with
  | Some h, Some income =>
      if h =? 0 then ("NeedsReview", None, None)
      else
        match hd_error
                (filter (fun l =>
                           (IncomeLimit.programId l =? Application.programId app)
                           && (IncomeLimit.householdSize l =? h))
                        (incomeLimits db)) with
        | Some limit =>
            (if income <=? IncomeLimit.limitCents limit
             then "Eligible" else "NotEligible",
             Some (IncomeLimit.limitCents limit),
             Some (IncomeLimit.versionLabel limit))
        | None => ("NeedsReview", None, None)
        end
  | _, _ => ("NeedsReview", None, None)
  end.

(** The update a submission writes. *)
Definition submission (calc : string * option Z * option string) (now : Z)
  : PartialApplication.t :=
  let '(result, computedLimitCents, ruleVersion) := calc in
  PartialApplication.mk None None None None None None None None
    None None None None
    (Some computedLimitCents) (Some (Some result))
    (Some ruleVersion) (Some "Submitted") (Some (Some now))
    None None None.

(** The update a decision writes. *)
Definition decision (status : option string) (reviewedBy : Z)
  : PartialApplication.t :=
  PartialApplication.mk None None None None None None None
    None None None None None None None None
    status None (Some (Some reviewedBy)) None None.

(** ** A small database for the examples *)

Definition reviewer : User.t :=
  User.mk 1 "admin@example.com" "hash.salt" "Admin" (Some 0).

Definition sample_application (id : Z) (name token : string)
  (householdSize annualIncomeCents : option Z) (status : string)
  : Application.t :=
  Application.mk id 1 name "applicant@example.com" None token
    None None None None householdSize annualIncomeCents
    None (Some "NeedsReview") None status None None (Some 0) (Some 0).

Definition ada : Application.t :=
  sample_application 1 "Ada" "aa" (Some 2) (Some 3900000) "Draft".
Definition bob : Application.t :=
  sample_application 2 "Bob" "bb" (Some 0) (Some 100) "Draft".
Definition cy : Application.t :=
  sample_application 3 "Cy" "cc" (Some 1) (Some 0) "Approved".
Definition di : Application.t :=
  sample_application 4 "Di" "dd" None None "Submitted".

(** The seeded program with its limits for households of one and two,
    a limit for a household of zero, and four applications. *)
Definition sample_db : Db :=
  mkDb [reviewer]
    [Program.mk 1 "Example Rebate Program" "Statewide" 0 None (Some 0)]
    [IncomeLimit.mk 1 1 1 3500000 "2024-V1" (Some 0);
     IncomeLimit.mk 2 1 2 4000000 "2024-V1" (Some 0);
     IncomeLimit.mk 3 1 0 3000000 "2024-V1" (Some 0)]
    [ada; bob; cy; di]
    [] [] 2 4 5 1.

(** Stand-ins for the library functions, for the examples only:
    [Number] on the digit strings the examples use, and an e-mail check
    that asks for an [@] between two characters. *)
Definition sample_Number (s : string) : number :=
  if String.eqb s "0" then Int 0
  else if String.eqb s "1" then Int 1
  else if String.eqb s "2" then Int 2
  else if String.eqb s "9" then Int 9
  else NaN.

Definition sample_isEmail (s : string) : bool := like s "%_@_%".

(** [Number] on a string of decimal digits, which is all it is asked for
    in the examples that use it; any other string reads as [NaN] here. *)
Fixpoint decimal (acc : Z) (s : string) : option Z :=
  match s with
  | EmptyString => Some acc
  | String c s' =>
      let d := Z.of_nat (nat_of_ascii c) - 48 in
      if (0 <=? d) && (d <=? 9) then decimal (10 * acc + d) s' else None
  end.

Definition decimal_Number (s : string) : number :=
  match s with
  | EmptyString => Int 0
  | _ => match decimal 0 s with
         | Some z => Int z
         | None => NaN
         end
  end.

(** ** server/routes.ts: the remaining routes and the seed *)

(** The answer of a route that sends one kind of JSON:
    [res.sendStatus(code)] or [res.status(code).json(a)]. *)
Inductive Reply (A : Type) : Type :=
| replyStatus (code : Z)
| replyJson (code : Z) (a : A).
#[global] Arguments replyStatus {A} code.
#[global] Arguments replyJson {A} code a.

(** [req.file], as multer's [upload.single] leaves it. *)
Record File : Type := mkFile
  { originalname : string;
    file_path : string;
    mimetype : string;
    size : Z }.

(** [GET /api/auth/me] *)
Definition auth_me (user : option User.t) : Promise (Reply (option User.t)) :=
  match user with
  | Some user => ret (replyJson 200 (Some user))
  | None => ret (replyJson 200 None)
  end.

(** [GET /api/programs] *)
Definition programs_list : Promise (Reply (list Program.t)) :=
  await programs <- storage.getPrograms;
  ret (replyJson 200 programs).

(** [GET /api/programs/:id] *)
Definition programs_get (id : string) : Promise (Reply Program.t) :=
  await id <- int4 (Number id);
  await program <- storage.getProgram id;
  match program with
  | None => ret (replyStatus 404)
  | Some program => ret (replyJson 200 program)
  end.

(** [GET /api/programs/:id/limits] *)
Definition incomeLimits_list (id : string)
  : Promise (Reply (list IncomeLimit.t)) :=
  await id <- int4 (Number id);
  await limits <- storage.getIncomeLimits id;
  ret (replyJson 200 limits).

(** [POST /api/applications/by-token/:token/upload], after multer has
    stored the file. *)
Definition applications_upload (token : string) (file : option File)
  (nextval now : Z) : Promise (Reply Document.t) :=
  await app <- storage.getApplicationByToken token;
  match app, file with
  | Some app, Some file =>
      await doc <-
        storage.createDocument
          (InsertDocument.mk (Application.id app) (originalname file)
             (file_path file) (mimetype file) (size file)) nextval now;
      ret (replyJson 200 doc)
  | _, _ => ret (replyStatus 400)
  end.

(** [for (let i = lo; i <= hi; i++) await body(i)], with the number of
    rounds as fuel. *)
Fixpoint for_rounds (rounds : nat) (i : Z) (body : Z -> Promise unit)
  : Promise unit :=
  match rounds with
  | O => ret tt
  | S rounds' => await u <- body i; for_rounds rounds' (i + 1) body
  end.

Definition for_upto (lo hi : Z) (body : Z -> Promise unit) : Promise unit :=
  for_rounds (Z.to_nat (hi - lo + 1)) lo body.

(** [seedDatabase]; [hashPassword("admin123")] is the argument
    [passwordHash]. *)
Definition seedDatabase (passwordHash : string) (users_nextval now : Z)
  : Promise unit :=
  await existingUsers <- storage.getUserByEmail "admin@example.com";
  await u <-
    match existingUsers with
    | None =>
        await created <-
          storage.createUser
            (InsertUser.mk "admin@example.com" passwordHash (Some "Admin"))
            users_nextval now;
        ret tt
    | Some _ => ret tt
    end;
  await existingPrograms <- storage.getPrograms;
  if Z.of_nat (List.length existingPrograms) =? 0 then
    await program <-
      storage.createProgram
        (InsertProgram.mk "Example Rebate Program" "Statewide" now None) now;
    let baseLimit := 3000000 in
    for_upto 1 6 (fun i =>
      await limit <-
        storage.createIncomeLimit
          (InsertIncomeLimit.mk (Program.id program) i
             (baseLimit + i * 500000) "2024-V1") now;
      ret tt)
  else ret tt.

(** ** shared/routes.ts: buildUrl *)

(** [s.includes(sub)] *)
Definition includes (s sub : string) : bool := contains sub s.

(** The first occurrence of [pat] in [s]: what precedes it and what
    follows it. *)
Fixpoint split_first (pat s : list ascii) : option (list ascii * list ascii) :=
  if starts_with pat s then Some ([], skipn (List.length pat) s)
  else
    match s with
    | [] => None
    | c :: s' =>
        match split_first pat s' with
        | Some (before, after) => Some (c :: before, after)
        | None => None
        end
    end.

(** The replacement text of [s.replace(pat, repl)] for a string [pat]:
    [$$] stands for a dollar, [$&] for the match, [$`] and [$'] for the
    text before and after it; any other dollar is literal. *)
Fixpoint substitution (repl matched before after : list ascii) : list ascii :=
  match repl with
  | [] => []
  | c :: repl' =>
      if Ascii.eqb c "$" then
        match repl' with
        | d :: repl'' =>
            if Ascii.eqb d "$" then c :: substitution repl'' matched before after
            else if Ascii.eqb d "&" then
              matched ++ substitution repl'' matched before after
            else if Ascii.eqb d "`" then
              before ++ substitution repl'' matched before after
            else if Ascii.eqb d "'" then
              after ++ substitution repl'' matched before after
            else c :: substitution repl' matched before after
        | [] => [c]
        end
      else c :: substitution repl' matched before after
  end.

(** [s.replace(pat, repl)] with a string pattern: the first occurrence
    only. *)
Definition replace (s pat repl : string) : string :=
  let pat' := list_ascii_of_string pat in
  match split_first pat' (list_ascii_of_string s) with
  | Some (before, after) =>
      string_of_list_ascii
        (before
           ++ substitution (list_ascii_of_string repl) pat' before after
           ++ after)
  | None => s
  end.

(** A value of [Record<string, string | number>]. *)
Inductive ParamValue : Type :=
| paramString (s : string)
| paramNumber (n : Z).

(** [String(value)] *)
Definition String_of (value : ParamValue) : string :=
  match value with
  | paramString s => s
  | paramNumber n => Number_toString n
  end.

(** [buildUrl(path, params)]; [params] lists the entries in the order of
    [Object.entries]. *)
Definition buildUrl (path : string) (params : option (list (string * ParamValue)))
  : string :=
  let url := path in
  match params with
  | Some params =>
      fold_left
        (fun url entry =>
           let '(key, value) := entry in
           if includes url (":" ++ key)%string
           then replace url (":" ++ key)%string (String_of value)
           else url)
        params url
  | None => url
  end.

(** ** More data for the examples *)

(** A database before the seed. *)
Definition empty_db : Db := mkDb [] [] [] [] [] [] 1 1 1 1.

(** A draft for a household of three, for which the table holds no
    limit. *)
Definition fay : Application.t :=
  sample_application 6 "Fay" "ff" (Some 3) (Some 4400000) "Draft".

Definition family_db : Db :=
  mkDb (users sample_db) (programs sample_db) (incomeLimits sample_db)
    [ada; fay] [] [] 2 4 7 1.

Definition sample_file : File :=
  mkFile "payslip.pdf" "uploads/1700000000000-42-payslip.pdf"
    "application/pdf" 52340.

(** A stand-in for the printing functions of the export. *)
Definition sample_print (n : Z) : string := "#".

(** A stand-in for [trim], right on a text without blanks around it. *)
Definition sample_trim (s : string) : string := s.

Definition sample_zips : ZipCodeInput.State :=
  ZipCodeInput.mk ["94110"; "94103"] EmptyString EmptyString.

(** * Proofs *)

(** ** Lists with distinct keys *)

Section Distinct.
Context {A K : Type} (key : A -> K) (eqb : K -> K -> bool).
Hypothesis eqb_eq : forall x y, eqb x y = true <-> x = y.

Lemma existsb_key_false (k : K) (l : list A) (a : A) :
  existsb (eqb k) (map key l) = false -> In a l -> eqb k (key a) = false.
Proof.
  intros Hex Hin.
  destruct (eqb k (key a)) eqn:E; [|reflexivity].
  assert (existsb (eqb k) (map key l) = true) as Ht.
  { apply existsb_exists. exists (key a). split; [now apply in_map|assumption]. }
  congruence.
Qed.

Lemma filter_key_none (k : K) (l : list A) :
  existsb (eqb k) (map key l) = false ->
  filter (fun x => eqb (key x) k) l = [].
Proof.
  induction l as [|x l IH]; simpl; intros H; [reflexivity|].
  apply orb_false_iff in H as [Hx Hl].
  destruct (eqb (key x) k) eqn:E.
  - apply eqb_eq in E; subst k.
    assert (eqb (key x) (key x) = true) by now apply eqb_eq.
    congruence.
  - auto.
Qed.

(** With distinct keys, selecting by the key of a row of the table
    selects that row and no other. *)
Lemma distinct_filter_key (l : list A) (a : A) :
  distinct eqb (map key l) = true -> In a l ->
  filter (fun x => eqb (key x) (key a)) l = [a].
Proof.
  induction l as [|x l IH]; simpl; intros Hd Hin; [contradiction|].
  apply andb_true_iff in Hd as [Hx Hd].
  apply negb_true_iff in Hx.
  destruct Hin as [->|Hin].
  - assert (eqb (key a) (key a) = true) as -> by now apply eqb_eq.
    f_equal. now apply filter_key_none.
  - rewrite (existsb_key_false _ _ _ Hx Hin). auto.
Qed.
End Distinct.

Lemma hd_filter_In {A : Type} (p : A -> bool) (l : list A) (a : A) :
  hd_error (filter p l) = Some a -> In a l /\ p a = true.
Proof.
  intros H.
  assert (In a (filter p l)) as Hin.
  { destruct (filter p l); simpl in H; [discriminate|].
    injection H as ->. now left. }
  now apply filter_In in Hin.
Qed.

Lemma hd_filter_None {A : Type} (p : A -> bool) (l : list A) :
  hd_error (filter p l) = None -> forall a, In a l -> p a = false.
Proof.
  intros H a Hin.
  destruct (p a) eqn:E; [|reflexivity].
  assert (In a (filter p l)) as Hf by (apply filter_In; auto).
  destruct (filter p l); [contradiction|discriminate].
Qed.

Lemma hd_filter_exists {A : Type} (p : A -> bool) (l : list A) (a : A) :
  In a l -> p a = true -> exists b, hd_error (filter p l) = Some b.
Proof.
  intros Hin Hp.
  assert (In a (filter p l)) as Hf by (apply filter_In; auto).
  destruct (filter p l) as [|b l']; [contradiction|].
  now exists b.
Qed.

(** A map that keeps the value a filter tests commutes with the filter. *)
Lemma filter_map_keep {A : Type} (p : A -> bool) (f : A -> A) (l : list A) :
  (forall a, p (f a) = p a) ->
  filter p (map f l) = map f (filter p l).
Proof.
  intros Hp. induction l as [|x l IH]; simpl; [reflexivity|].
  rewrite Hp. destruct (p x); simpl; now rewrite IH.
Qed.

Lemma hd_error_map {A B : Type} (f : A -> B) (l : list A) :
  hd_error (map f l) = option_map f (hd_error l).
Proof. now destruct l. Qed.

(** Turns the result [H] of a storage read into the equation on the head of
    the selected rows. *)
Ltac read_row H :=
  unfold storage.getApplicationByToken, storage.getIncomeLimitForHousehold,
    select in H;
  injection H as H.

(** ** Numbers of 32 bits *)

Lemma in_int4_range (z : Z) : in_int4 z = true <-> int32 z.
Proof.
  unfold in_int4, int32. rewrite andb_true_iff, !Z.leb_le. reflexivity.
Qed.

Lemma int32_in_int4 (z : Z) : int32 z -> in_int4 z = true.
Proof. apply in_int4_range. Qed.

Lemma not_int32_in_int4 (z : Z) : ~ int32 z -> in_int4 z = false.
Proof.
  intros H. destruct (in_int4 z) eqn:E; [|reflexivity].
  now apply in_int4_range in E.
Qed.

Lemma int4_bound (z : Z) db :
  in_int4 z = true -> int4 (Int z) db = (Value z, db).
Proof. intros H. unfold int4. now rewrite H. Qed.

Lemma int4_rejected (n : number) db :
  n = NaN \/ n = Fraction \/ (exists z, n = Int z /\ ~ int32 z) ->
  int4 n db = (Thrown DatabaseError, db).
Proof.
  intros [-> | [-> | (z & -> & H)]]; try reflexivity.
  unfold int4. now rewrite not_int32_in_int4.
Qed.




(** A read by id that returns has compared an id of 32 bits. *)
Lemma getApplication_read db id r db' :
  storage.getApplication id db = (Value r, db') ->
  in_int4 id = true
  /\ hd_error (filter (fun a => Application.id a =? id) (applications db)) = r.
Proof.
  unfold storage.getApplication. destruct (in_int4 id); [|discriminate].
  intros H. injection H as H _. auto.
Qed.

Lemma getApplication_bound db id :
  in_int4 id = true ->
  storage.getApplication id db
  = (Value (hd_error (filter (fun a => Application.id a =? id)
                             (applications db))), db).
Proof. intros H. unfold storage.getApplication. now rewrite H. Qed.

(** ** Updates that keep the two keys *)

Lemma set_keeps_id u a :
  PartialApplication.id u = None ->
  Application.id (storage.set u a) = Application.id a.
Proof. intros H. simpl. now rewrite H. Qed.

Lemma set_keeps_token u a :
  PartialApplication.applicantToken u = None ->
  Application.applicantToken (storage.set u a) = Application.applicantToken a.
Proof. intros H. simpl. now rewrite H. Qed.

Lemma constraints_ok_update u (hit : Application.t -> bool) rows :
  keeps_keys u ->
  constraints_ok (map (fun a => if hit a then storage.set u a else a) rows)
  = constraints_ok rows.
Proof.
  intros [Hid Htok]. unfold constraints_ok.
  rewrite !map_map. f_equal; f_equal; apply map_ext; intros a;
    destruct (hit a); auto using set_keeps_id, set_keeps_token.
Qed.

Lemma constraints_ok_ids rows :
  constraints_ok rows = true ->
  distinct Z.eqb (map Application.id rows) = true.
Proof. unfold constraints_ok. intros H. now apply andb_true_iff in H. Qed.

Lemma with_updatedAt_keeps_keys u now :
  keeps_keys u -> keeps_keys (storage.with_updatedAt u now).
Proof. intros [? ?]. now split. Qed.

(** [updateApplication] on the id of a row of a table with distinct ids,
    with an update that keeps id and token: the statement is accepted,
    returns the updated row, and the row is found again under its id and
    its token. *)
Lemma updateApplication_keeps_keys db app u now :
  constraints_ok (applications db) = true ->
  In app (applications db) ->
  keeps_keys u ->
  let a' := storage.set (storage.with_updatedAt u now) app in
  exists db',
    storage.updateApplication (Application.id app) u now db
    = (Value (Some a'), db')
    /\ users db' = users db
    /\ programs db' = programs db
    /\ incomeLimits db' = incomeLimits db
    /\ documents db' = documents db
    /\ activityEvents db' = activityEvents db
    /\ activity_events_id_seq db' = activity_events_id_seq db
    /\ applications db'
       = map (fun a => if Application.id a =? Application.id app
                       then storage.set (storage.with_updatedAt u now) a
                       else a) (applications db).
Proof.
  intros Hok Hin Hk a'.
  unfold storage.updateApplication.
  rewrite constraints_ok_update by now apply with_updatedAt_keeps_keys.
  rewrite Hok.
  rewrite (distinct_filter_key Application.id Z.eqb Z.eqb_eq _ app
             (constraints_ok_ids _ Hok) Hin).
  eexists. split; [reflexivity|]. simpl. repeat split; reflexivity.
Qed.

(** A table that satisfies the two constraints satisfies them after any
    statement on it, accepted or rejected. *)
Lemma updateApplication_keeps_constraints id u now db :
  constraints_ok (applications db) = true ->
  constraints_ok (applications (snd (storage.updateApplication id u now db)))
  = true.
Proof.
  intros Hok. unfold storage.updateApplication.
  destruct (constraints_ok (map _ (applications db))) eqn:E; simpl; assumption.
Qed.

Lemma createApplication_keeps_constraints ins now db :
  constraints_ok (applications db) = true ->
  constraints_ok (applications (snd (storage.createApplication ins now db)))
  = true.
Proof.
  intros Hok. unfold storage.createApplication.
  destruct (InsertApplication.programId ins) as [|p|]; try assumption.
  destruct (in_int4 p); [|assumption].
  destruct (constraints_ok (applications db ++ _)) eqn:E; simpl; assumption.
Qed.

Lemma find_after_update (p : Application.t -> bool) u id rows app :
  (forall a, p (storage.set u a) = p a) ->
  hd_error (filter p rows) = Some app ->
  Application.id app = id ->
  hd_error
    (filter p (map (fun a => if Application.id a =? id
                             then storage.set u a else a) rows))
  = Some (storage.set u app).
Proof.
  intros Hp Hhd Hid.
  rewrite filter_map_keep.
  - rewrite hd_error_map, Hhd. simpl. now rewrite Hid, Z.eqb_refl.
  - intros a. destruct (Application.id a =? id); auto.
Qed.

(** ** Submission, in one equation *)

Lemma submission_keeps_keys calc now : keeps_keys (submission calc now).
Proof. destruct calc as [[? ?] ?]. now split. Qed.

Lemma submitByToken_run db token now app :
  constraints_ok (applications db) = true ->
  storage.getApplicationByToken token db = (Value (Some app), db) ->
  let a' :=
    storage.set
      (storage.with_updatedAt (submission (calculation db app) now) now) app in
  exists db' ev,
    applications_submitByToken token now db
    = (Value (json 200 (applicationJson (Some a'))), db')
    /\ storage.getApplicationByToken token db' = (Value (Some a'), db')
    /\ incomeLimits db' = incomeLimits db
    /\ activityEvents db' = activityEvents db ++ [ev]
    /\ ActivityEvent.applicationId ev = Application.id app
    /\ ActivityEvent.type ev = "System".
Proof.
  intros Hok Hget a'.
  assert (hd_error
            (filter (fun a => String.eqb (Application.applicantToken a) token)
                    (applications db)) = Some app) as Hhd.
  { unfold storage.getApplicationByToken, select in Hget. congruence. }
  destruct (hd_filter_In _ _ _ Hhd) as [Hin _].
  destruct (updateApplication_keeps_keys db app
              (submission (calculation db app) now) now Hok Hin
              (submission_keeps_keys _ _))
    as (db1 & Hupd & _ & _ & Hlim & _ & Hev & Hseq & Happs).
  fold a' in Hupd.
  unfold applications_submitByToken, bind at 1. rewrite Hget.
  match goal with
  | |- exists _ _, bind ?m _ _ = _ /\ _ =>
      assert (m db = (Value (calculation db app), db)) as Hcalc
  end.
  { unfold calculation, bind, ret, storage.getIncomeLimitForHousehold, select.
    destruct (Application.householdSize app) as [h|]; [|reflexivity].
    destruct (Application.annualIncomeCents app) as [income|]; [|reflexivity].
    unfold truthy. destruct (h =? 0); cbv beta iota delta [negb]; [reflexivity|].
    match goal with
    | |- context [hd_error (filter ?p (incomeLimits db))] =>
        destruct (hd_error (filter p (incomeLimits db)))
    end; reflexivity. }
  unfold bind at 1. rewrite Hcalc.
  destruct (calculation db app) as [[result c] v] eqn:Ecalc.
  unfold bind at 1. unfold submission in Hupd. rewrite Hupd.
  unfold bind, ret, storage.createActivityEvent.
  eexists. eexists. split; [reflexivity|].
  simpl. repeat split; try assumption; try reflexivity.
  - unfold storage.getApplicationByToken, select. simpl.
    rewrite Happs.
    rewrite (find_after_update _ _ _ _ app); try easy.
  - now rewrite Hev.
  - reflexivity.
  - reflexivity.
Qed.

(** ** Submission by token *)

Lemma limit_lookup_sound db programId size limit :
  storage.getIncomeLimitForHousehold programId size db = (Value (Some limit), db) ->
  In limit (incomeLimits db)
  /\ IncomeLimit.programId limit = programId
  /\ IncomeLimit.householdSize limit = size.
Proof.
  intros Hhd. read_row Hhd.
  apply hd_filter_In in Hhd as [Hin Hp].
  apply andb_true_iff in Hp as [Hp Hs].
  apply Z.eqb_eq in Hp, Hs. auto.
Qed.

Lemma limit_lookup_complete db programId size l :
  In l (incomeLimits db) ->
  IncomeLimit.programId l = programId ->
  IncomeLimit.householdSize l = size ->
  exists limit,
    storage.getIncomeLimitForHousehold programId size db
    = (Value (Some limit), db).
Proof.
  intros Hin Hp Hs. unfold storage.getIncomeLimitForHousehold, select.
  destruct (hd_filter_exists
              (fun l => (IncomeLimit.programId l =? programId)
                        && (IncomeLimit.householdSize l =? size))
              (incomeLimits db) l Hin) as [limit Hl].
  - rewrite Hp, Hs, !Z.eqb_refl. reflexivity.
  - exists limit. now rewrite Hl.
Qed.

(** C1, as amended.  Submitting the application of a token whose
    [householdSize] is neither null nor zero and whose [annualIncomeCents]
    is not null, when the table holds an income limit for its program and
    household size: the lookup returns such a limit, the stored
    [systemResult] is [Eligible] if the income is at most that limit's
    [limitCents] and [NotEligible] otherwise, and [computedLimitCents] and
    [ruleVersion] are that limit's [limitCents] and [versionLabel]. *)
Theorem submit_compares_income_with_limit db token now app h income :
  constraints_ok (applications db) = true ->
  storage.getApplicationByToken token db = (Value (Some app), db) ->
  Application.householdSize app = Some h ->
  h <> 0 ->
  Application.annualIncomeCents app = Some income ->
  (exists l, In l (incomeLimits db)
             /\ IncomeLimit.programId l = Application.programId app
             /\ IncomeLimit.householdSize l = h) ->
  exists limit db' a',
    storage.getIncomeLimitForHousehold (Application.programId app) h db
    = (Value (Some limit), db)
    /\ In limit (incomeLimits db)
    /\ IncomeLimit.programId limit = Application.programId app
    /\ IncomeLimit.householdSize limit = h
    /\ applications_submitByToken token now db
       = (Value (json 200 (applicationJson (Some a'))), db')
    /\ storage.getApplicationByToken token db' = (Value (Some a'), db')
    /\ Application.systemResult a'
       = Some (if income <=? IncomeLimit.limitCents limit
               then "Eligible" else "NotEligible")
    /\ Application.computedLimitCents a' = Some (IncomeLimit.limitCents limit)
    /\ Application.ruleVersion a' = Some (IncomeLimit.versionLabel limit).
Proof.
  intros Hok Hget Hh Hnz Hinc (l & Hin & Hp & Hs).
  destruct (limit_lookup_complete db _ _ l Hin Hp Hs) as [limit Hlim].
  destruct (limit_lookup_sound db _ _ _ Hlim) as (Hlin & Hlp & Hls).
  destruct (submitByToken_run db token now app Hok Hget)
    as (db' & ev & Hrun & Hfind & _).
  exists limit, db'. eexists.
  repeat split; try eassumption.
  all: unfold calculation; rewrite Hh, Hinc;
    apply Z.eqb_neq in Hnz; rewrite Hnz;
    read_row Hlim; rewrite Hlim; reflexivity.
Qed.

(** C2.  Submitting the application of a token when [householdSize] or
    [annualIncomeCents] is null, or when the table holds no income limit
    for the application's program and household size: the request is
    answered 200, and the stored application has [systemResult]
    [NeedsReview], [computedLimitCents] and [ruleVersion] null, and status
    [Submitted]. *)
Theorem submit_without_limit_needs_review db token now app :
  constraints_ok (applications db) = true ->
  storage.getApplicationByToken token db = (Value (Some app), db) ->
  Application.householdSize app = None
  \/ Application.annualIncomeCents app = None
  \/ (forall l, In l (incomeLimits db) ->
                IncomeLimit.programId l = Application.programId app ->
                Application.householdSize app
                <> Some (IncomeLimit.householdSize l)) ->
  exists db' a',
    applications_submitByToken token now db
    = (Value (json 200 (applicationJson (Some a'))), db')
    /\ storage.getApplicationByToken token db' = (Value (Some a'), db')
    /\ Application.systemResult a' = Some "NeedsReview"
    /\ Application.computedLimitCents a' = None
    /\ Application.ruleVersion a' = None
    /\ Application.status a' = "Submitted".
Proof.
  intros Hok Hget Hcase.
  destruct (submitByToken_run db token now app Hok Hget)
    as (db' & ev & Hrun & Hfind & _).
  exists db'. eexists. split; [eassumption|]. split; [eassumption|].
  assert (calculation db app = ("NeedsReview", None, None)) as ->.
  { unfold calculation.
    destruct (Application.householdSize app) as [h|] eqn:Eh; [|reflexivity].
    destruct (Application.annualIncomeCents app) as [i|] eqn:Ei; [|reflexivity].
    destruct (h =? 0); [reflexivity|].
    destruct Hcase as [Hc|[Hc|Hc]]; try discriminate.
    destruct (hd_error _) as [limit|] eqn:El; [|reflexivity].
    apply hd_filter_In in El as [Hin Hp].
    apply andb_true_iff in Hp as [Hp Hs]. apply Z.eqb_eq in Hp, Hs.
    exfalso. apply (Hc limit Hin Hp). now rewrite Hs. }
  repeat split.
Qed.

(** C9.  Submission by token asks nothing of the current status: for the
    application of the token, whatever its status, the request is answered
    200 and the stored application has status [Submitted], [submittedAt]
    the time of the request, a [systemResult] among the three system
    results, and [computedLimitCents] and [ruleVersion] either both null
    or those of an income limit of the table; the columns the applicant
    entered and [reviewedBy] keep their values. *)
Theorem submit_has_no_status_precondition db token now app :
  constraints_ok (applications db) = true ->
  storage.getApplicationByToken token db = (Value (Some app), db) ->
  exists db' a' result,
    applications_submitByToken token now db
    = (Value (json 200 (applicationJson (Some a'))), db')
    /\ storage.getApplicationByToken token db' = (Value (Some a'), db')
    /\ Application.status a' = "Submitted"
    /\ Application.submittedAt a' = Some now
    /\ Application.systemResult a' = Some result
    /\ In result systemResults
    /\ ((Application.computedLimitCents a' = None
         /\ Application.ruleVersion a' = None)
        \/ exists limit,
             In limit (incomeLimits db)
             /\ Application.computedLimitCents a'
                = Some (IncomeLimit.limitCents limit)
             /\ Application.ruleVersion a'
                = Some (IncomeLimit.versionLabel limit))
    /\ Application.id a' = Application.id app
    /\ Application.programId a' = Application.programId app
    /\ Application.applicantName a' = Application.applicantName app
    /\ Application.applicantEmail a' = Application.applicantEmail app
    /\ Application.householdSize a' = Application.householdSize app
    /\ Application.annualIncomeCents a' = Application.annualIncomeCents app
    /\ Application.reviewedBy a' = Application.reviewedBy app.
Proof.
  intros Hok Hget.
  destruct (submitByToken_run db token now app Hok Hget)
    as (db' & ev & Hrun & Hfind & _).
  destruct (calculation db app) as [[result c] v] eqn:Ecalc.
  exists db'. eexists. exists result.
  split; [eassumption|]. split; [eassumption|].
  assert (In result systemResults
          /\ ((c = None /\ v = None)
              \/ exists limit,
                   In limit (incomeLimits db)
                   /\ c = Some (IncomeLimit.limitCents limit)
                   /\ v = Some (IncomeLimit.versionLabel limit)))
    as [Hres Hlim].
  { unfold calculation in Ecalc.
    assert (In "NeedsReview" systemResults) as Hnr by (simpl; auto).
    destruct (Application.householdSize app) as [h|];
      [|injection Ecalc as <- <- <-; auto].
    destruct (Application.annualIncomeCents app) as [i|];
      [|injection Ecalc as <- <- <-; auto].
    destruct (h =? 0); [injection Ecalc as <- <- <-; auto|].
    destruct (hd_error _) as [limit|] eqn:El;
      [|injection Ecalc as <- <- <-; auto].
    apply hd_filter_In in El as [Hin _].
    injection Ecalc as <- <- <-. split.
    - destruct (i <=? _); simpl; auto.
    - right. now exists limit. }
  simpl. repeat split; assumption.
Qed.

(** C10.  The guard of the submission reads the two financial columns
    differently at zero.  With [householdSize] zero the stored result is
    [NeedsReview] with [computedLimitCents] and [ruleVersion] null,
    whatever the income and the table of limits hold.  With a positive
    [householdSize] and [annualIncomeCents] zero the limit is looked up
    and compared: the stored result is [Eligible] if zero is at most the
    limit's [limitCents] and [NotEligible] otherwise, with that limit's
    [limitCents] and [versionLabel]. *)
Theorem submit_zero_household_and_zero_income db token now app :
  constraints_ok (applications db) = true ->
  storage.getApplicationByToken token db = (Value (Some app), db) ->
  (Application.householdSize app = Some 0 ->
   exists db' a',
     applications_submitByToken token now db
     = (Value (json 200 (applicationJson (Some a'))), db')
     /\ storage.getApplicationByToken token db' = (Value (Some a'), db')
     /\ Application.systemResult a' = Some "NeedsReview"
     /\ Application.computedLimitCents a' = None
     /\ Application.ruleVersion a' = None)
  /\ (forall h limit,
        Application.householdSize app = Some h ->
        0 < h ->
        Application.annualIncomeCents app = Some 0 ->
        storage.getIncomeLimitForHousehold (Application.programId app) h db
        = (Value (Some limit), db) ->
        exists db' a',
          applications_submitByToken token now db
          = (Value (json 200 (applicationJson (Some a'))), db')
          /\ storage.getApplicationByToken token db' = (Value (Some a'), db')
          /\ Application.systemResult a'
             = Some (if 0 <=? IncomeLimit.limitCents limit
                     then "Eligible" else "NotEligible")
          /\ Application.computedLimitCents a'
             = Some (IncomeLimit.limitCents limit)
          /\ Application.ruleVersion a'
             = Some (IncomeLimit.versionLabel limit)).
Proof.
  intros Hok Hget.
  destruct (submitByToken_run db token now app Hok Hget)
    as (db' & ev & Hrun & Hfind & _).
  split.
  - intros Hh. exists db'. eexists.
    split; [eassumption|]. split; [eassumption|].
    unfold calculation. rewrite Hh.
    destruct (Application.annualIncomeCents app); repeat split.
  - intros h limit Hh Hpos Hinc Hlim.
    exists db'. eexists.
    split; [eassumption|]. split; [eassumption|].
    unfold calculation. rewrite Hh, Hinc.
    assert ((h =? 0) = false) as -> by (apply Z.eqb_neq; lia).
    read_row Hlim. rewrite Hlim. repeat split.
Qed.

(** ** Reviewer decision *)

Lemma getApplication_sound db id app :
  storage.getApplication id db = (Value (Some app), db) ->
  In app (applications db) /\ Application.id app = id.
Proof.
  intros Hhd. apply getApplication_read in Hhd as [_ Hhd].
  apply hd_filter_In in Hhd as [Hin Hp]. apply Z.eqb_eq in Hp. auto.
Qed.

Lemma decision_run db user id n body now app :
  constraints_ok (applications db) = true ->
  Number id = Int n ->
  storage.getApplication n db = (Value (Some app), db) ->
  let a' :=
    storage.set
      (storage.with_updatedAt
         (decision (decision_status body) (User.id user)) now) app in
  exists db',
    applications_decision (Some user) id body now db
    = (Value (json 200 (applicationJson (Some a'))), db')
    /\ storage.getApplication (Application.id app) db' = (Value (Some a'), db')
    /\ activityEvents db'
       = activityEvents db
         ++ [ActivityEvent.mk (activity_events_id_seq db) (Application.id app)
               (match decision_status body with
                | Some s => if String.eqb s "NeedsInfo" then "RequestInfo"
                            else "StatusChange"
                | None => "StatusChange"
                end)
               ("Status changed to " ++ template (decision_status body)
                  ++ ". Note: " ++ template (decision_note body))%string
               (Some (User.id user)) (Some now)].
Proof.
  intros Hok Hn Hget a'.
  destruct (getApplication_sound _ _ _ Hget) as [Hin Hid].
  destruct (getApplication_read _ _ _ _ Hget) as [Hrange Hhd].
  rewrite <- Hid in Hhd, Hrange.
  destruct (updateApplication_keeps_keys db app
              (decision (decision_status body) (User.id user)) now Hok Hin)
    as (db1 & Hupd & _ & _ & _ & _ & Hev & Hseq & Happs); [now split|].
  fold a' in Hupd.
  unfold applications_decision. rewrite Hn.
  unfold bind at 1. rewrite int4_bound by now rewrite <- Hid.
  unfold bind at 1. rewrite Hget.
  unfold bind at 1. unfold decision in Hupd. rewrite Hupd.
  unfold bind at 1, storage.createActivityEvent.
  unfold bind, ret, storage.getApplication. rewrite Hrange.
  cbn [applications activityEvents with_activityEvents].
  rewrite Happs, Hev, Hseq.
  rewrite (find_after_update
             (fun a => Application.id a =? Application.id app) _ _ _ app);
    [|intros; reflexivity|exact Hhd|reflexivity].
  eexists. split; [reflexivity|].
  cbn [applications activityEvents with_activityEvents].
  rewrite Happs.
  rewrite (find_after_update
             (fun a => Application.id a =? Application.id app) _ _ _ app);
    [|intros; reflexivity|exact Hhd|reflexivity].
  split; reflexivity.
Qed.

(** An id no row has finds nothing. *)
Lemma getApplication_none db n :
  int32 n ->
  (forall a, In a (applications db) -> Application.id a <> n) ->
  storage.getApplication n db = (Value None, db).
Proof.
  intros Hrange Hnone.
  rewrite getApplication_bound by now apply int32_in_int4.
  destruct (hd_error _) as [a|] eqn:E; [|reflexivity].
  apply hd_filter_In in E as [Hin Hp]. apply Z.eqb_eq in Hp.
  now destruct (Hnone a Hin).
Qed.

(** With distinct ids, a row of the table is the row its id finds. *)
Lemma id_finds_row db app :
  constraints_ok (applications db) = true ->
  In app (applications db) ->
  int32 (Application.id app) ->
  storage.getApplication (Application.id app) db = (Value (Some app), db).
Proof.
  intros Hok Hin Hrange.
  rewrite getApplication_bound by now apply int32_in_int4.
  now rewrite (distinct_filter_key Application.id Z.eqb Z.eqb_eq _ app
                 (constraints_ok_ids _ Hok) Hin).
Qed.

(** C7, as amended.  A decision of an authenticated reviewer on the
    application of an id.  When an application has the id (an integer of
    32 bits, as the ids of the column are), its stored status is the
    status of the request body and [reviewedBy] the reviewer's id, and the
    table of activity events gains exactly one row, for that application,
    of type [RequestInfo] if the status is [NeedsInfo] and [StatusChange]
    otherwise.  When the id reads as an integer of 32 bits that no
    application has, the answer is 404 and the database is unchanged.
    When the id reads as no number, as a fraction or as an integer beyond
    32 bits, the query is rejected: the handler throws and the database is
    unchanged. *)
Theorem decision_sets_status_and_logs_one_event db user id body now :
  constraints_ok (applications db) = true ->
  (forall n app status,
      Number id = Int n ->
      int32 n ->
      In app (applications db) ->
      Application.id app = n ->
      decision_status body = Some status ->
      exists db' a' ev,
        applications_decision (Some user) id body now db
        = (Value (json 200 (applicationJson (Some a'))), db')
        /\ storage.getApplication (Application.id app) db'
           = (Value (Some a'), db')
        /\ Application.id a' = Application.id app
        /\ Application.status a' = status
        /\ Application.reviewedBy a' = Some (User.id user)
        /\ activityEvents db' = activityEvents db ++ [ev]
        /\ ActivityEvent.applicationId ev = Application.id app
        /\ ActivityEvent.type ev
           = (if String.eqb status "NeedsInfo" then "RequestInfo"
              else "StatusChange")
        /\ ActivityEvent.createdByUserId ev = Some (User.id user))
  /\ (forall n,
        Number id = Int n ->
        int32 n ->
        (forall a, In a (applications db) -> Application.id a <> n) ->
        applications_decision (Some user) id body now db
        = (Value (sendStatus 404), db))
  /\ (Number id = NaN
      \/ Number id = Fraction
      \/ (exists n, Number id = Int n /\ ~ int32 n) ->
      applications_decision (Some user) id body now db
      = (Thrown DatabaseError, db)).
Proof.
  intros Hok. split; [|split].
  - intros n app status Hn Hrange Hin Hid Hstatus.
    assert (storage.getApplication n db = (Value (Some app), db)) as Hget.
    { rewrite <- Hid. apply id_finds_row; try assumption. now rewrite Hid. }
    destruct (decision_run db user id n body now app Hok Hn Hget)
      as (db' & Hrun & Hfind & Hev).
    exists db'. eexists. eexists.
    split; [eassumption|]. split; [eassumption|].
    rewrite Hstatus in *. simpl.
    split; [reflexivity|]. split; [reflexivity|]. split; [reflexivity|].
    split; [eassumption|]. repeat split.
  - intros n Hn Hrange Hnone. unfold applications_decision. rewrite Hn.
    unfold bind at 1. rewrite int4_bound by now apply int32_in_int4.
    unfold bind at 1. now rewrite getApplication_none.
  - intros Hbad. unfold applications_decision, bind at 1.
    now rewrite int4_rejected.
Qed.

(** ** Update by token *)

Lemma constraints_ok_tokens rows :
  constraints_ok rows = true ->
  distinct String.eqb (map Application.applicantToken rows) = true.
Proof. unfold constraints_ok. intros H. now apply andb_true_iff in H. Qed.

(** With distinct tokens, a row of the table is the row its token finds. *)
Lemma token_finds_row db app :
  constraints_ok (applications db) = true ->
  In app (applications db) ->
  storage.getApplicationByToken (Application.applicantToken app) db
  = (Value (Some app), db).
Proof.
  intros Hok Hin. unfold storage.getApplicationByToken, select.
  now rewrite (distinct_filter_key Application.applicantToken String.eqb
                 String.eqb_eq _ app (constraints_ok_tokens _ Hok) Hin).
Qed.

Lemma getApplicationByToken_sound db token app :
  storage.getApplicationByToken token db = (Value (Some app), db) ->
  In app (applications db) /\ Application.applicantToken app = token.
Proof.
  intros H. read_row H. apply hd_filter_In in H as [Hin Hp].
  apply String.eqb_eq in Hp. auto.
Qed.

(** [distinct] is [NoDup]. *)
Section DistinctNoDup.
Context {K : Type} (eqb : K -> K -> bool).
Hypothesis eqb_eq : forall x y, eqb x y = true <-> x = y.

Lemma existsb_eqb_iff (k : K) (l : list K) :
  existsb (eqb k) l = true <-> In k l.
Proof.
  rewrite existsb_exists. split.
  - intros (y & Hy & He). apply eqb_eq in He. now subst.
  - intros H. exists k. split; [assumption|now apply eqb_eq].
Qed.

Lemma distinct_NoDup (l : list K) : distinct eqb l = true <-> NoDup l.
Proof.
  induction l as [|x l IH]; simpl.
  - split; [constructor|reflexivity].
  - rewrite andb_true_iff, negb_true_iff, IH, NoDup_cons_iff.
    rewrite <- existsb_eqb_iff.
    destruct (existsb (eqb x) l); intuition congruence.
Qed.
End DistinctNoDup.

Lemma constraints_ok_NoDup rows :
  constraints_ok rows = true
  <-> NoDup (map Application.id rows)
      /\ NoDup (map Application.applicantToken rows).
Proof.
  unfold constraints_ok.
  rewrite andb_true_iff, (distinct_NoDup Z.eqb Z.eqb_eq),
    (distinct_NoDup String.eqb String.eqb_eq).
  reflexivity.
Qed.





Lemma written_set_field {A : Type} (new : option A) (old stored : A) :
  written new old stored <-> stored = storage.set_field new old.
Proof. destruct new; reflexivity. Qed.

(** [patched] describes the row [set] builds, and no other. *)
Lemma patched_set body now old new :
  patched body now old new
  <-> new = storage.set (storage.with_updatedAt body now) old.
Proof.
  unfold patched. rewrite !written_set_field. split.
  - intros H. destruct new. cbn in H.
    repeat match type of H with
           | _ /\ _ => let E := fresh in destruct H as [E H]; rewrite E
           end.
    rewrite H. reflexivity.
  - intros ->. repeat split.
Qed.



(** ** Starting an application *)

Lemma distinct_snoc {A : Type} (eqb : A -> A -> bool) (l : list A) (x : A) :
  distinct eqb l = true ->
  (forall y, In y l -> eqb y x = false) ->
  distinct eqb (l ++ [x]) = true.
Proof.
  induction l as [|y l IH]; simpl; intros Hd Hf; [reflexivity|].
  apply andb_true_iff in Hd as [Hy Hd].
  rewrite existsb_app. simpl.
  rewrite (Hf y (or_introl eq_refl)), !orb_false_r, Hy. simpl.
  apply IH; auto.
Qed.

Lemma constraints_ok_snoc rows a :
  constraints_ok rows = true ->
  (forall b, In b rows -> (Application.id b =? Application.id a) = false) ->
  (forall b, In b rows ->
             String.eqb (Application.applicantToken b)
                        (Application.applicantToken a) = false) ->
  constraints_ok (rows ++ [a]) = true.
Proof.
  unfold constraints_ok. intros Hok Hid Htok.
  apply andb_true_iff in Hok as [Hi Ht].
  rewrite !map_app. simpl.
  apply andb_true_iff. split; apply distinct_snoc; auto.
  - intros y Hy. apply in_map_iff in Hy as (b & <- & Hb). auto.
  - intros y Hy. apply in_map_iff in Hy as (b & <- & Hb). auto.
Qed.

Lemma constraints_ok_snoc_iff rows a :
  constraints_ok rows = true ->
  constraints_ok (rows ++ [a]) = true
  <-> (forall b, In b rows ->
                 Application.applicantToken b <> Application.applicantToken a
                 /\ Application.id b <> Application.id a).
Proof.
  intros Hok. split.
  - intros Hok' b Hb. apply constraints_ok_NoDup in Hok' as [Hi Ht].
    rewrite map_app in Hi, Ht. cbn [map] in Hi, Ht.
    apply NoDup_remove_2 in Hi, Ht. rewrite app_nil_r in Hi, Ht.
    split; intros E; [apply Ht|apply Hi]; rewrite <- E; now apply in_map.
  - intros Hfresh. apply constraints_ok_snoc; [assumption| |].
    + intros b Hb. apply Z.eqb_neq. now apply Hfresh.
    + intros b Hb. apply String.eqb_neq. now apply Hfresh.
Qed.

(** The insert of the start route, for a program id of 32 bits. *)
Lemma createApplication_run db p name email token status result now :
  in_int4 p = true ->
  let a :=
    Application.mk (applications_id_seq db) p name email None token
      None None None None None None None result None status
      None None (Some now) (Some now) in
  storage.createApplication
    (InsertApplication.mk (Int p) name email token status result) now db
  = if constraints_ok (applications db ++ [a])
    then (Value a,
          with_applications (applications db ++ [a])
            (applications_id_seq db + 1) db)
    else (Thrown DatabaseError,
          with_applications (applications db) (applications_id_seq db + 1) db).
Proof.
  intros Hp a. unfold storage.createApplication.
  cbn [InsertApplication.programId]. rewrite Hp. reflexivity.
Qed.

Lemma createApplication_accepted db p name email token status result now :
  in_int4 p = true ->
  constraints_ok (applications db) = true ->
  (forall b, In b (applications db) ->
             Application.applicantToken b <> token
             /\ Application.id b <> applications_id_seq db) ->
  let a :=
    Application.mk (applications_id_seq db) p name email None token
      None None None None None None None result None status
      None None (Some now) (Some now) in
  let db' :=
    with_applications (applications db ++ [a]) (applications_id_seq db + 1) db in
  storage.createApplication
    (InsertApplication.mk (Int p) name email token status result) now db
  = (Value a, db')
  /\ constraints_ok (applications db') = true
  /\ storage.getApplicationByToken token db' = (Value (Some a), db').
Proof.
  intros Hp Hok Hfresh a db'.
  assert (constraints_ok (applications db ++ [a]) = true) as Hok'.
  { now apply constraints_ok_snoc_iff. }
  split; [|split; [exact Hok'|]].
  - rewrite createApplication_run by assumption. fold a. now rewrite Hok'.
  - apply (token_finds_row db' a Hok').
    unfold db'. cbn [applications with_applications].
    apply in_or_app. right. now left.
Qed.

Lemma parse_accepts body n name email :
  Number_of (body_programId body) = n ->
  n <> NaN ->
  body_applicantName body = str name ->
  name <> EmptyString ->
  body_applicantEmail body = str email ->
  isEmail email = true ->
  startApplicationSchema_parse body = Some (mkStartInput n name email).
Proof.
  intros Hn Hnan Hname Hne Hemail Hvalid.
  unfold startApplicationSchema_parse. rewrite Hn, Hname, Hemail, Hvalid.
  destruct name as [|c name]; [contradiction|].
  destruct n; [contradiction|reflexivity|reflexivity].
Qed.

(** C4, as amended.  Starting an application validates the body:
    [programId] must coerce to a number, [applicantName] be a string that
    is not empty and [applicantEmail] a string that passes the e-mail
    check.  When the body is valid, [programId] is an integer of 32 bits,
    and no application has the generated token or the next id of the
    sequence, one application is added, with status [Draft], system result
    [NeedsReview], the generated token and the fields of the body, never
    submitted, and the answer is 201 with that token and the new
    application's id.  When the body is not valid the handler throws and
    the database is unchanged.  When the body is valid but [programId] is
    a fraction or an integer beyond 32 bits, or an application has the
    token or the next id already, the insert is rejected: the handler
    throws and no application is created. *)
Theorem start_parses_then_creates_draft db body token now :
  (forall p name email,
      Number_of (body_programId body) = Int p ->
      int32 p ->
      body_applicantName body = str name ->
      name <> EmptyString ->
      body_applicantEmail body = str email ->
      isEmail email = true ->
      constraints_ok (applications db) = true ->
      (forall b, In b (applications db) ->
                 Application.applicantToken b <> token
                 /\ Application.id b <> applications_id_seq db) ->
      exists a db',
        applications_start body token now db
        = (Value (json 201 (startedJson token (Application.id a))), db')
        /\ Permutation (applications db') (a :: applications db)
        /\ storage.getApplicationByToken token db' = (Value (Some a), db')
        /\ Application.status a = "Draft"
        /\ Application.systemResult a = Some "NeedsReview"
        /\ Application.applicantToken a = token
        /\ Application.programId a = p
        /\ Application.applicantName a = name
        /\ Application.applicantEmail a = email
        /\ Application.submittedAt a = None)
  /\ (Number_of (body_programId body) = NaN
      \/ (forall name, body_applicantName body <> str name)
      \/ body_applicantName body = str EmptyString
      \/ (forall email, body_applicantEmail body <> str email)
      \/ (exists email, body_applicantEmail body = str email
                        /\ isEmail email = false) ->
      applications_start body token now db = (Thrown ZodError, db))
  /\ (forall name email,
        body_applicantName body = str name ->
        name <> EmptyString ->
        body_applicantEmail body = str email ->
        isEmail email = true ->
        (Number_of (body_programId body) = Fraction
         \/ (exists p, Number_of (body_programId body) = Int p
                       /\ ~ int32 p) ->
         applications_start body token now db = (Thrown DatabaseError, db))
        /\ (forall p,
              Number_of (body_programId body) = Int p ->
              int32 p ->
              constraints_ok (applications db) = true ->
              (exists b, In b (applications db)
                         /\ (Application.applicantToken b = token
                             \/ Application.id b = applications_id_seq db)) ->
              exists db',
                applications_start body token now db
                = (Thrown DatabaseError, db')
                /\ applications db' = applications db)).
Proof.
  split; [|split].
  - intros p name email Hp Hrange Hname Hne Hemail Hvalid Hok Hfresh.
    apply int32_in_int4 in Hrange.
    destruct (createApplication_accepted db p name email token "Draft"
                (Some "NeedsReview") now Hrange Hok Hfresh)
      as (Hcreate & _ & Hfind).
    eexists. eexists. split; [|split; [|split; [exact Hfind|repeat split]]].
    + unfold applications_start.
      rewrite (parse_accepts body (Int p) name email) by
        (assumption || discriminate).
      unfold bind. cbn [input_programId input_applicantName
                        input_applicantEmail].
      rewrite Hcreate. reflexivity.
    + cbn [applications with_applications].
      apply Permutation_sym, Permutation_cons_append.
  - intros Hbad. unfold applications_start, startApplicationSchema_parse.
    destruct Hbad as [-> | [Hbad | [-> | [Hbad | (email & -> & Hbad)]]]].
    + reflexivity.
    + destruct (Number_of (body_programId body)); try reflexivity;
        (destruct (body_applicantName body) as [| |?|?|v]; try reflexivity;
         now destruct (Hbad v)).
    + destruct (Number_of (body_programId body)); try reflexivity;
        now destruct (body_applicantEmail body).
    + destruct (Number_of (body_programId body)); try reflexivity;
        (destruct (body_applicantName body); try reflexivity;
         destruct (body_applicantEmail body) as [| |?|?|v]; try reflexivity;
         now destruct (Hbad v)).
    + destruct (Number_of (body_programId body)); try reflexivity;
        (destruct (body_applicantName body); try reflexivity;
         now rewrite Hbad, andb_false_r).
  - intros name email Hname Hne Hemail Hvalid. split.
    + intros Hbad. unfold applications_start.
      destruct Hbad as [Hn | (p & Hn & Hrange)].
      * rewrite (parse_accepts body Fraction name email) by
          (assumption || discriminate).
        reflexivity.
      * rewrite (parse_accepts body (Int p) name email) by
          (assumption || discriminate).
        unfold bind, storage.createApplication.
        cbn [input_programId InsertApplication.programId].
        now rewrite not_int32_in_int4.
    + intros p Hp Hrange Hok (b & Hb & Hdup).
      apply int32_in_int4 in Hrange.
      unfold applications_start.
      rewrite (parse_accepts body (Int p) name email) by
        (assumption || discriminate).
      unfold bind. cbn [input_programId input_applicantName
                        input_applicantEmail].
      rewrite createApplication_run by assumption.
      match goal with
      | |- context [constraints_ok ?rows] =>
          destruct (constraints_ok rows) eqn:E
      end.
      * destruct (proj1 (constraints_ok_snoc_iff _ _ Hok) E b Hb) as [Ht Hi].
        cbn in Ht, Hi.
        destruct Hdup; contradiction.
      * eexists. split; reflexivity.
Qed.

(** ** Reviewer routes without a session *)

(** C6.  Each reviewer route, called without an authenticated user,
    answers 401 whatever the database holds and leaves it as it was:
    listing, detail, decision, export, and the creation of a program and
    of an income limit. *)
Theorem reviewer_routes_require_session db :
  (forall query,
      applications_list None query db = (Value (sendStatus 401), db))
  /\ (forall id,
        applications_get None id db = (Value (sendStatus 401), db))
  /\ (forall id body now,
        applications_decision None id body now db
        = (Value (sendStatus 401), db))
  /\ exports_applications None db = (Value (sendStatus 401), db)
  /\ (forall body now,
        programs_create None body now db = (Value (sendStatus 401), db))
  /\ (forall id body now,
        incomeLimits_create None id body now db
        = (Value (sendStatus 401), db)).
Proof. repeat split. Qed.

(** ** The reviewer listing *)

Section OrderByFacts.
Context {A : Type} (key : A -> option Z).

Lemma desc_before_total (x y : option Z) :
  desc_before x y = false -> desc_before y x = true.
Proof.
  destruct x as [a|], y as [b|]; simpl; try easy.
  intros H. apply Z.leb_gt in H. apply Z.leb_le. lia.
Qed.

Lemma insert_desc_perm (x : A) (l : list A) :
  Permutation (insert_desc key x l) (x :: l).
Proof.
  induction l as [|y l IH]; simpl; [reflexivity|].
  destruct (desc_before (key x) (key y)); [reflexivity|].
  rewrite IH. apply perm_swap.
Qed.

Lemma orderBy_desc_perm (l : list A) : Permutation (orderBy_desc key l) l.
Proof.
  induction l as [|x l IH]; simpl; [reflexivity|].
  rewrite insert_desc_perm. now constructor.
Qed.

Lemma insert_desc_sorted (x : A) (l : list A) :
  Sorted (desc_by key) l -> Sorted (desc_by key) (insert_desc key x l).
Proof.
  induction l as [|y l IH]; simpl; intros Hs.
  - repeat constructor.
  - destruct (desc_before (key x) (key y)) eqn:E.
    + constructor; [assumption|]. now constructor.
    + inversion Hs as [|? ? Hs' Hhd]; subst.
      constructor; [now apply IH|].
      destruct l as [|z l]; simpl.
      * constructor. now apply desc_before_total.
      * destruct (desc_before (key x) (key z)); constructor.
        -- now apply desc_before_total.
        -- now inversion Hhd.
Qed.

Lemma orderBy_desc_sorted (l : list A) :
  Sorted (desc_by key) (orderBy_desc key l).
Proof.
  induction l as [|x l IH]; simpl; [constructor|].
  now apply insert_desc_sorted.
Qed.
End OrderByFacts.

Lemma all_reads {A B : Type} (f : A -> Promise B) (g : Db -> A -> B)
  (l : list A) db :
  (forall a, f a db = (Value (g db a), db)) ->
  all f l db = (Value (map (g db) l), db).
Proof.
  intros Hf. induction l as [|a l IH]; simpl; [reflexivity|].
  unfold bind at 1. rewrite Hf. unfold bind at 1. now rewrite IH.
Qed.

Lemma list_ascii_of_string_app (s t : string) :
  list_ascii_of_string (s ++ t)
  = list_ascii_of_string s ++ list_ascii_of_string t.
Proof. induction s as [|c s IH]; simpl; [reflexivity|]. now rewrite IH. Qed.

(** A pattern of plain characters followed by [%] matches the texts that
    start with those characters. *)
Lemma like_plain_prefix (s t : list ascii) :
  forallb plain_char s = true ->
  like_chars (s ++ ["%"%char]) t = starts_with s t.
Proof.
  revert t. induction s as [|c s IH]; intros t Hs.
  - simpl. induction t as [|d t IHt]; simpl; [reflexivity|exact IHt].
  - simpl in Hs. apply andb_true_iff in Hs as [Hc Hs].
    unfold plain_char in Hc.
    apply andb_true_iff in Hc as [Hc H3].
    apply andb_true_iff in Hc as [H1 H2].
    apply negb_true_iff in H1, H2, H3.
    simpl. rewrite H1, H2, H3.
    destruct t as [|d t]; [reflexivity|]. now rewrite IH.
Qed.

(** For a search string of plain characters, [LIKE '%s%'] is
    containment. *)
Lemma like_plain_contains (s text : string) :
  plain s = true ->
  like text ("%" ++ s ++ "%")%string = contains s text.
Proof.
  intros Hs. unfold like, contains, plain in *.
  change ("%" ++ s ++ "%")%string with (String "%" (s ++ "%"))%string.
  cbn [list_ascii_of_string]. rewrite list_ascii_of_string_app.
  change (list_ascii_of_string "%") with ["%"%char].
  set (p := list_ascii_of_string s) in *.
  set (t := list_ascii_of_string text). clearbody t.
  simpl. induction t as [|d t IH].
  - simpl. rewrite like_plain_prefix by assumption. now rewrite orb_false_r.
  - cbn [contains_chars]. rewrite <- IH.
    now rewrite like_plain_prefix by assumption.
Qed.

(** The filters the listing builds from a query select the rows
    [selected] describes. *)
Lemma conditions_selected query a :
  storage.conditions
    (Some (storage.mkFilters
             (query_status query)
             (match query_programId query with
              | Some s => if String.eqb s EmptyString then None else Some (Number s)
              | None => None
              end)
             (query_search query))) a
  = selected query a.
Proof.
  unfold storage.conditions, selected.
  cbn [storage.status storage.programId storage.search].
  destruct (query_status query) as [s|];
    destruct (query_programId query) as [ps|];
    destruct (query_search query) as [ss|];
    repeat match goal with
           | |- context [String.eqb ?x EmptyString] => destruct (String.eqb x EmptyString)
           end;
    cbn [orb];
    try (destruct (Number ps) as [|p|]; cbn [truthy negb];
         try destruct (p =? 0); cbn [negb orb]);
    reflexivity.
Qed.

(** The filters of a query bind when its [programId] does. *)
Lemma binds_programId query :
  storage.binds
    (Some (storage.mkFilters
             (query_status query)
             (match query_programId query with
              | Some s => if String.eqb s EmptyString then None else Some (Number s)
              | None => None
              end)
             (query_search query)))
  = programId_binds query.
Proof.
  unfold storage.binds, programId_binds. cbn [storage.programId].
  destruct (query_programId query) as [ps|]; [|reflexivity].
  destruct (String.eqb ps EmptyString); [reflexivity|]. cbn [orb].
  destruct (Number ps) as [|p|]; cbn [truthy]; try reflexivity.
  destruct (p =? 0) eqn:E; [|reflexivity].
  apply Z.eqb_eq in E. now subst p.
Qed.

(** The listing, for a query that binds: the rows [selected] describes,
    ordered, each with the program its [programId] finds. *)
Lemma applications_list_run db user query :
  programId_binds query = true ->
  applications_list (Some user) query db
  = (Value
       (json 200
          (applicationListJson
             (map (fun a =>
                     (a, hd_error
                           (filter (fun p => Program.id p
                                             =? Application.programId a)
                                   (programs db))))
                  (orderBy_desc Application.submittedAt
                     (filter (selected query) (applications db)))))),
     db).
Proof.
  intros Hb.
  set (g := fun (db : Db) (a : Application.t) =>
              (a, hd_error (filter (fun p => Program.id p =? Application.programId a)
                                   (programs db)))).
  unfold applications_list, bind at 1, storage.getApplications.
  rewrite binds_programId, Hb.
  rewrite (filter_ext _ _ (conditions_selected query)).
  unfold bind at 1. rewrite (all_reads _ g); [reflexivity|].
  intros a. reflexivity.
Qed.

(** C5, as amended.  For every query whose [programId] can be compared
    with the column, the listing answers an authenticated reviewer with
    exactly the applications that pass all the filters in force, each with
    its program, in descending order of [submittedAt] with the
    applications never submitted first.  A filter is in force when its
    parameter is present and not empty, and for [programId] when it reads
    as a number other than zero; the status and the program filters ask
    for equality, the search filter matches [applicantName] against the
    [LIKE] pattern that puts the search string between two [%], which for
    a search string without [%], [_] and backslash is containment.  With
    no parameters the listing returns all applications.  For a query
    whose [programId] reads as a fraction or as an integer beyond 32 bits
    the handler throws. *)
Theorem list_returns_selected_in_order db user query :
  (forall s,
      query_programId query = Some s ->
      s <> EmptyString ->
      Number s = Fraction \/ (exists p, Number s = Int p /\ ~ int32 p) ->
      applications_list (Some user) query db = (Thrown DatabaseError, db))
  /\ ((forall s,
         query_programId query = Some s ->
         s <> EmptyString ->
         Number s = NaN \/ exists p, Number s = Int p /\ int32 p) ->
      exists enriched,
        applications_list (Some user) query db
        = (Value (json 200 (applicationListJson enriched)), db)
        /\ Permutation (map fst enriched)
                       (filter (selected query) (applications db))
        /\ Sorted submittedAt_desc (map fst enriched)
        /\ (forall a program,
               In (a, program) enriched ->
               storage.getProgram (Application.programId a) db
               = (Value program, db))
        /\ (forall s a,
               query_search query = Some s -> plain s = true ->
               s <> EmptyString ->
               selected
                 (mkListQuery (query_status query) (query_programId query) None)
                 a = true ->
               (selected query a = true
                <-> contains s (Application.applicantName a) = true))
        /\ (query = mkListQuery None None None ->
            Permutation (map fst enriched) (applications db))).
Proof.
  split.
  { intros s Hs Hne Hbad.
    unfold applications_list, bind at 1, storage.getApplications.
    rewrite binds_programId. unfold programId_binds. rewrite Hs.
    apply String.eqb_neq in Hne. rewrite Hne.
    destruct Hbad as [-> | (p & -> & Hwide)]; [reflexivity|].
    now rewrite not_int32_in_int4. }
  intros Hfits.
  assert (programId_binds query = true) as Hb.
  { unfold programId_binds.
    destruct (query_programId query) as [s|] eqn:Hs; [|reflexivity].
    destruct (String.eqb_spec s EmptyString) as [->|Hne]; [reflexivity|].
    destruct (Hfits s eq_refl Hne) as [-> | (p & -> & Hp)]; [reflexivity|].
    now apply int32_in_int4. }
  clear Hfits.
  set (g := fun (db : Db) (a : Application.t) =>
              (a, hd_error (filter (fun p => Program.id p =? Application.programId a)
                                   (programs db)))).
  set (apps := orderBy_desc Application.submittedAt
                 (filter (selected query) (applications db))).
  assert (map fst (map (g db) apps) = apps) as Hfst.
  { rewrite map_map. simpl. apply map_id. }
  exists (map (g db) apps).
  rewrite Hfst.
  split; [|split; [|split; [|split; [|split]]]].
  - now apply applications_list_run.
  - apply orderBy_desc_perm.
  - apply (orderBy_desc_sorted Application.submittedAt).
  - intros a program Hin. apply in_map_iff in Hin as (b & Hb' & _).
    unfold g in Hb'. injection Hb' as <- <-. reflexivity.
  - intros s a Hq Hplain Hne Hrest.
    unfold selected in *. cbn [query_status query_programId query_search] in Hrest.
    rewrite Hq. rewrite andb_true_r in Hrest. rewrite Hrest.
    rewrite like_plain_contains by assumption.
    apply String.eqb_neq in Hne. rewrite Hne. reflexivity.
  - intros ->. unfold apps, selected. simpl.
    rewrite orderBy_desc_perm.
    assert (forall l : list Application.t, filter (fun _ => true) l = l) as ->.
    { induction l; simpl; congruence. }
    reflexivity.
Qed.

(** * Further properties of the routes *)

(** ** The writes, with the database they leave *)

Lemma updateApplication_accepted db app u now :
  constraints_ok (applications db) = true ->
  In app (applications db) ->
  keeps_keys u ->
  storage.updateApplication (Application.id app) u now db
  = (Value (Some (storage.set (storage.with_updatedAt u now) app)),
     with_applications
       (map (fun a => if Application.id a =? Application.id app
                      then storage.set (storage.with_updatedAt u now) a
                      else a) (applications db))
       (applications_id_seq db) db).
Proof.
  intros Hok Hin Hk. unfold storage.updateApplication.
  rewrite constraints_ok_update by now apply with_updatedAt_keeps_keys.
  rewrite Hok.
  now rewrite (distinct_filter_key Application.id Z.eqb Z.eqb_eq _ app
                 (constraints_ok_ids _ Hok) Hin).
Qed.

(** A row-wise update that keeps id and token leaves every other token's
    row as it was. *)
Lemma other_token_after_update u id rows token :
  keeps_keys u ->
  (forall a, In a rows -> Application.id a = id ->
             Application.applicantToken a <> token) ->
  filter (fun a => String.eqb (Application.applicantToken a) token)
         (map (fun a => if Application.id a =? id then storage.set u a else a)
              rows)
  = filter (fun a => String.eqb (Application.applicantToken a) token) rows.
Proof.
  intros [_ Htok] Hother. induction rows as [|x rows IH]; [reflexivity|].
  simpl map. simpl filter.
  rewrite IH by (intros a Ha; apply Hother; now right).
  destruct (Application.id x =? id) eqn:E.
  - apply Z.eqb_eq in E.
    rewrite (set_keeps_token u x Htok).
    assert (String.eqb (Application.applicantToken x) token = false) as ->
        by (apply String.eqb_neq; apply Hother; [now left|assumption]).
    reflexivity.
  - reflexivity.
Qed.

Lemma submitByToken_db db token now app :
  constraints_ok (applications db) = true ->
  storage.getApplicationByToken token db = (Value (Some app), db) ->
  applications_submitByToken token now db
  = (Value
       (json 200
          (applicationJson
             (Some (storage.set
                      (storage.with_updatedAt
                         (submission (calculation db app) now) now) app)))),
     with_activityEvents
       (activityEvents db
          ++ [ActivityEvent.mk (activity_events_id_seq db) (Application.id app)
                "System"
                ("Application submitted. System calculation: "
                   ++ fst (fst (calculation db app)))%string
                None (Some now)])
       (activity_events_id_seq db + 1)
       (with_applications
          (map (fun a => if Application.id a =? Application.id app
                         then storage.set
                                (storage.with_updatedAt
                                   (submission (calculation db app) now) now) a
                         else a) (applications db))
          (applications_id_seq db) db)).
Proof.
  intros Hok Hget.
  destruct (getApplicationByToken_sound _ _ _ Hget) as [Hin _].
  pose proof (updateApplication_accepted db app
                (submission (calculation db app) now) now Hok Hin
                (submission_keeps_keys _ _)) as Hupd.
  unfold applications_submitByToken, bind at 1. rewrite Hget.
  match goal with
  | |- bind ?m _ _ = _ =>
      assert (m db = (Value (calculation db app), db)) as Hcalc
  end.
  { unfold calculation, bind, ret, storage.getIncomeLimitForHousehold, select.
    destruct (Application.householdSize app) as [h|]; [|reflexivity].
    destruct (Application.annualIncomeCents app) as [income|]; [|reflexivity].
    unfold truthy. destruct (h =? 0); cbv beta iota delta [negb]; [reflexivity|].
    match goal with
    | |- context [hd_error (filter ?p (incomeLimits db))] =>
        destruct (hd_error (filter p (incomeLimits db)))
    end; reflexivity. }
  unfold bind at 1. rewrite Hcalc.
  destruct (calculation db app) as [[result c] v].
  unfold bind at 1. unfold submission in Hupd. rewrite Hupd.
  reflexivity.
Qed.

Lemma decision_db db user id n body now app :
  constraints_ok (applications db) = true ->
  Number id = Int n ->
  storage.getApplication n db = (Value (Some app), db) ->
  applications_decision (Some user) id body now db
  = (Value
       (json 200
          (applicationJson
             (Some (storage.set
                      (storage.with_updatedAt
                         (decision (decision_status body) (User.id user)) now)
                      app)))),
     with_activityEvents
       (activityEvents db
          ++ [ActivityEvent.mk (activity_events_id_seq db) (Application.id app)
                (match decision_status body with
                 | Some s => if String.eqb s "NeedsInfo" then "RequestInfo"
                             else "StatusChange"
                 | None => "StatusChange"
                 end)
                ("Status changed to " ++ template (decision_status body)
                   ++ ". Note: " ++ template (decision_note body))%string
                (Some (User.id user)) (Some now)])
       (activity_events_id_seq db + 1)
       (with_applications
          (map (fun a => if Application.id a =? Application.id app
                         then storage.set
                                (storage.with_updatedAt
                                   (decision (decision_status body) (User.id user))
                                   now) a
                         else a) (applications db))
          (applications_id_seq db) db)).
Proof.
  intros Hok Hn Hget.
  destruct (getApplication_sound _ _ _ Hget) as [Hin Hid].
  destruct (getApplication_read _ _ _ _ Hget) as [Hrange Hhd].
  rewrite <- Hid in Hhd, Hrange.
  pose proof (updateApplication_accepted db app
                (decision (decision_status body) (User.id user)) now Hok Hin
                (conj eq_refl eq_refl)) as Hupd.
  unfold applications_decision. rewrite Hn.
  unfold bind at 1. rewrite int4_bound by now rewrite <- Hid.
  unfold bind at 1. rewrite Hget.
  unfold bind at 1. unfold decision in Hupd. rewrite Hupd.
  unfold bind at 1, storage.createActivityEvent.
  unfold bind, ret, storage.getApplication. rewrite Hrange.
  cbn [applications activityEvents with_activityEvents with_applications].
  rewrite (find_after_update
             (fun a => Application.id a =? Application.id app) _ _ _ app);
    [|intros; reflexivity|exact Hhd|reflexivity].
  reflexivity.
Qed.


(** The table of a database after a row-wise update that keeps id and
    token: the constraints hold, and the token of the updated row finds
    it. *)
Lemma updated_table db app u :
  constraints_ok (applications db) = true ->
  In app (applications db) ->
  keeps_keys u ->
  let rows' :=
    map (fun a => if Application.id a =? Application.id app
                  then storage.set u a else a) (applications db) in
  constraints_ok rows' = true
  /\ hd_error
       (filter (fun a => String.eqb (Application.applicantToken a)
                                    (Application.applicantToken app)) rows')
     = Some (storage.set u app)
  /\ forall token,
       token <> Application.applicantToken app ->
       filter (fun a => String.eqb (Application.applicantToken a) token) rows'
       = filter (fun a => String.eqb (Application.applicantToken a) token)
                (applications db).
Proof.
  intros Hok Hin Hk rows'. split; [|split].
  - unfold rows'. now rewrite constraints_ok_update.
  - unfold rows'. apply find_after_update; [|
      |reflexivity].
    + intros a. simpl. destruct Hk as [_ Ht]. now rewrite Ht.
    + pose proof (token_finds_row db app Hok Hin) as H. now read_row H.
  - intros token Hne. unfold rows'. apply other_token_after_update; [assumption|].
    intros a Ha Hid Htok.
    assert (a = app) as ->.
    { pose proof (distinct_filter_key Application.id Z.eqb Z.eqb_eq _ app
                    (constraints_ok_ids _ Hok) Hin) as Hf.
      assert (In a (filter (fun x => Application.id x =? Application.id app)
                           (applications db))) as Hin'.
      { apply filter_In. split; [assumption|]. now apply Z.eqb_eq. }
      rewrite Hf in Hin'. destruct Hin' as [<-|[]]. reflexivity. }
    now apply Hne.
Qed.

(** ** How the applicant's routes compose *)

(** X1.  Once an application is submitted it cannot be edited: after a
    submission by token, every [PATCH] by the same token is answered 403
    and changes nothing. *)
Theorem submit_then_update_is_refused db token now app :
  constraints_ok (applications db) = true ->
  storage.getApplicationByToken token db = (Value (Some app), db) ->
  exists db' a',
    applications_submitByToken token now db
    = (Value (json 200 (applicationJson (Some a'))), db')
    /\ forall body now',
         applications_updateByToken token body now' db'
         = (Value (json 403 (messageJson "Cannot edit submitted application")),
            db').
Proof.
  intros Hok Hget.
  destruct (submitByToken_run db token now app Hok Hget)
    as (db' & ev & Hrun & Hfind & _).
  exists db'. eexists. split; [exact Hrun|].
  intros body now'.
  unfold applications_updateByToken, bind at 1. rewrite Hfind.
  destruct (calculation db app) as [[r c] v]. reflexivity.
Qed.

Lemma submitByToken_effect db token now app :
  constraints_ok (applications db) = true ->
  storage.getApplicationByToken token db = (Value (Some app), db) ->
  let a' :=
    storage.set
      (storage.with_updatedAt (submission (calculation db app) now) now) app in
  exists db',
    applications_submitByToken token now db
    = (Value (json 200 (applicationJson (Some a'))), db')
    /\ constraints_ok (applications db') = true
    /\ storage.getApplicationByToken token db' = (Value (Some a'), db')
    /\ (forall t, t <> token ->
                  fst (storage.getApplicationByToken t db')
                  = fst (storage.getApplicationByToken t db))
    /\ users db' = users db
    /\ programs db' = programs db
    /\ incomeLimits db' = incomeLimits db
    /\ documents db' = documents db
    /\ activityEvents db'
       = activityEvents db
         ++ [ActivityEvent.mk (activity_events_id_seq db) (Application.id app)
               "System"
               ("Application submitted. System calculation: "
                  ++ fst (fst (calculation db app)))%string
               None (Some now)].
Proof.
  intros Hok Hget a'.
  destruct (getApplicationByToken_sound _ _ _ Hget) as [Hin Htok].
  destruct (updated_table db app
              (storage.with_updatedAt (submission (calculation db app) now) now)
              Hok Hin
              (with_updatedAt_keeps_keys _ _ (submission_keeps_keys _ _)))
    as (Hok' & Hfind & Hother).
  eexists. split; [apply (submitByToken_db db token now app Hok Hget)|].
  cbn [applications users programs incomeLimits documents activityEvents
       with_activityEvents with_applications].
  split; [exact Hok'|]. split; [|split; [|repeat split]].
  - unfold storage.getApplicationByToken, select.
    cbn [applications with_activityEvents with_applications].
    rewrite <- Htok. now rewrite Hfind.
  - intros t Hne. unfold storage.getApplicationByToken, select.
    cbn [applications with_activityEvents with_applications fst].
    rewrite Hother; [reflexivity|]. now rewrite Htok.
Qed.

Lemma calculation_after_submission db db1 calc now a :
  incomeLimits db1 = incomeLimits db ->
  calculation db1
    (storage.set (storage.with_updatedAt (submission calc now) now) a)
  = calculation db a.
Proof.
  intros Hlim. destruct calc as [[r c] v]. unfold calculation.
  now rewrite Hlim.
Qed.

(** X2.  Submitting again without a change in between repeats the
    result.  The second submission leaves every column of the application
    as the first one left it, the system result, the computed limit and
    the rule version among them, except [submittedAt] and [updatedAt],
    which become its own time; and it logs a second event for the
    application, with the message of the first. *)
Theorem resubmission_repeats_the_result db token now now' app :
  constraints_ok (applications db) = true ->
  storage.getApplicationByToken token db = (Value (Some app), db) ->
  exists db1 a1 db2 a2 ev1 ev2,
    applications_submitByToken token now db
    = (Value (json 200 (applicationJson (Some a1))), db1)
    /\ applications_submitByToken token now' db1
       = (Value (json 200 (applicationJson (Some a2))), db2)
    /\ Application.systemResult a2 = Application.systemResult a1
    /\ Application.computedLimitCents a2 = Application.computedLimitCents a1
    /\ Application.ruleVersion a2 = Application.ruleVersion a1
    /\ Application.status a2 = "Submitted"
    /\ Application.submittedAt a2 = Some now'
    /\ patched
         (PartialApplication.mk None None None None None None None None None
            None None None None None None None (Some (Some now')) None None
            None)
         now' a1 a2
    /\ activityEvents db2 = activityEvents db ++ [ev1; ev2]
    /\ ActivityEvent.applicationId ev1 = Application.id app
    /\ ActivityEvent.applicationId ev2 = Application.id app
    /\ ActivityEvent.type ev1 = "System"
    /\ ActivityEvent.type ev2 = "System"
    /\ ActivityEvent.message ev2 = ActivityEvent.message ev1.
Proof.
  intros Hok Hget.
  destruct (submitByToken_effect db token now app Hok Hget)
    as (db1 & Hrun1 & Hok1 & Hget1 & _ & _ & _ & Hlim1 & _ & Hev1).
  destruct (submitByToken_effect db1 token now' _ Hok1 Hget1)
    as (db2 & Hrun2 & _ & _ & _ & _ & _ & _ & _ & Hev2).
  rewrite Hev1, <- app_assoc in Hev2. cbn [List.app] in Hev2.
  rewrite (calculation_after_submission db db1 _ now app Hlim1) in *.
  destruct (calculation db app) as [[r c] v].
  exists db1. eexists. exists db2. eexists. eexists. eexists.
  split; [exact Hrun1|]. split; [exact Hrun2|].
  do 5 (split; [reflexivity|]).
  split; [apply patched_set; reflexivity|].
  split; [exact Hev2|]. repeat split.
Qed.

(** X3.  A submission changes the application of its token and the
    activity log, nothing else: every other token finds the row it found
    before, and the users, the programs, the income limits and the
    documents are the same. *)
Theorem submit_changes_only_its_application db token now app :
  constraints_ok (applications db) = true ->
  storage.getApplicationByToken token db = (Value (Some app), db) ->
  exists db' a',
    applications_submitByToken token now db
    = (Value (json 200 (applicationJson (Some a'))), db')
    /\ (forall t, t <> token ->
                  fst (storage.getApplicationByToken t db')
                  = fst (storage.getApplicationByToken t db))
    /\ users db' = users db
    /\ programs db' = programs db
    /\ incomeLimits db' = incomeLimits db
    /\ documents db' = documents db
    /\ exists ev, activityEvents db' = activityEvents db ++ [ev].
Proof.
  intros Hok Hget.
  destruct (submitByToken_effect db token now app Hok Hget)
    as (db' & Hrun & _ & _ & Hother & Hu & Hp & Hl & Hd & Hev).
  exists db'. eexists. split; [exact Hrun|].
  repeat split; try assumption. eexists. exact Hev.
Qed.

(** X4.  The applicant sees the submission in the activity of the
    application: after a submission, reading the application by its token
    returns the submitted row and, among its events, a [System] event
    without a user whose message ends in the stored system result. *)
Theorem submission_shows_in_the_activity db token now app :
  constraints_ok (applications db) = true ->
  storage.getApplicationByToken token db = (Value (Some app), db) ->
  exists db' a' result documents events ev,
    applications_submitByToken token now db
    = (Value (json 200 (applicationJson (Some a'))), db')
    /\ applications_getByToken token db'
       = (Value (json 200 (applicationByTokenJson a' documents events)), db')
    /\ Application.systemResult a' = Some result
    /\ In ev events
    /\ ActivityEvent.type ev = "System"
    /\ ActivityEvent.createdByUserId ev = None
    /\ ActivityEvent.message ev
       = ("Application submitted. System calculation: " ++ result)%string.
Proof.
  intros Hok Hget.
  destruct (submitByToken_effect db token now app Hok Hget)
    as (db' & Hrun & _ & Hfind & _ & _ & _ & _ & _ & Hev).
  exists db'. eexists. exists (fst (fst (calculation db app))).
  eexists. eexists. eexists.
  split; [exact Hrun|]. split; [|split; [|split]].
  - unfold applications_getByToken, bind at 1. rewrite Hfind.
    unfold bind, storage.getDocuments, storage.getActivityEvents, select, ret.
    reflexivity.
  - destruct (calculation db app) as [[r c] v]. reflexivity.
  - rewrite Hev.
    eapply Permutation_in; [symmetry; apply orderBy_desc_perm|].
    apply filter_In. split.
    + apply in_or_app. right. left. reflexivity.
    + cbn [ActivityEvent.applicationId].
      destruct (calculation db app) as [[r c] v]. apply Z.eqb_refl.
  - repeat split.
Qed.


(** X6.  An application submitted right after it was started, with nothing
    entered, is recorded as [Submitted] with the system result
    [NeedsReview] and no limit.  The start is one the database accepts:
    the body is valid, its [programId] an integer of 32 bits, and no
    application has the token or the next id of the sequence. *)
Theorem start_then_submit_needs_review db body token now now' input p :
  startApplicationSchema_parse body = Some input ->
  input_programId input = Int p ->
  int32 p ->
  constraints_ok (applications db) = true ->
  (forall b, In b (applications db) ->
             Application.applicantToken b <> token
             /\ Application.id b <> applications_id_seq db) ->
  exists id db1 db2 a2,
    applications_start body token now db
    = (Value (json 201 (startedJson token id)), db1)
    /\ applications_submitByToken token now' db1
       = (Value (json 200 (applicationJson (Some a2))), db2)
    /\ Application.id a2 = id
    /\ Application.applicantName a2 = input_applicantName input
    /\ Application.status a2 = "Submitted"
    /\ Application.systemResult a2 = Some "NeedsReview"
    /\ Application.computedLimitCents a2 = None
    /\ Application.ruleVersion a2 = None.
Proof.
  intros Hparse Hp Hrange Hok Hfresh. apply int32_in_int4 in Hrange.
  destruct (createApplication_accepted db p (input_applicantName input)
              (input_applicantEmail input) token "Draft" (Some "NeedsReview")
              now Hrange Hok Hfresh)
    as (Hcreate & Hok1 & Hget1).
  set (a := Application.mk (applications_id_seq db) _ _ _ _ _ _ _ _ _ _ _
              _ _ _ _ _ _ _ _) in *.
  set (db1 := with_applications (applications db ++ [a])
                (applications_id_seq db + 1) db) in *.
  destruct (submitByToken_effect db1 token now' a Hok1 Hget1)
    as (db2 & Hrun2 & _).
  exists (applications_id_seq db), db1, db2. eexists.
  split; [|split; [exact Hrun2|repeat split]].
  unfold applications_start. rewrite Hparse.
  unfold bind. rewrite Hp, Hcreate. reflexivity.
Qed.

(** ** How the reviewer's decision composes *)

Lemma other_id_after_update u id rows id' :
  PartialApplication.id u = None ->
  id' <> id ->
  filter (fun a => Application.id a =? id')
         (map (fun a => if Application.id a =? id then storage.set u a else a)
              rows)
  = filter (fun a => Application.id a =? id') rows.
Proof.
  intros Hid Hne. induction rows as [|x rows IH]; [reflexivity|].
  simpl map. simpl filter. rewrite IH.
  destruct (Application.id x =? id) eqn:E; [|reflexivity].
  rewrite (set_keeps_id u x Hid).
  apply Z.eqb_eq in E. rewrite E.
  assert ((id =? id') = false) as -> by (apply Z.eqb_neq; congruence).
  reflexivity.
Qed.

Lemma decision_effect db user id n body now app :
  constraints_ok (applications db) = true ->
  Number id = Int n ->
  storage.getApplication n db = (Value (Some app), db) ->
  let a' :=
    storage.set
      (storage.with_updatedAt
         (decision (decision_status body) (User.id user)) now) app in
  exists db',
    applications_decision (Some user) id body now db
    = (Value (json 200 (applicationJson (Some a'))), db')
    /\ constraints_ok (applications db') = true
    /\ storage.getApplicationByToken (Application.applicantToken app) db'
       = (Value (Some a'), db')
    /\ (forall t, t <> Application.applicantToken app ->
                  fst (storage.getApplicationByToken t db')
                  = fst (storage.getApplicationByToken t db))
    /\ (forall i, i <> Application.id app ->
                  fst (storage.getApplication i db')
                  = fst (storage.getApplication i db))
    /\ users db' = users db
    /\ programs db' = programs db
    /\ incomeLimits db' = incomeLimits db
    /\ documents db' = documents db
    /\ exists ev, activityEvents db' = activityEvents db ++ [ev].
Proof.
  intros Hok Hn Hget a'.
  destruct (getApplication_sound _ _ _ Hget) as [Hin Hid].
  destruct (updated_table db app
              (storage.with_updatedAt
                 (decision (decision_status body) (User.id user)) now)
              Hok Hin (conj eq_refl eq_refl))
    as (Hok' & Hfind & Hother).
  eexists. split; [apply (decision_db db user id n body now app Hok Hn Hget)|].
  cbn [applications users programs incomeLimits documents activityEvents
       with_activityEvents with_applications].
  split; [exact Hok'|]. split; [|split; [|split; [|repeat split]]].
  - unfold storage.getApplicationByToken, select.
    cbn [applications with_activityEvents with_applications].
    now rewrite Hfind.
  - intros t Hne. unfold storage.getApplicationByToken, select.
    cbn [applications with_activityEvents with_applications fst].
    now rewrite Hother.
  - intros i Hne. unfold storage.getApplication.
    destruct (in_int4 i); [|reflexivity].
    cbn [applications with_activityEvents with_applications fst].
    now rewrite other_id_after_update.
  - eexists. reflexivity.
Qed.


(** X8.  A decision changes the application of its id and the activity
    log, nothing else: every other id and every other token find the row
    they found before, and the users, the programs, the income limits and
    the documents are the same. *)
Theorem decision_changes_only_its_application db user id n body now app :
  constraints_ok (applications db) = true ->
  Number id = Int n ->
  storage.getApplication n db = (Value (Some app), db) ->
  exists db' a',
    applications_decision (Some user) id body now db
    = (Value (json 200 (applicationJson (Some a'))), db')
    /\ (forall i, i <> n ->
                  fst (storage.getApplication i db')
                  = fst (storage.getApplication i db))
    /\ (forall t, t <> Application.applicantToken app ->
                  fst (storage.getApplicationByToken t db')
                  = fst (storage.getApplicationByToken t db))
    /\ users db' = users db
    /\ programs db' = programs db
    /\ incomeLimits db' = incomeLimits db
    /\ documents db' = documents db
    /\ Application.householdSize a' = Application.householdSize app
    /\ Application.annualIncomeCents a' = Application.annualIncomeCents app
    /\ Application.systemResult a' = Application.systemResult app
    /\ Application.computedLimitCents a' = Application.computedLimitCents app.
Proof.
  intros Hok Hn Hget.
  destruct (getApplication_sound _ _ _ Hget) as [_ Hid].
  destruct (decision_effect db user id n body now app Hok Hn Hget)
    as (db' & Hrun & _ & _ & Htok & Hids & Hu & Hp & Hl & Hd & _).
  exists db'. eexists. split; [exact Hrun|].
  rewrite Hid in Hids. repeat split; assumption || reflexivity.
Qed.

(** ** Documents and the applicant's view *)

(** X9.  An upload for a token that finds no application, or without a
    file, is answered 400 and stores nothing. *)
Theorem upload_needs_application_and_file db token file nextval now :
  storage.getApplicationByToken token db = (Value None, db) \/ file = None ->
  applications_upload token file nextval now db = (Value (replyStatus 400), db).
Proof.
  intros H. unfold applications_upload, bind at 1.
  destruct H as [H | ->].
  - now rewrite H.
  - unfold storage.getApplicationByToken, select.
    now destruct (hd_error _).
Qed.

(** X10.  An upload with a file of less than 2 GiB for the application of
    a token, whatever the status of the application, stores one document
    for it that carries the file's name, path, type and size; the
    applications and the activity log stay as they were, and reading the
    application by its token afterwards shows the documents it showed
    before followed by the new one.  For a larger file the size does not
    fit its column: the handler throws and nothing is stored. *)
Theorem upload_adds_a_document_to_the_view
  db token file nextval now app docs events :
  storage.getApplicationByToken token db = (Value (Some app), db) ->
  applications_getByToken token db
  = (Value (json 200 (applicationByTokenJson app docs events)), db) ->
  (2147483648 <= size file ->
   applications_upload token (Some file) nextval now db
   = (Thrown DatabaseError, db))
  /\ (0 <= size file < 2147483648 ->
  exists doc db',
    applications_upload token (Some file) nextval now db
    = (Value (replyJson 200 doc), db')
    /\ Document.applicationId doc = Application.id app
    /\ Document.filename doc = originalname file
    /\ Document.path doc = file_path file
    /\ Document.mimeType doc = mimetype file
    /\ Document.sizeBytes doc = size file
    /\ applications db' = applications db
    /\ activityEvents db' = activityEvents db
    /\ applications_getByToken token db'
       = (Value (json 200 (applicationByTokenJson app (docs ++ [doc]) events)),
          db')).
Proof.
  intros Hget Hview.
  unfold applications_getByToken, bind at 1 in Hview. rewrite Hget in Hview.
  unfold bind, storage.getDocuments, storage.getActivityEvents, select, ret
    in Hview.
  injection Hview as Hdocs Hevents.
  split.
  { intros Hsize. unfold applications_upload, bind at 1. rewrite Hget.
    unfold bind, storage.createDocument. cbn [InsertDocument.sizeBytes].
    assert (in_int4 (size file) = false) as ->; [|reflexivity].
    apply not_int32_in_int4. unfold int32. lia. }
  intros Hsize.
  assert (in_int4 (size file) = true) as Hfit
      by (apply int32_in_int4; unfold int32; lia).
  eexists. eexists. split.
  - unfold applications_upload, bind at 1. rewrite Hget.
    unfold bind, storage.createDocument, ret.
    cbn [InsertDocument.sizeBytes]. rewrite Hfit. reflexivity.
  - cbn [Document.applicationId Document.filename Document.path
         Document.mimeType Document.sizeBytes applications activityEvents
         with_documents].
    repeat split.
    unfold applications_getByToken, bind at 1.
    assert (forall l, storage.getApplicationByToken token
                        (with_documents l db)
                      = (Value (Some app), with_documents l db)) as ->.
    { intros l. read_row Hget. unfold storage.getApplicationByToken, select.
      cbn [applications with_documents]. now rewrite Hget. }
    unfold bind, storage.getDocuments, storage.getActivityEvents, select, ret.
    cbn [documents activityEvents with_documents].
    rewrite filter_app. cbn [filter Document.applicationId].
    rewrite Z.eqb_refl, Hdocs, Hevents. reflexivity.
Qed.

(** X11.  Reading an application by its token writes nothing.  An unknown
    token is answered 404; a known one with the application, exactly the
    documents stored for it, and exactly the events logged for it, newest
    first. *)
Theorem read_by_token_shows_its_documents_and_events db token :
  (storage.getApplicationByToken token db = (Value None, db) ->
   applications_getByToken token db = (Value (sendStatus 404), db))
  /\ (forall app,
        storage.getApplicationByToken token db = (Value (Some app), db) ->
        exists docs events,
          applications_getByToken token db
          = (Value (json 200 (applicationByTokenJson app docs events)), db)
          /\ (forall d, In d docs
                        <-> In d (documents db)
                            /\ Document.applicationId d = Application.id app)
          /\ (forall e, In e events
                        <-> In e (activityEvents db)
                            /\ ActivityEvent.applicationId e = Application.id app)
          /\ Sorted (desc_by ActivityEvent.createdAt) events).
Proof.
  split.
  - intros H. unfold applications_getByToken, bind at 1. now rewrite H.
  - intros app Hget. eexists. eexists. split; [|split; [|split]].
    + unfold applications_getByToken, bind at 1. rewrite Hget.
      unfold bind, storage.getDocuments, storage.getActivityEvents, select, ret.
      reflexivity.
    + intros d. rewrite filter_In, Z.eqb_eq. reflexivity.
    + intros e. split.
      * intros He. apply (Permutation_in _ (orderBy_desc_perm _ _)) in He.
        apply filter_In in He. now rewrite Z.eqb_eq in He.
      * intros He.
        apply (Permutation_in _ (Permutation_sym (orderBy_desc_perm _ _))).
        apply filter_In. now rewrite Z.eqb_eq.
    + apply orderBy_desc_sorted.
Qed.

(** ** The reviewer's detail view *)

(** X12.  The detail of an application, for an authenticated reviewer,
    writes nothing.  An id that reads as an integer of 32 bits which no
    application has is answered 404; for an id that reads as no number,
    as a fraction or as an integer beyond 32 bits the handler throws.
    For the id of an application the answer carries the application and
    its program; each event comes with the user that created it, and with
    no user when it was created by the system; and the income limit shown
    is the one the table holds for the application's program and
    household size at the time of reading, or none when the household
    size is null or zero. *)
Theorem detail_joins_users_and_current_limit db user id :
  (forall n,
      Number id = Int n ->
      int32 n ->
      (forall a, In a (applications db) -> Application.id a <> n) ->
      applications_get (Some user) id db = (Value (sendStatus 404), db))
  /\ (Number id = NaN
      \/ Number id = Fraction
      \/ (exists n, Number id = Int n /\ ~ int32 n) ->
      applications_get (Some user) id db = (Thrown DatabaseError, db))
  /\ (forall n app,
        Number id = Int n ->
        storage.getApplication n db = (Value (Some app), db) ->
        exists docs events program snapshot,
          applications_get (Some user) id db
          = (Value (json 200
                      (applicationDetailJson app docs events program snapshot)),
             db)
          /\ storage.getProgram (Application.programId app) db
             = (Value program, db)
          /\ storage.getActivityEvents (Application.id app) db
             = (Value (map fst events), db)
          /\ (forall ev u,
                 In (ev, u) events ->
                 ActivityEvent.createdByUserId ev = None -> u = None)
          /\ (forall ev u uid,
                 In (ev, u) events ->
                 ActivityEvent.createdByUserId ev = Some uid -> uid <> 0 ->
                 storage.getUser uid db = (Value u, db))
          /\ (forall h,
                 Application.householdSize app = Some h -> h <> 0 ->
                 storage.getIncomeLimitForHousehold
                   (Application.programId app) h db
                 = (Value snapshot, db))
          /\ (Application.householdSize app = None
              \/ Application.householdSize app = Some 0 ->
              snapshot = None)).
Proof.
  split; [|split].
  - intros n Hn Hrange Hnone. unfold applications_get. rewrite Hn.
    unfold bind at 1. rewrite int4_bound by now apply int32_in_int4.
    unfold bind at 1. now rewrite getApplication_none.
  - intros Hbad. unfold applications_get, bind at 1.
    now rewrite int4_rejected.
  - intros n app Hn Hget.
    destruct (getApplication_read _ _ _ _ Hget) as [Hrange _].
    set (g := fun (db : Db) (ev : ActivityEvent.t) =>
                (ev,
                 match ActivityEvent.createdByUserId ev with
                 | Some uid =>
                     if truthy (Int uid)
                     then hd_error (filter (fun u => User.id u =? uid) (users db))
                     else None
                 | None => None
                 end)).
    set (events := orderBy_desc ActivityEvent.createdAt
                     (filter (fun e => ActivityEvent.applicationId e
                                       =? Application.id app)
                             (activityEvents db))).
    exists (filter (fun d => Document.applicationId d =? Application.id app)
                   (documents db)).
    exists (map (g db) events).
    exists (hd_error (filter (fun p => Program.id p =? Application.programId app)
                             (programs db))).
    exists (match Application.householdSize app with
            | Some h =>
                if truthy (Int h)
                then hd_error
                       (filter (fun l =>
                                  (IncomeLimit.programId l =? Application.programId app)
                                  && (IncomeLimit.householdSize l =? h))
                               (incomeLimits db))
                else None
            | None => None
            end).
    split; [|split; [reflexivity|split; [|split; [|split; [|split]]]]].
    + unfold applications_get. rewrite Hn.
      unfold bind at 1. rewrite int4_bound by assumption.
      unfold bind at 1. rewrite Hget.
      unfold bind at 1, storage.getDocuments, select.
      unfold bind at 1, storage.getActivityEvents, select. fold events.
      unfold bind at 1, storage.getProgram, select.
      unfold bind at 1. rewrite (all_reads _ g).
      * unfold bind, ret, storage.getIncomeLimitForHousehold, select.
        destruct (Application.householdSize app) as [h|]; [|reflexivity].
        destruct (truthy (Int h)); reflexivity.
      * intros ev. unfold g.
        destruct (ActivityEvent.createdByUserId ev) as [uid|]; [|reflexivity].
        destruct (truthy (Int uid)); reflexivity.
    + unfold storage.getActivityEvents, select. fold events.
      rewrite map_map. simpl. now rewrite map_id.
    + intros ev u Hin Hnone. apply in_map_iff in Hin as (e & He & _).
      unfold g in He. injection He as <- <-. now rewrite Hnone.
    + intros ev u uid Hin Hsome Hnz. apply in_map_iff in Hin as (e & He & _).
      unfold g in He. injection He as <- <-. rewrite Hsome.
      unfold truthy. apply Z.eqb_neq in Hnz. now rewrite Hnz.
    + intros h Hh Hnz. rewrite Hh. unfold truthy.
      apply Z.eqb_neq in Hnz. now rewrite Hnz.
    + intros [-> | ->]; reflexivity.
Qed.

(** ** Programs and income limits *)

(** X13.  A program stored by [createProgram], the way the seed stores
    the example program, is found by [GET /api/programs/:id] under the id
    the insert returned.  When the ids in the table are below the next
    value of the sequence and that value fits 32 bits, the id of the new
    program was answered 404 before, is answered with the new program
    afterwards, carries the fields of the insert, and the ids stay below
    the sequence. *)
Theorem stored_program_is_found db program now s :
  (forall p, In p (programs db) -> Program.id p < programs_id_seq db) ->
  Number s = Int (programs_id_seq db) ->
  int32 (programs_id_seq db) ->
  exists p db',
    programs_get s db = (Value (replyStatus 404), db)
    /\ storage.createProgram program now db = (Value p, db')
    /\ programs_get s db' = (Value (replyJson 200 p), db')
    /\ Program.id p = programs_id_seq db
    /\ Program.name p = InsertProgram.name program
    /\ Program.regionLabel p = InsertProgram.regionLabel program
    /\ Program.effectiveStart p = InsertProgram.effectiveStart program
    /\ Program.effectiveEnd p = InsertProgram.effectiveEnd program
    /\ programs db' = programs db ++ [p]
    /\ (forall q, In q (programs db') -> Program.id q < programs_id_seq db').
Proof.
  intros Hseq Hs Hrange. apply int32_in_int4 in Hrange.
  assert (filter (fun p => Program.id p =? programs_id_seq db) (programs db) = [])
    as Hnone.
  { induction (programs db) as [|q l IH]; [reflexivity|]. simpl.
    assert ((Program.id q =? programs_id_seq db) = false) as ->.
    { apply Z.eqb_neq. specialize (Hseq q (or_introl eq_refl)). lia. }
    apply IH. intros p Hp. apply Hseq. now right. }
  eexists. eexists. split; [|split; [reflexivity|]].
  { unfold programs_get. rewrite Hs.
    unfold bind at 1. rewrite int4_bound by assumption.
    unfold bind, ret, storage.getProgram, select. now rewrite Hnone. }
  split; [|do 6 (split; [reflexivity|])].
  - unfold programs_get. rewrite Hs.
    unfold bind at 1. rewrite int4_bound by assumption.
    unfold bind, ret, storage.getProgram, select.
    cbn [programs with_programs]. rewrite filter_app, Hnone.
    cbn [filter Program.id app]. now rewrite Z.eqb_refl.
  - cbn [programs programs_id_seq with_programs]. intros q Hq.
    apply in_app_or in Hq as [Hq|[<-|[]]].
    + specialize (Hseq q Hq). lia.
    + cbn [Program.id]. lia.
Qed.

(** X14.  The public list of programs returns every program once, newest
    first (programs without a creation time first), and writes nothing. *)
Theorem programs_list_is_every_program_newest_first db :
  exists l,
    programs_list db = (Value (replyJson 200 l), db)
    /\ Permutation l (programs db)
    /\ Sorted (desc_by Program.createdAt) l.
Proof.
  eexists. split; [reflexivity|]. split.
  - apply orderBy_desc_perm.
  - apply orderBy_desc_sorted.
Qed.

(** The creation of a limit whose three numbers are integers of 32
    bits. *)
Lemma incomeLimits_create_run db user id p h c body now :
  Number id = Int p ->
  int32 p ->
  IncomeLimitBody.householdSize body = Int h ->
  int32 h ->
  IncomeLimitBody.limitCents body = Int c ->
  int32 c ->
  let limit :=
    IncomeLimit.mk (income_limits_id_seq db) p h c
      (IncomeLimitBody.versionLabel body) (Some now) in
  incomeLimits_create (Some user) id body now db
  = (Value (json 201 (incomeLimitJson limit)),
     with_incomeLimits (incomeLimits db ++ [limit])
       (income_limits_id_seq db + 1) db).
Proof.
  intros Hid Hp Hh Hhr Hc Hcr limit.
  apply int32_in_int4 in Hp, Hhr, Hcr.
  unfold incomeLimits_create. rewrite Hid, Hh, Hc.
  unfold bind at 1. rewrite int4_bound by assumption.
  unfold bind at 1. rewrite int4_bound by assumption.
  unfold bind at 1. rewrite int4_bound by assumption.
  unfold bind, ret, storage.createIncomeLimit.
  cbn [InsertIncomeLimit.programId InsertIncomeLimit.householdSize
       InsertIncomeLimit.limitCents InsertIncomeLimit.versionLabel].
  now rewrite Hp, Hhr, Hcr.
Qed.

(** X15.  An income limit a reviewer creates belongs to the program of the
    route, whatever program the body names, and carries the household size,
    the limit and the version of the body, when the id of the route, the
    household size and the limit are integers of 32 bits.  Afterwards the
    list of that program's limits is the list of before followed by the
    new limit, and the lists of the other programs are as before.  When
    the household size or the limit of the body is a fraction or an
    integer beyond 32 bits, the handler throws and no limit is created. *)
Theorem created_limit_is_listed db user id p h c body now limits :
  Number id = Int p ->
  int32 p ->
  incomeLimits_list id db = (Value (replyJson 200 limits), db) ->
  (IncomeLimitBody.householdSize body = Int h ->
   int32 h ->
   IncomeLimitBody.limitCents body = Int c ->
   int32 c ->
   exists limit db',
     incomeLimits_create (Some user) id body now db
     = (Value (json 201 (incomeLimitJson limit)), db')
     /\ IncomeLimit.programId limit = p
     /\ IncomeLimit.householdSize limit = h
     /\ IncomeLimit.limitCents limit = c
     /\ IncomeLimit.versionLabel limit = IncomeLimitBody.versionLabel body
     /\ incomeLimits_list id db'
        = (Value (replyJson 200 (limits ++ [limit])), db')
     /\ forall id' q,
          Number id' = Int q -> q <> p ->
          fst (incomeLimits_list id' db') = fst (incomeLimits_list id' db))
  /\ (IncomeLimitBody.householdSize body = Fraction
      \/ IncomeLimitBody.limitCents body = Fraction
      \/ (exists z, (IncomeLimitBody.householdSize body = Int z
                     \/ IncomeLimitBody.limitCents body = Int z)
                    /\ ~ int32 z) ->
      incomeLimits_create (Some user) id body now db
      = (Thrown DatabaseError, db)).
Proof.
  intros Hid Hp' Hlist. pose proof (int32_in_int4 p Hp') as Hp.
  unfold incomeLimits_list in Hlist. rewrite Hid in Hlist.
  unfold bind at 1 in Hlist. rewrite int4_bound in Hlist by assumption.
  unfold bind, ret, storage.getIncomeLimits, select in Hlist.
  injection Hlist as Hlist.
  split.
  - intros Hh Hhr Hc Hcr.
    eexists. eexists. split.
    { now apply (incomeLimits_create_run db user id p h c body now). }
    cbn [IncomeLimit.programId IncomeLimit.householdSize IncomeLimit.limitCents
         IncomeLimit.versionLabel].
    do 4 (split; [reflexivity|]). split.
    + unfold incomeLimits_list. rewrite Hid.
      unfold bind at 1. rewrite int4_bound by assumption.
      unfold bind, ret, storage.getIncomeLimits, select.
      cbn [incomeLimits with_incomeLimits]. rewrite filter_app, Hlist.
      cbn [filter IncomeLimit.programId]. now rewrite Z.eqb_refl.
    + intros id' q Hq Hne.
      unfold incomeLimits_list, int4. rewrite Hq.
      destruct (in_int4 q); [|reflexivity].
      unfold bind, ret, storage.getIncomeLimits, select.
      cbn [incomeLimits with_incomeLimits fst]. rewrite filter_app.
      cbn [filter IncomeLimit.programId].
      assert ((p =? q) = false) as -> by (apply Z.eqb_neq; congruence).
      now rewrite app_nil_r.
  - intros Hbad. unfold incomeLimits_create. rewrite Hid.
    unfold bind at 1. rewrite int4_bound by assumption.
    unfold bind at 1.
    destruct Hbad as [Hh | [Hc | (z & [Hh | Hc] & Hz)]];
      try apply not_int32_in_int4 in Hz.
    + now rewrite Hh.
    + rewrite Hc.
      destruct (int4 (IncomeLimitBody.householdSize body) db)
        as [[hs|e] db0] eqn:E.
      * assert (db0 = db) as ->.
        { unfold int4 in E.
          destruct (IncomeLimitBody.householdSize body) as [|z|];
            try discriminate.
          destruct (in_int4 z); [|discriminate]. now injection E. }
        reflexivity.
      * unfold int4 in E.
        destruct (IncomeLimitBody.householdSize body) as [|z|].
        -- now injection E as <- <-.
        -- destruct (in_int4 z); [discriminate|]. now injection E as <- <-.
        -- now injection E as <- <-.
    + rewrite Hh. unfold int4. now rewrite Hz.
    + rewrite Hc.
      destruct (int4 (IncomeLimitBody.householdSize body) db)
        as [[hs|e] db0] eqn:E.
      * assert (db0 = db) as ->.
        { unfold int4 in E.
          destruct (IncomeLimitBody.householdSize body) as [|z'|];
            try discriminate.
          destruct (in_int4 z'); [|discriminate]. now injection E. }
        unfold bind, int4. now rewrite Hz.
      * unfold int4 in E.
        destruct (IncomeLimitBody.householdSize body) as [|z'|].
        -- now injection E as <- <-.
        -- destruct (in_int4 z'); [discriminate|]. now injection E as <- <-.
        -- now injection E as <- <-.
Qed.

(** X16.  A limit a reviewer creates for a program and a household size
    that had none decides the submissions that follow: an application of
    that program with that household size (not zero) and an income is
    recorded [Eligible] if the income is at most the new limit and
    [NotEligible] otherwise, with the new limit and its version.  The id
    of the route, the household size and the limit are integers of 32
    bits. *)
Theorem created_limit_decides_submissions
  db user id h c body now token now' app income :
  constraints_ok (applications db) = true ->
  Number id = Int (Application.programId app) ->
  int32 (Application.programId app) ->
  IncomeLimitBody.householdSize body = Int h ->
  int32 h ->
  IncomeLimitBody.limitCents body = Int c ->
  int32 c ->
  storage.getApplicationByToken token db = (Value (Some app), db) ->
  Application.householdSize app = Some h ->
  h <> 0 ->
  Application.annualIncomeCents app = Some income ->
  storage.getIncomeLimitForHousehold (Application.programId app) h db
  = (Value None, db) ->
  exists limit db1 db2 a2,
    incomeLimits_create (Some user) id body now db
    = (Value (json 201 (incomeLimitJson limit)), db1)
    /\ applications_submitByToken token now' db1
       = (Value (json 200 (applicationJson (Some a2))), db2)
    /\ Application.systemResult a2
       = Some (if income <=? c then "Eligible" else "NotEligible")
    /\ Application.computedLimitCents a2 = Some c
    /\ Application.ruleVersion a2 = Some (IncomeLimitBody.versionLabel body).
Proof.
  intros Hok Hid Hp Hhs Hhr Hc Hcr Hget Hh Hnz Hinc Hnone.
  set (db1 := with_incomeLimits
                (incomeLimits db
                   ++ [IncomeLimit.mk (income_limits_id_seq db)
                         (Application.programId app) h c
                         (IncomeLimitBody.versionLabel body) (Some now)])
                (income_limits_id_seq db + 1) db).
  assert (storage.getApplicationByToken token db1 = (Value (Some app), db1))
    as Hget1.
  { read_row Hget. unfold storage.getApplicationByToken, select.
    unfold db1 at 1. cbn [applications with_incomeLimits]. now rewrite Hget. }
  destruct (submitByToken_effect db1 token now' app Hok Hget1)
    as (db2 & Hrun2 & _).
  eexists. exists db1, db2. eexists.
  split; [|split; [exact Hrun2|]].
  - now apply (incomeLimits_create_run db user id _ h c body now).
  - unfold calculation. rewrite Hh, Hinc.
    apply Z.eqb_neq in Hnz. rewrite Hnz.
    unfold db1. cbn [incomeLimits with_incomeLimits].
    rewrite filter_app. read_row Hnone.
    destruct (filter _ (incomeLimits db)); [|discriminate].
    cbn [filter List.app IncomeLimit.programId IncomeLimit.householdSize].
    rewrite !Z.eqb_refl. cbn. repeat split.
Qed.

(** ** The seed *)

Lemma orderBy_desc_nil {A : Type} (key : A -> option Z) (l : list A) :
  orderBy_desc key l = [] <-> l = [].
Proof.
  split; [|intros ->; reflexivity].
  intros H. pose proof (Permutation_length (orderBy_desc_perm key l)) as Hlen.
  rewrite H in Hlen. now destruct l.
Qed.

(** What a run of the seed that does not throw leaves: the users it found,
    with the administrator added when there was none; and either the
    programs and limits it found, when there was a program, or the example
    program with its six limits. *)
Lemma seedDatabase_cases passwordHash nextval now db db1 :
  seedDatabase passwordHash nextval now db = (Value tt, db1) ->
  documents db1 = documents db
  /\ applications db1 = applications db
  /\ activityEvents db1 = activityEvents db
  /\ (users db1 = users db
      /\ (exists u, In u (users db) /\ User.email u = "admin@example.com")
      \/ users db1
         = users db
           ++ [User.mk nextval "admin@example.com" passwordHash "Admin"
                 (Some now)])
  /\ (programs db <> []
      /\ programs db1 = programs db
      /\ incomeLimits db1 = incomeLimits db
      \/ programs db = []
         /\ programs db1
            = [Program.mk (programs_id_seq db) "Example Rebate Program"
                 "Statewide" now None (Some now)]
         /\ incomeLimits db1
            = incomeLimits db
              ++ map (fun i =>
                        IncomeLimit.mk (income_limits_id_seq db + (i - 1))
                          (programs_id_seq db) i (3000000 + i * 500000)
                          "2024-V1" (Some now))
                     [1; 2; 3; 4; 5; 6]).
Proof.
  unfold seedDatabase, bind at 1, storage.getUserByEmail, select.
  set (found := hd_error (filter _ (users db))).
  assert (forall dbu,
             programs dbu = programs db ->
             incomeLimits dbu = incomeLimits db ->
             income_limits_id_seq dbu = income_limits_id_seq db ->
             programs_id_seq dbu = programs_id_seq db ->
             documents dbu = documents db ->
             applications dbu = applications db ->
             activityEvents dbu = activityEvents db ->
             forall out,
               (await existingPrograms <- storage.getPrograms;
                if Z.of_nat (List.length existingPrograms) =? 0
                then
                  await program <-
                    storage.createProgram
                      (InsertProgram.mk "Example Rebate Program" "Statewide"
                         now None) now;
                  for_upto 1 6 (fun i =>
                    await limit <-
                      storage.createIncomeLimit
                        (InsertIncomeLimit.mk (Program.id program) i
                           (3000000 + i * 500000) "2024-V1") now;
                    ret tt)
                else ret tt) dbu = (Value tt, out) ->
               users out = users dbu
               /\ documents out = documents db
               /\ applications out = applications db
               /\ activityEvents out = activityEvents db
               /\ (programs db <> []
                   /\ programs out = programs db
                   /\ incomeLimits out = incomeLimits db
                   \/ programs db = []
                      /\ programs out
                         = [Program.mk (programs_id_seq db)
                              "Example Rebate Program" "Statewide" now None
                              (Some now)]
                      /\ incomeLimits out
                         = incomeLimits db
                           ++ map (fun i =>
                                     IncomeLimit.mk
                                       (income_limits_id_seq db + (i - 1))
                                       (programs_id_seq db) i
                                       (3000000 + i * 500000)
                                       "2024-V1" (Some now))
                                  [1; 2; 3; 4; 5; 6])) as Hprograms.
  { intros dbu Hp Hl Hls Hps Hd Ha He out.
    unfold bind at 1, storage.getPrograms, select. rewrite Hp.
    destruct (programs db) as [|p0 l0] eqn:Eprog.
    - cbn [orderBy_desc List.length Z.of_nat Z.eqb].
      unfold for_upto. cbn [Z.sub Z.add Z.opp Z.pos_sub Z.to_nat Pos.to_nat
                            Pos.iter_op Init.Nat.add Pos.succ Pos.add
                            Pos.pred_double Z.succ_double Z.pred_double
                            Z.double for_rounds].
      unfold bind, ret, storage.createProgram, storage.createIncomeLimit.
      cbn [Program.id InsertProgram.name InsertProgram.regionLabel
           InsertProgram.effectiveStart InsertProgram.effectiveEnd
           InsertIncomeLimit.programId InsertIncomeLimit.householdSize
           InsertIncomeLimit.limitCents InsertIncomeLimit.versionLabel
           incomeLimits income_limits_id_seq with_incomeLimits with_programs
           programs programs_id_seq].
      repeat match goal with
             | |- context [in_int4 ?x] =>
                 progress change (in_int4 x) with true
             end.
      destruct (in_int4 (programs_id_seq dbu)); cbn [andb];
        [|intros H; discriminate H].
      intros H. injection H as <-.
      cbn [users documents applications activityEvents programs incomeLimits
           with_incomeLimits with_programs].
      rewrite Hl, Hls, Hps, Hp.
      repeat split; try assumption. right.
      split; [reflexivity|]. split; [reflexivity|].
      rewrite <- !app_assoc. cbn [List.app map]. f_equal.
      repeat (f_equal; try lia).
    - assert (orderBy_desc Program.createdAt (p0 :: l0) <> []) as Hne.
      { intros H. apply orderBy_desc_nil in H. discriminate. }
      destruct (orderBy_desc Program.createdAt (p0 :: l0)) as [|q l1];
        [contradiction|].
      cbn [List.length Z.of_nat Z.eqb]. unfold ret.
      intros H. injection H as <-.
      repeat split; try assumption.
      left. split; [discriminate|]. split; assumption. }
  destruct found as [admin|] eqn:Efound.
  - unfold bind at 1, ret. intros H.
    destruct (Hprograms db eq_refl eq_refl eq_refl eq_refl eq_refl eq_refl
                eq_refl db1 H) as (Hu & Hd & Ha & He & Hcase).
    repeat split; try assumption.
    left. split; [assumption|]. exists admin.
    unfold found in Efound. apply hd_filter_In in Efound as [Hin Hp].
    apply String.eqb_eq in Hp. auto.
  - unfold bind at 1. unfold bind at 1, storage.createUser.
    cbn [InsertUser.email InsertUser.passwordHash InsertUser.role].
    destruct (users_ok _); [|discriminate].
    unfold ret. intros H.
    match type of H with
    | _ ?dbu = _ =>
        destruct (Hprograms dbu eq_refl eq_refl eq_refl eq_refl eq_refl
                    eq_refl eq_refl db1 H) as (Hu & Hd & Ha & He & Hcase)
    end.
    repeat split; try assumption.
    right. exact Hu.
Qed.

(** X17.  The seed is idempotent: on the database a run of the seed
    leaves, another run changes nothing, whatever hash, id and time it is
    given. *)
Theorem seed_twice_is_seed_once passwordHash nextval now db db1 :
  seedDatabase passwordHash nextval now db = (Value tt, db1) ->
  forall passwordHash' nextval' now',
    seedDatabase passwordHash' nextval' now' db1 = (Value tt, db1).
Proof.
  intros Hrun passwordHash' nextval' now'.
  destruct (seedDatabase_cases _ _ _ _ _ Hrun) as (_ & _ & _ & Husers & Hprog).
  assert (exists u, In u (users db1) /\ User.email u = "admin@example.com")
    as (u & Hin & Hemail).
  { destruct Husers as [[-> Hu] | ->]; [exact Hu|].
    eexists. split; [apply in_or_app; right; left; reflexivity|reflexivity]. }
  assert (programs db1 <> []) as Hne.
  { destruct Hprog as [(Hne & -> & _) | (_ & -> & _)];
      [assumption|discriminate]. }
  unfold seedDatabase, bind at 1, storage.getUserByEmail, select.
  destruct (hd_filter_exists
              (fun u => String.eqb (User.email u) "admin@example.com")
              (users db1) u Hin) as [admin ->].
  { now rewrite Hemail. }
  unfold bind at 1, ret. unfold bind, storage.getPrograms, select.
  destruct (orderBy_desc Program.createdAt (programs db1)) as [|q l] eqn:E.
  - apply orderBy_desc_nil in E. contradiction.
  - reflexivity.
Qed.

Lemma no_limit_for_unused_program (rows : list IncomeLimit.t) p h :
  (forall l, In l rows -> IncomeLimit.programId l <> p) ->
  filter (fun l => (IncomeLimit.programId l =? p)
                   && (IncomeLimit.householdSize l =? h)) rows = [].
Proof.
  induction rows as [|x rows IH]; intros Hfresh; [reflexivity|]. simpl.
  assert ((IncomeLimit.programId x =? p) = false) as ->
      by (apply Z.eqb_neq; apply Hfresh; now left).
  apply IH. intros y Hy. apply Hfresh. now right.
Qed.

(** X18.  On a database without programs, and without limits for the id
    the example program is going to take, the seed creates the example
    program and its limits: for each household size from 1 to 6 the limit
    looked up for the program is 3000000 plus 500000 per person, cents,
    under the version [2024-V1]; for any other household size there is
    none. *)
Theorem seed_creates_the_example_limits passwordHash nextval now db db1 :
  seedDatabase passwordHash nextval now db = (Value tt, db1) ->
  programs db = [] ->
  (forall l, In l (incomeLimits db) ->
             IncomeLimit.programId l <> programs_id_seq db) ->
  (exists program,
      storage.getProgram (programs_id_seq db) db1 = (Value (Some program), db1)
      /\ Program.name program = "Example Rebate Program"
      /\ Program.regionLabel program = "Statewide")
  /\ (forall h,
        1 <= h <= 6 ->
        exists limit,
          storage.getIncomeLimitForHousehold (programs_id_seq db) h db1
          = (Value (Some limit), db1)
          /\ IncomeLimit.limitCents limit = 3000000 + 500000 * h
          /\ IncomeLimit.versionLabel limit = "2024-V1")
  /\ (forall h,
        h < 1 \/ 6 < h ->
        storage.getIncomeLimitForHousehold (programs_id_seq db) h db1
        = (Value None, db1)).
Proof.
  intros Hrun Hempty Hfresh.
  destruct (seedDatabase_cases _ _ _ _ _ Hrun) as (_ & _ & _ & _ & Hprog).
  destruct Hprog as [(Hne & _) | (_ & Hp & Hl)]; [contradiction|].
  pose proof (fun h => no_limit_for_unused_program (incomeLimits db)
                          (programs_id_seq db) h Hfresh) as Hold.
  split; [|split].
  - eexists. unfold storage.getProgram, select. rewrite Hp.
    cbn [filter Program.id]. rewrite Z.eqb_refl. repeat split.
  - intros h Hh.
    unfold storage.getIncomeLimitForHousehold, select.
    rewrite Hl, filter_app, Hold.
    cbn [List.app map filter IncomeLimit.programId IncomeLimit.householdSize].
    rewrite !Z.eqb_refl. cbn [andb].
    assert (h = 1 \/ h = 2 \/ h = 3 \/ h = 4 \/ h = 5 \/ h = 6) as Hcase by lia.
    destruct Hcase as [-> | [-> | [-> | [-> | [-> | ->]]]]];
      eexists; (split; [reflexivity|]); split; reflexivity.
  - intros h Hh.
    unfold storage.getIncomeLimitForHousehold, select.
    rewrite Hl, filter_app, Hold.
    cbn [List.app map filter IncomeLimit.programId IncomeLimit.householdSize].
    rewrite !Z.eqb_refl. cbn [andb].
    assert ((1 =? h) = false) as -> by (apply Z.eqb_neq; lia).
    assert ((2 =? h) = false) as -> by (apply Z.eqb_neq; lia).
    assert ((3 =? h) = false) as -> by (apply Z.eqb_neq; lia).
    assert ((4 =? h) = false) as -> by (apply Z.eqb_neq; lia).
    assert ((5 =? h) = false) as -> by (apply Z.eqb_neq; lia).
    assert ((6 =? h) = false) as -> by (apply Z.eqb_neq; lia).
    reflexivity.
Qed.

(** ** The export *)



(** ** buildUrl *)

Lemma starts_with_app (pat rest : list ascii) :
  starts_with pat (pat ++ rest) = true.
Proof.
  induction pat as [|c pat IH]; [reflexivity|].
  simpl. now rewrite Ascii.eqb_refl.
Qed.

Lemma skipn_length_app {A : Type} (l rest : list A) :
  skipn (List.length l) (l ++ rest) = rest.
Proof. induction l; simpl; auto. Qed.

Lemma substitution_without_dollar (repl matched before after : list ascii) :
  forallb (fun c => negb (Ascii.eqb c "$")) repl = true ->
  substitution repl matched before after = repl.
Proof.
  induction repl as [|c repl IH]; [reflexivity|].
  simpl. intros H. apply andb_true_iff in H as [Hc H].
  apply negb_true_iff in Hc. rewrite Hc. now rewrite IH.
Qed.

Lemma split_first_after_plain (pre key post : list ascii) :
  forallb (fun c => negb (Ascii.eqb c ":")) pre = true ->
  split_first (":"%char :: key) (pre ++ ":"%char :: key ++ post)
  = Some (pre, post).
Proof.
  induction pre as [|c pre IH]; intros H.
  - cbn [List.app]. unfold split_first.
    change (":"%char :: key ++ post) with ((":"%char :: key) ++ post).
    destruct ((":"%char :: key) ++ post) eqn:E; [discriminate|].
    rewrite <- E, starts_with_app, skipn_length_app. reflexivity.
  - simpl in H. apply andb_true_iff in H as [Hc H].
    apply negb_true_iff in Hc.
    cbn [List.app split_first starts_with].
    rewrite Ascii.eqb_sym, Hc. cbn [andb].
    now rewrite (IH H).
Qed.

Lemma contains_chars_unfold (s t : list ascii) :
  contains_chars s t
  = starts_with s t
    || match t with
       | [] => false
       | _ :: t' => contains_chars s t'
       end.
Proof. now destruct t. Qed.

Lemma contains_chars_app (pre pat post : list ascii) :
  contains_chars pat (pre ++ pat ++ post) = true.
Proof.
  induction pre as [|c pre IH].
  - cbn [List.app]. rewrite contains_chars_unfold.
    now rewrite starts_with_app.
  - cbn [List.app]. rewrite contains_chars_unfold, IH. apply orb_true_r.
Qed.

(** X21.  [buildUrl] returns the path as it is when no parameters are
    given, and when none of the given keys occurs in the path after a
    colon. *)
Theorem buildUrl_without_placeholder path params :
  buildUrl path None = path
  /\ ((forall key value, In (key, value) params ->
                         includes path (":" ++ key)%string = false) ->
      buildUrl path (Some params) = path).
Proof.
  split; [reflexivity|].
  unfold buildUrl. induction params as [|[key value] params IH]; intros H.
  - reflexivity.
  - cbn [fold_left]. rewrite (H key value (or_introl eq_refl)).
    apply IH. intros k v Hin. apply (H k v). now right.
Qed.

(** X22.  [buildUrl] fills the placeholder of its parameter: in a path
    made of a prefix without a colon, a colon, the key and a rest, the
    colon and the key are replaced by the value, when the text of the value
    holds no dollar sign. *)
Theorem buildUrl_fills_the_placeholder pre key post value :
  forallb (fun c => negb (Ascii.eqb c ":")) (list_ascii_of_string pre) = true ->
  forallb (fun c => negb (Ascii.eqb c "$"))
          (list_ascii_of_string (String_of value)) = true ->
  buildUrl (pre ++ ":" ++ key ++ post)%string (Some [(key, value)])
  = (pre ++ String_of value ++ post)%string.
Proof.
  intros Hpre Hvalue. unfold buildUrl. cbn [fold_left].
  assert (list_ascii_of_string (pre ++ ":" ++ key ++ post)%string
          = list_ascii_of_string pre
            ++ ":"%char :: list_ascii_of_string key ++ list_ascii_of_string post)
    as Hpath.
  { rewrite list_ascii_of_string_app.
    change (":" ++ key ++ post)%string with (String ":" (key ++ post))%string.
    cbn [list_ascii_of_string]. now rewrite list_ascii_of_string_app. }
  assert (includes (pre ++ ":" ++ key ++ post)%string (":" ++ key)%string = true)
    as ->.
  { unfold includes, contains. rewrite Hpath.
    change (list_ascii_of_string (":" ++ key)%string)
      with (":"%char :: list_ascii_of_string key).
    change (":"%char :: list_ascii_of_string key ++ list_ascii_of_string post)
      with ((":"%char :: list_ascii_of_string key) ++ list_ascii_of_string post).
    apply contains_chars_app. }
  unfold replace. rewrite Hpath.
  change (list_ascii_of_string (":" ++ key)%string)
    with (":"%char :: list_ascii_of_string key).
  rewrite (split_first_after_plain _ _ _ Hpre).
  rewrite (substitution_without_dollar _ _ _ _ Hvalue).
  rewrite <- !list_ascii_of_string_app.
  apply string_of_list_ascii_of_string.
Qed.

(** ** From the applicant to the reviewer's list *)

Lemma listed_when_selected db user query a :
  programId_binds query = true ->
  In a (applications db) ->
  selected query a = true ->
  exists enriched program,
    applications_list (Some user) query db
    = (Value (json 200 (applicationListJson enriched)), db)
    /\ In (a, program) enriched
    /\ storage.getProgram (Application.programId a) db = (Value program, db).
Proof.
  intros Hb Hin Hsel.
  eexists. eexists. split; [|split; [|reflexivity]].
  - now apply applications_list_run.
  - apply (in_map (fun a =>
                     (a, hd_error
                           (filter (fun p => Program.id p
                                             =? Application.programId a)
                                   (programs db))))).
    apply (Permutation_in _ (Permutation_sym (orderBy_desc_perm _ _))).
    apply filter_In. now split.
Qed.

(** X23.  An application that was just started is in the reviewer's list:
    the unfiltered list carries it, as a draft never submitted, together
    with the program its [programId] finds, which is none when no program
    has that id, since starting does not look the program up.  The start
    is one the database accepts: the body is valid, its [programId] an
    integer of 32 bits, and no application has the token or the next id
    of the sequence. *)
Theorem started_application_is_listed db user body token now input p :
  startApplicationSchema_parse body = Some input ->
  input_programId input = Int p ->
  int32 p ->
  constraints_ok (applications db) = true ->
  (forall b, In b (applications db) ->
             Application.applicantToken b <> token
             /\ Application.id b <> applications_id_seq db) ->
  exists id db1 enriched a program,
    applications_start body token now db
    = (Value (json 201 (startedJson token id)), db1)
    /\ applications_list (Some user) (mkListQuery None None None) db1
       = (Value (json 200 (applicationListJson enriched)), db1)
    /\ In (a, program) enriched
    /\ Application.id a = id
    /\ Application.applicantToken a = token
    /\ Application.programId a = p
    /\ Application.status a = "Draft"
    /\ Application.submittedAt a = None
    /\ storage.getProgram p db = (Value program, db).
Proof.
  intros Hparse Hp Hrange Hok Hfresh. apply int32_in_int4 in Hrange.
  destruct (createApplication_accepted db p (input_applicantName input)
              (input_applicantEmail input) token "Draft" (Some "NeedsReview")
              now Hrange Hok Hfresh)
    as (Hcreate & _ & _).
  set (a := Application.mk (applications_id_seq db) _ _ _ _ _ _ _ _ _ _ _
              _ _ _ _ _ _ _ _) in *.
  set (db1 := with_applications (applications db ++ [a])
                (applications_id_seq db + 1) db) in *.
  destruct (listed_when_selected db1 user (mkListQuery None None None) a)
    as (enriched & program & Hlist & Hin & Hprog).
  { reflexivity. }
  { unfold db1. cbn [applications with_applications].
    apply in_or_app. right. now left. }
  { reflexivity. }
  exists (applications_id_seq db), db1, enriched, a, program.
  split; [|split; [exact Hlist|split; [exact Hin|]]].
  - unfold applications_start. rewrite Hparse.
    unfold bind. rewrite Hp, Hcreate. reflexivity.
  - do 5 (split; [reflexivity|]).
    unfold storage.getProgram, select in *. unfold db1 in Hprog.
    cbn [programs with_applications Application.programId a] in Hprog.
    injection Hprog as Hprog. now rewrite Hprog.
Qed.

(** X24.  A submitted application reaches the reviewers: after a
    submission the list filtered by the status [Submitted] carries the
    application with the result the submission recorded. *)
Theorem submitted_application_is_listed db user token now app :
  constraints_ok (applications db) = true ->
  storage.getApplicationByToken token db = (Value (Some app), db) ->
  exists db' a' enriched program,
    applications_submitByToken token now db
    = (Value (json 200 (applicationJson (Some a'))), db')
    /\ applications_list (Some user)
         (mkListQuery (Some "Submitted") None None) db'
       = (Value (json 200 (applicationListJson enriched)), db')
    /\ In (a', program) enriched
    /\ Application.id a' = Application.id app
    /\ Application.status a' = "Submitted"
    /\ Application.submittedAt a' = Some now.
Proof.
  intros Hok Hget.
  destruct (submitByToken_effect db token now app Hok Hget)
    as (db' & Hrun & _ & Hfind & _).
  destruct (getApplicationByToken_sound _ _ _ Hfind) as [Hin _].
  destruct (listed_when_selected db' user
              (mkListQuery (Some "Submitted") None None) _ eq_refl Hin)
    as (enriched & program & Hlist & Hin' & _).
  { destruct (calculation db app) as [[r c] v]. reflexivity. }
  exists db'. eexists. exists enriched, program.
  split; [exact Hrun|]. split; [exact Hlist|]. split; [exact Hin'|].
  destruct (calculation db app) as [[r c] v]. repeat split.
Qed.

(** X25.  A decided application is listed under the status it was given:
    after a decision, the list filtered by the status of the decision
    carries the application, reviewed by the user who decided. *)
Theorem decided_application_is_listed_under_its_status
  db user id n body now app status :
  constraints_ok (applications db) = true ->
  Number id = Int n ->
  storage.getApplication n db = (Value (Some app), db) ->
  decision_status body = Some status ->
  exists db' a' enriched program,
    applications_decision (Some user) id body now db
    = (Value (json 200 (applicationJson (Some a'))), db')
    /\ applications_list (Some user) (mkListQuery (Some status) None None) db'
       = (Value (json 200 (applicationListJson enriched)), db')
    /\ In (a', program) enriched
    /\ Application.id a' = Application.id app
    /\ Application.status a' = status
    /\ Application.reviewedBy a' = Some (User.id user).
Proof.
  intros Hok Hn Hget Hstatus.
  destruct (decision_effect db user id n body now app Hok Hn Hget)
    as (db' & Hrun & _ & Hfind & _).
  destruct (getApplicationByToken_sound _ _ _ Hfind) as [Hin _].
  rewrite Hstatus in *.
  destruct (listed_when_selected db' user
              (mkListQuery (Some status) None None) _ eq_refl Hin)
    as (enriched & program & Hlist & Hin' & _).
  { unfold selected. cbn. rewrite String.eqb_refl. now rewrite orb_true_r. }
  exists db'. eexists. exists enriched, program.
  split; [exact Hrun|]. split; [exact Hlist|]. split; [exact Hin'|].
  repeat split.
Qed.

(** ** The list editors of the program form *)

Lemma filter_neq_In (l : list string) (o x : string) :
  In x (filter (fun v => negb (String.eqb v o)) l) <-> In x l /\ x <> o.
Proof.
  rewrite filter_In. rewrite negb_true_iff, String.eqb_neq. reflexivity.
Qed.

Lemma filter_neq_absent (l : list string) (o : string) :
  ~ In o l -> filter (fun v => negb (String.eqb v o)) l = l.
Proof.
  induction l as [|x l IH]; intros Hn; [reflexivity|]. simpl.
  destruct (String.eqb_spec x o) as [->|Hne].
  - exfalso. apply Hn. now left.
  - simpl. f_equal. apply IH. intros H. apply Hn. now right.
Qed.

Lemma NoDup_snoc (l : list string) (x : string) :
  NoDup l -> ~ In x l -> NoDup (l ++ [x]).
Proof.
  intros Hl Hx. apply NoDup_app; [assumption|repeat constructor; auto|].
  intros y Hy [<-|[]]. contradiction.
Qed.

Lemma existsb_eqb_In (l : list string) (x : string) :
  existsb (String.eqb x) l = true <-> In x l.
Proof.
  rewrite existsb_exists. split.
  - intros (y & Hy & He). apply String.eqb_eq in He. now subst.
  - intros H. exists x. split; [assumption|apply String.eqb_refl].
Qed.

(** X26.  Toggling an option of the multi-select flips that option and no
    other: an entry is selected afterwards exactly when it is the toggled
    option and was not selected, or another option that was; and a
    selection without duplicates stays without duplicates. *)
Theorem toggle_flips_one_option value option :
  (forall x,
      In x (MultiSelect.toggleOption value option)
      <-> (x = option /\ ~ In option value) \/ (x <> option /\ In x value))
  /\ (NoDup value -> NoDup (MultiSelect.toggleOption value option)).
Proof.
  unfold MultiSelect.toggleOption.
  destruct (existsb (String.eqb option) value) eqn:E.
  - apply existsb_eqb_In in E. split.
    + intros x. rewrite filter_neq_In. split.
      * intros [Hx Hne]. right. auto.
      * intros [[-> Hn]|[Hne Hx]]; [contradiction|auto].
    + intros Hnd. now apply NoDup_filter.
  - assert (~ In option value) as Hn.
    { intros H. apply existsb_eqb_In in H. congruence. }
    split.
    + intros x. rewrite in_app_iff. split.
      * intros [Hx|[<-|[]]]; [|left; auto].
        right. split; [|assumption]. intros ->. contradiction.
      * intros [[-> _]|[_ Hx]]; [right; now left|now left].
    + intros Hnd. now apply NoDup_snoc.
Qed.

(** X27.  Toggling the same option twice restores the selection: the list
    itself when the option was not selected, and the same options, with
    the toggled one moved to the end, when it was selected once. *)
Theorem toggle_twice_restores_the_selection value option :
  (~ In option value ->
   MultiSelect.toggleOption (MultiSelect.toggleOption value option) option
   = value)
  /\ (NoDup value ->
      Permutation
        (MultiSelect.toggleOption (MultiSelect.toggleOption value option) option)
        value).
Proof.
  assert (~ In option value ->
          MultiSelect.toggleOption (MultiSelect.toggleOption value option) option
          = value) as Habsent.
  { intros Hn. unfold MultiSelect.toggleOption.
    assert (existsb (String.eqb option) value = false) as ->.
    { destruct (existsb _ value) eqn:E; [|reflexivity].
      apply existsb_eqb_In in E. contradiction. }
    assert (existsb (String.eqb option) (value ++ [option]) = true) as ->.
    { apply existsb_eqb_In, in_or_app. right. now left. }
    rewrite filter_app, filter_neq_absent by assumption.
    simpl. rewrite String.eqb_refl. apply app_nil_r. }
  split; [exact Habsent|].
  intros Hnd. destruct (in_dec string_dec option value) as [Hin|Hn].
  - unfold MultiSelect.toggleOption.
    assert (existsb (String.eqb option) value = true) as ->
        by now apply existsb_eqb_In.
    assert (existsb (String.eqb option)
              (filter (fun v => negb (String.eqb v option)) value) = false) as ->.
    { destruct (existsb _ (filter _ value)) eqn:E; [|reflexivity].
      apply existsb_eqb_In, filter_neq_In in E. now destruct E. }
    apply NoDup_Permutation; [|assumption|].
    + apply NoDup_snoc; [now apply NoDup_filter|].
      rewrite filter_neq_In. now intros [_ H].
    + intros x. rewrite in_app_iff, filter_neq_In. split.
      * intros [[Hx _]|[<-|[]]]; assumption.
      * intros Hx. destruct (string_dec x option) as [->|Hne];
          [right; now left|left; auto].
  - rewrite (Habsent Hn). reflexivity.
Qed.

Section ZipCodes.
Variable trim : string -> string.

(** X28.  The list of ZIP codes stays well formed: when every entry is
    five digits and no entry occurs twice, this still holds after any
    sequence of key presses, changes of the field, losses of focus and
    removals. *)
Theorem zip_codes_stay_five_digits_and_distinct st events :
  Forall (fun zip => ZipCodeInput.five_digits zip = true)
         (ZipCodeInput.value st) ->
  NoDup (ZipCodeInput.value st) ->
  let st' := fold_left (ZipCodeInput.handle trim) events st in
  Forall (fun zip => ZipCodeInput.five_digits zip = true)
         (ZipCodeInput.value st')
  /\ NoDup (ZipCodeInput.value st').
Proof.
  revert st. induction events as [|ev events IH]; intros st Hd Hn; [now split|].
  cbn [fold_left]. apply IH.
  - assert (forall zip,
               Forall (fun zip => ZipCodeInput.five_digits zip = true)
                      (ZipCodeInput.value (ZipCodeInput.addZipCode trim st zip)))
      as Hadd.
    { intros zip. unfold ZipCodeInput.addZipCode.
      destruct (ZipCodeInput.five_digits (trim zip)) eqn:E; [|exact Hd].
      cbn [negb]. destruct (existsb _ _); [exact Hd|].
      cbn [ZipCodeInput.value]. apply Forall_app. split; [exact Hd|].
      now constructor. }
    assert (forall zip,
               Forall (fun zip => ZipCodeInput.five_digits zip = true)
                      (ZipCodeInput.value (ZipCodeInput.removeZipCode st zip)))
      as Hrem.
    { intros zip. cbn [ZipCodeInput.removeZipCode ZipCodeInput.value].
      apply Forall_forall. intros x Hx. apply filter_In in Hx as [Hx _].
      revert x Hx. now apply Forall_forall. }
    destruct ev as [key| |text|zip]; cbn [ZipCodeInput.handle].
    + unfold ZipCodeInput.handleKeyDown.
      destruct (_ || _); [destruct (negb _); [apply Hadd|exact Hd]|].
      destruct (_ && _); [apply Hrem|exact Hd].
    + unfold ZipCodeInput.handleBlur.
      destruct (negb _); [apply Hadd|exact Hd].
    + exact Hd.
    + apply Hrem.
  - assert (forall zip,
               NoDup (ZipCodeInput.value (ZipCodeInput.addZipCode trim st zip)))
      as Hadd.
    { intros zip. unfold ZipCodeInput.addZipCode.
      destruct (negb _); [exact Hn|].
      destruct (existsb _ _) eqn:E; [exact Hn|].
      cbn [ZipCodeInput.value]. apply NoDup_snoc; [exact Hn|].
      intros H. apply existsb_eqb_In in H. congruence. }
    assert (forall zip,
               NoDup (ZipCodeInput.value (ZipCodeInput.removeZipCode st zip)))
      as Hrem.
    { intros zip. cbn [ZipCodeInput.removeZipCode ZipCodeInput.value].
      now apply NoDup_filter. }
    destruct ev as [key| |text|zip]; cbn [ZipCodeInput.handle].
    + unfold ZipCodeInput.handleKeyDown.
      destruct (_ || _); [destruct (negb _); [apply Hadd|exact Hn]|].
      destruct (_ && _); [apply Hrem|exact Hn].
    + unfold ZipCodeInput.handleBlur.
      destruct (negb _); [apply Hadd|exact Hn].
    + exact Hn.
    + apply Hrem.
Qed.

(** X29.  Backspace in the empty field removes the last ZIP code and only
    that one, when no entry occurs twice. *)
Theorem backspace_removes_the_last_zip st zips zip :
  ZipCodeInput.value st = zips ++ [zip] ->
  NoDup (ZipCodeInput.value st) ->
  ZipCodeInput.inputValue st = EmptyString ->
  ZipCodeInput.handleKeyDown trim st "Backspace"
  = ZipCodeInput.mk zips EmptyString (ZipCodeInput.error st).
Proof.
  intros Hv Hn Hi. unfold ZipCodeInput.handleKeyDown.
  cbn [String.eqb Ascii.eqb Bool.eqb orb andb]. rewrite Hi.
  cbn [String.eqb andb]. rewrite Hv, last_last.
  assert ((0 <? Z.of_nat (List.length (zips ++ [zip]))) = true) as ->.
  { apply Z.ltb_lt. rewrite length_app. simpl. lia. }
  unfold ZipCodeInput.removeZipCode. rewrite Hv, Hi.
  f_equal. rewrite filter_app. simpl. rewrite String.eqb_refl. simpl.
  rewrite app_nil_r. apply filter_neq_absent.
  rewrite Hv in Hn. apply NoDup_remove_2 in Hn. now rewrite app_nil_r in Hn.
Qed.

End ZipCodes.

End Server.

(** * Examples on the sample database *)

Lemma submit_compares_income_with_limit_witness :
  constraints_ok (applications sample_db) = true
  /\ storage.getApplicationByToken "aa" sample_db = (Value (Some ada), sample_db)
  /\ exists limit db' a',
      storage.getIncomeLimitForHousehold 1 2 sample_db
      = (Value (Some limit), sample_db)
      /\ In limit (incomeLimits sample_db)
      /\ IncomeLimit.programId limit = 1
      /\ IncomeLimit.householdSize limit = 2
      /\ applications_submitByToken "aa" 1000 sample_db
         = (Value (json 200 (applicationJson (Some a'))), db')
      /\ storage.getApplicationByToken "aa" db' = (Value (Some a'), db')
      /\ Application.systemResult a'
         = Some (if 3900000 <=? IncomeLimit.limitCents limit
                 then "Eligible" else "NotEligible")
      /\ Application.computedLimitCents a' = Some (IncomeLimit.limitCents limit)
      /\ Application.ruleVersion a' = Some (IncomeLimit.versionLabel limit).
Proof.
  split; [reflexivity|]. split; [reflexivity|].
  apply (submit_compares_income_with_limit sample_db "aa" 1000 ada 2 3900000).
  - reflexivity.
  - reflexivity.
  - reflexivity.
  - lia.
  - reflexivity.
  - exists (IncomeLimit.mk 2 1 2 4000000 "2024-V1" (Some 0)).
    split; [simpl; auto|]. split; reflexivity.
Defined.

(** C1 as stated fails for a household size of zero: the application of
    token [bb] has [householdSize] 0 and [annualIncomeCents] 100, the table
    holds a limit of 3000000 for its program and household size 0, and the
    submission records [NeedsReview] and no limit. *)
Lemma submit_household_zero_skips_limit :
  ~ (forall db token now app h income,
        constraints_ok (applications db) = true ->
        storage.getApplicationByToken token db = (Value (Some app), db) ->
        Application.householdSize app = Some h ->
        Application.annualIncomeCents app = Some income ->
        (exists l, In l (incomeLimits db)
                   /\ IncomeLimit.programId l = Application.programId app
                   /\ IncomeLimit.householdSize l = h) ->
        exists limit db' a',
          In limit (incomeLimits db)
          /\ IncomeLimit.programId limit = Application.programId app
          /\ IncomeLimit.householdSize limit = h
          /\ applications_submitByToken token now db
             = (Value (json 200 (applicationJson (Some a'))), db')
          /\ Application.systemResult a'
             = Some (if income <=? IncomeLimit.limitCents limit
                     then "Eligible" else "NotEligible")
          /\ Application.computedLimitCents a'
             = Some (IncomeLimit.limitCents limit)
          /\ Application.ruleVersion a'
             = Some (IncomeLimit.versionLabel limit)).
Proof.
  intros H.
  destruct (H sample_db "bb" 1000 bob 0 100)
    as (limit & db' & a' & _ & _ & _ & Hrun & _ & Hlimit & _);
    try reflexivity.
  - exists (IncomeLimit.mk 3 1 0 3000000 "2024-V1" (Some 0)).
    split; [simpl; auto|]. split; reflexivity.
  - vm_compute in Hrun. injection Hrun as <- <-.
    discriminate Hlimit.
Qed.

Lemma submit_without_limit_needs_review_witness :
  constraints_ok (applications sample_db) = true
  /\ storage.getApplicationByToken "dd" sample_db = (Value (Some di), sample_db)
  /\ Application.householdSize di = None
  /\ exists db' a',
      applications_submitByToken "dd" 1000 sample_db
      = (Value (json 200 (applicationJson (Some a'))), db')
      /\ storage.getApplicationByToken "dd" db' = (Value (Some a'), db')
      /\ Application.systemResult a' = Some "NeedsReview"
      /\ Application.computedLimitCents a' = None
      /\ Application.ruleVersion a' = None
      /\ Application.status a' = "Submitted".
Proof.
  split; [reflexivity|]. split; [reflexivity|]. split; [reflexivity|].
  apply (submit_without_limit_needs_review sample_db "dd" 1000 di).
  - reflexivity.
  - reflexivity.
  - left. reflexivity.
Defined.

(** The application of token [cc] is [Approved] and is submitted again. *)
Lemma submit_has_no_status_precondition_witness :
  constraints_ok (applications sample_db) = true
  /\ storage.getApplicationByToken "cc" sample_db = (Value (Some cy), sample_db)
  /\ Application.status cy = "Approved"
  /\ exists db' a' result,
      applications_submitByToken "cc" 1000 sample_db
      = (Value (json 200 (applicationJson (Some a'))), db')
      /\ storage.getApplicationByToken "cc" db' = (Value (Some a'), db')
      /\ Application.status a' = "Submitted"
      /\ Application.submittedAt a' = Some 1000
      /\ Application.systemResult a' = Some result
      /\ In result systemResults
      /\ ((Application.computedLimitCents a' = None
           /\ Application.ruleVersion a' = None)
          \/ exists limit,
               In limit (incomeLimits sample_db)
               /\ Application.computedLimitCents a'
                  = Some (IncomeLimit.limitCents limit)
               /\ Application.ruleVersion a'
                  = Some (IncomeLimit.versionLabel limit))
      /\ Application.id a' = Application.id cy
      /\ Application.programId a' = Application.programId cy
      /\ Application.applicantName a' = Application.applicantName cy
      /\ Application.applicantEmail a' = Application.applicantEmail cy
      /\ Application.householdSize a' = Application.householdSize cy
      /\ Application.annualIncomeCents a' = Application.annualIncomeCents cy
      /\ Application.reviewedBy a' = Application.reviewedBy cy.
Proof.
  split; [reflexivity|]. split; [reflexivity|]. split; [reflexivity|].
  apply (submit_has_no_status_precondition sample_db "cc" 1000 cy);
    reflexivity.
Defined.

(** Token [bb]: household size 0, income 100, and the table has a limit for
    household size 0.  Token [cc]: household size 1, income 0. *)
Lemma submit_zero_household_and_zero_income_witness :
  constraints_ok (applications sample_db) = true
  /\ storage.getApplicationByToken "bb" sample_db = (Value (Some bob), sample_db)
  /\ storage.getApplicationByToken "cc" sample_db = (Value (Some cy), sample_db)
  /\ storage.getIncomeLimitForHousehold 1 0 sample_db
     = (Value (Some (IncomeLimit.mk 3 1 0 3000000 "2024-V1" (Some 0))), sample_db)
  /\ (exists db' a',
         applications_submitByToken "bb" 1000 sample_db
         = (Value (json 200 (applicationJson (Some a'))), db')
         /\ storage.getApplicationByToken "bb" db' = (Value (Some a'), db')
         /\ Application.systemResult a' = Some "NeedsReview"
         /\ Application.computedLimitCents a' = None
         /\ Application.ruleVersion a' = None)
  /\ (exists db' a',
         applications_submitByToken "cc" 1000 sample_db
         = (Value (json 200 (applicationJson (Some a'))), db')
         /\ storage.getApplicationByToken "cc" db' = (Value (Some a'), db')
         /\ Application.systemResult a' = Some "Eligible"
         /\ Application.computedLimitCents a' = Some 3500000
         /\ Application.ruleVersion a' = Some "2024-V1").
Proof.
  split; [reflexivity|]. split; [reflexivity|]. split; [reflexivity|].
  split; [reflexivity|]. split.
  - apply (proj1 (submit_zero_household_and_zero_income sample_db "bb" 1000 bob
                    eq_refl eq_refl)).
    reflexivity.
  - apply (proj2 (submit_zero_household_and_zero_income sample_db "cc" 1000 cy
                    eq_refl eq_refl)
             1 (IncomeLimit.mk 1 1 1 3500000 "2024-V1" (Some 0))).
    + reflexivity.
    + lia.
    + reflexivity.
    + reflexivity.
Defined.

(** The reviewer approves application 1; no application has id 9; the id
    2147483648 is beyond 32 bits, and [x] reads as no number. *)
Lemma decision_sets_status_and_logs_one_event_witness :
  let body := mkDecisionBody (Some "Approved") (Some "documents checked") in
  constraints_ok (applications sample_db) = true
  /\ decimal_Number "1" = Int 1
  /\ int32 1
  /\ In ada (applications sample_db)
  /\ Application.id ada = 1
  /\ (exists db' a' ev,
         applications_decision decimal_Number (Some reviewer) "1" body
           1000 sample_db
         = (Value (json 200 (applicationJson (Some a'))), db')
         /\ storage.getApplication (Application.id ada) db'
            = (Value (Some a'), db')
         /\ Application.id a' = Application.id ada
         /\ Application.status a' = "Approved"
         /\ Application.reviewedBy a' = Some (User.id reviewer)
         /\ activityEvents db' = activityEvents sample_db ++ [ev]
         /\ ActivityEvent.applicationId ev = Application.id ada
         /\ ActivityEvent.type ev
            = (if String.eqb "Approved" "NeedsInfo" then "RequestInfo"
               else "StatusChange")
         /\ ActivityEvent.createdByUserId ev = Some (User.id reviewer))
  /\ decimal_Number "9" = Int 9
  /\ int32 9
  /\ (forall a, In a (applications sample_db) -> Application.id a <> 9)
  /\ applications_decision decimal_Number (Some reviewer) "9" body
       1000 sample_db
     = (Value (sendStatus 404), sample_db)
  /\ decimal_Number "2147483648" = Int 2147483648
  /\ ~ int32 2147483648
  /\ applications_decision decimal_Number (Some reviewer) "2147483648" body
       1000 sample_db
     = (Thrown DatabaseError, sample_db)
  /\ decimal_Number "x" = NaN
  /\ applications_decision decimal_Number (Some reviewer) "x" body
       1000 sample_db
     = (Thrown DatabaseError, sample_db).
Proof.
  intros body.
  assert (forall a, In a (applications sample_db) -> Application.id a <> 9)
    as Hnone.
  { intros a [<-|[<-|[<-|[<-|[]]]]]; discriminate. }
  assert (int32 1) as H1 by (unfold int32; lia).
  assert (int32 9) as H9 by (unfold int32; lia).
  assert (~ int32 2147483648) as Hwide by (unfold int32; lia).
  assert (In ada (applications sample_db)) as Hin by (simpl; auto).
  split; [reflexivity|]. split; [reflexivity|]. split; [exact H1|].
  split; [exact Hin|]. split; [reflexivity|].
  split; [|split; [reflexivity|split; [exact H9|split; [exact Hnone|split;
    [|split; [reflexivity|split; [exact Hwide|split;
      [|split; [reflexivity|]]]]]]]]].
  - apply (proj1 (decision_sets_status_and_logs_one_event decimal_Number
                    sample_db reviewer "1" body 1000 eq_refl)
             1 ada "Approved" eq_refl H1 Hin eq_refl eq_refl).
  - apply (proj1 (proj2 (decision_sets_status_and_logs_one_event decimal_Number
                           sample_db reviewer "9" body 1000 eq_refl))
             9 eq_refl H9 Hnone).
  - apply (proj2 (proj2 (decision_sets_status_and_logs_one_event decimal_Number
                           sample_db reviewer "2147483648" body 1000 eq_refl))).
    right. right. exists 2147483648. split; [reflexivity|exact Hwide].
  - apply (proj2 (proj2 (decision_sets_status_and_logs_one_event decimal_Number
                           sample_db reviewer "x" body 1000 eq_refl))).
    left. reflexivity.
Defined.

(** C7 as stated fails for an id beyond 32 bits: no application of the
    sample database has the id 2147483648, and the decision on it is not
    answered 404: the query is rejected and the handler throws. *)
Lemma decision_on_wide_id_is_rejected :
  ~ (forall db user id n body now,
        decimal_Number id = Int n ->
        (forall a, In a (applications db) -> Application.id a <> n) ->
        applications_decision decimal_Number (Some user) id body now db
        = (Value (sendStatus 404), db)).
Proof.
  intros H.
  specialize (H sample_db reviewer "2147483648" 2147483648
                (mkDecisionBody (Some "Approved") (Some "documents checked"))
                1000 eq_refl).
  assert (forall a, In a (applications sample_db) ->
                    Application.id a <> 2147483648) as Hnone.
  { intros a [<-|[<-|[<-|[<-|[]]]]]; discriminate. }
  specialize (H Hnone). vm_compute in H. discriminate H.
Qed.

(** C3 at a failing input.  The reviewer posts the decision
    [{ status: "Escalated", note: "see file" }] for application 1: the
    handler answers 200 and the stored status is [Escalated], which is none
    of the five application statuses. *)
Theorem decision_stores_status_outside_enum :
  exists db' a',
    applications_decision sample_Number (Some reviewer) "1"
      (mkDecisionBody (Some "Escalated") (Some "see file")) 1000 sample_db
    = (Value (json 200 (applicationJson (Some a'))), db')
    /\ storage.getApplication 1 db' = (Value (Some a'), db')
    /\ Application.status a' = "Escalated"
    /\ ~ In (Application.status a') applicationStatuses.
Proof.
  eexists. eexists. split; [vm_compute; reflexivity|].
  split; [reflexivity|]. split; [reflexivity|].
  simpl. intros [H|[H|[H|[H|[H|[]]]]]]; discriminate H.
Qed.

(** The same status written by the applicant, through [PATCH] by token on
    a draft. *)
Example update_by_token_stores_status_outside_enum :
  exists db' a',
    applications_updateByToken "aa"
      (PartialApplication.mk None None None None None None None None None
         None None None None None None (Some "Escalated") None None None None)
      1000 sample_db
    = (Value (json 200 (applicationJson (Some a'))), db')
    /\ Application.status a' = "Escalated".
Proof. eexists. eexists. split; [vm_compute; reflexivity|reflexivity]. Qed.



(** A valid body for program 1 and the unused token [ee]; a body without
    a name; a valid body whose [programId] is beyond 32 bits; and a valid
    body with the token [aa], which is taken. *)
Lemma start_parses_then_creates_draft_witness :
  let body := mkStartBody (str "1") (str "Eve") (str "eve@example.com") in
  let unnamed := mkStartBody (str "1") (str EmptyString) (str "eve@example.com") in
  let wide :=
    mkStartBody (num (Int 3000000000)) (str "Eve") (str "eve@example.com") in
  decimal_Number "1" = Int 1
  /\ int32 1
  /\ ~ int32 3000000000
  /\ sample_isEmail "eve@example.com" = true
  /\ constraints_ok (applications sample_db) = true
  /\ (forall b, In b (applications sample_db) ->
                Application.applicantToken b <> "ee"
                /\ Application.id b <> applications_id_seq sample_db)
  /\ (exists a db',
         applications_start decimal_Number sample_isEmail body "ee" 1000
           sample_db
         = (Value (json 201 (startedJson "ee" (Application.id a))), db')
         /\ Permutation (applications db') (a :: applications sample_db)
         /\ storage.getApplicationByToken "ee" db' = (Value (Some a), db')
         /\ Application.status a = "Draft"
         /\ Application.systemResult a = Some "NeedsReview"
         /\ Application.applicantToken a = "ee"
         /\ Application.programId a = 1
         /\ Application.applicantName a = "Eve"
         /\ Application.applicantEmail a = "eve@example.com"
         /\ Application.submittedAt a = None)
  /\ applications_start decimal_Number sample_isEmail unnamed "ee" 1000
       sample_db
     = (Thrown ZodError, sample_db)
  /\ applications_start decimal_Number sample_isEmail wide "ee" 1000 sample_db
     = (Thrown DatabaseError, sample_db)
  /\ exists db',
      applications_start decimal_Number sample_isEmail body "aa" 1000 sample_db
      = (Thrown DatabaseError, db')
      /\ applications db' = applications sample_db.
Proof.
  intros body unnamed wide.
  assert (forall b, In b (applications sample_db) ->
                    Application.applicantToken b <> "ee"
                    /\ Application.id b <> applications_id_seq sample_db)
    as Hfresh.
  { intros b [<-|[<-|[<-|[<-|[]]]]]; split; discriminate. }
  assert (int32 1) as H1 by (unfold int32; lia).
  assert (~ int32 3000000000) as Hwide by (unfold int32; lia).
  split; [reflexivity|]. split; [exact H1|]. split; [exact Hwide|].
  split; [reflexivity|]. split; [reflexivity|].
  split; [exact Hfresh|]. split; [|split; [|split]].
  - apply (proj1 (start_parses_then_creates_draft decimal_Number
                    sample_isEmail sample_db body "ee" 1000)
             1 "Eve" "eve@example.com");
      try reflexivity; [exact H1|discriminate|exact Hfresh].
  - apply (proj1 (proj2 (start_parses_then_creates_draft decimal_Number
                           sample_isEmail sample_db unnamed "ee" 1000))).
    right. right. left. reflexivity.
  - apply (proj1 (proj2 (proj2 (start_parses_then_creates_draft decimal_Number
                                  sample_isEmail sample_db wide "ee" 1000))
                    "Eve" "eve@example.com" eq_refl
                    ltac:(discriminate) eq_refl eq_refl)).
    right. exists 3000000000. split; [reflexivity|exact Hwide].
  - apply (proj2 (proj2 (proj2 (start_parses_then_creates_draft decimal_Number
                                  sample_isEmail sample_db body "aa" 1000))
                    "Eve" "eve@example.com" eq_refl
                    ltac:(discriminate) eq_refl eq_refl)
             1 eq_refl H1 eq_refl).
    exists ada. split; [simpl; auto|]. left. reflexivity.
Defined.

(** C4 as stated fails for a [programId] beyond 32 bits: the body is
    valid, the token and the next id are unused, and no application is
    created: the insert is rejected and the handler throws. *)
Lemma start_wide_programId_creates_nothing :
  ~ (forall db body token now input,
        startApplicationSchema_parse decimal_Number sample_isEmail body
        = Some input ->
        constraints_ok (applications db) = true ->
        (forall b, In b (applications db) ->
                   Application.applicantToken b <> token
                   /\ Application.id b <> applications_id_seq db) ->
        exists a db',
          applications_start decimal_Number sample_isEmail body token now db
          = (Value (json 201 (startedJson token (Application.id a))), db')
          /\ In a (applications db')
          /\ Application.status a = "Draft"
          /\ Application.systemResult a = Some "NeedsReview"
          /\ Application.applicantToken a = token).
Proof.
  intros H.
  destruct (H sample_db
              (mkStartBody (num (Int 3000000000)) (str "Eve")
                 (str "eve@example.com"))
              "ee" 1000
              (mkStartInput (Int 3000000000) "Eve" "eve@example.com")
              eq_refl eq_refl)
    as (a & db' & Hrun & _).
  - intros b [<-|[<-|[<-|[<-|[]]]]]; split; discriminate.
  - vm_compute in Hrun. discriminate Hrun.
Qed.

(** C5 as stated fails for [?programId=0]: the listing returns all four
    applications of the sample database, none of which has program 0. *)
Lemma list_ignores_program_zero :
  ~ (forall db user query enriched,
        applications_list sample_Number (Some user) query db
        = (Value (json 200 (applicationListJson enriched)), db) ->
        forall a,
          In a (map fst enriched)
          <-> In a (applications db) /\ matches_all_given sample_Number query a).
Proof.
  intros H.
  edestruct (H sample_db reviewer (mkListQuery None (Some "0") None))
    as [Hin _].
  - lazy. reflexivity.
  - destruct Hin as [_ (_ & Hprogram & _)].
    + simpl. left. reflexivity.
    + specialize (Hprogram "0" eq_refl). discriminate Hprogram.
Qed.

(** [?search=_] returns the four applications too, whose names hold no
    underscore; so does [?status=]. *)
Example list_search_underscore :
  exists enriched,
    applications_list sample_Number (Some reviewer)
      (mkListQuery None None (Some "_")) sample_db
    = (Value (json 200 (applicationListJson enriched)), sample_db)
    /\ map fst enriched = [ada; bob; cy; di]
    /\ contains "_" (Application.applicantName ada) = false.
Proof. eexists. split; [lazy; reflexivity|]. split; reflexivity. Qed.

Example list_empty_status :
  exists enriched,
    applications_list sample_Number (Some reviewer)
      (mkListQuery (Some EmptyString) None None) sample_db
    = (Value (json 200 (applicationListJson enriched)), sample_db)
    /\ map fst enriched = [ada; bob; cy; di].
Proof. eexists. split; [lazy; reflexivity|]. reflexivity. Qed.

(** The drafts of program 1 whose name matches [%o%]: Bob.  The query
    [?programId=3000000000] cannot be compared with the column. *)
Lemma list_returns_selected_in_order_witness :
  let query := mkListQuery (Some "Draft") (Some "1") (Some "o") in
  let wide := mkListQuery None (Some "3000000000") None in
  decimal_Number "1" = Int 1
  /\ int32 1
  /\ filter (selected decimal_Number query) (applications sample_db) = [bob]
  /\ (exists enriched,
         applications_list decimal_Number (Some reviewer) query sample_db
         = (Value (json 200 (applicationListJson enriched)), sample_db)
         /\ Permutation (map fst enriched)
                        (filter (selected decimal_Number query)
                                (applications sample_db))
         /\ Sorted submittedAt_desc (map fst enriched)
         /\ (forall a program,
                In (a, program) enriched ->
                storage.getProgram (Application.programId a) sample_db
                = (Value program, sample_db))
         /\ (forall s a,
                query_search query = Some s -> plain s = true ->
                s <> EmptyString ->
                selected decimal_Number
                  (mkListQuery (query_status query) (query_programId query)
                     None) a = true ->
                (selected decimal_Number query a = true
                 <-> contains s (Application.applicantName a) = true))
         /\ (query = mkListQuery None None None ->
             Permutation (map fst enriched) (applications sample_db)))
  /\ decimal_Number "3000000000" = Int 3000000000
  /\ ~ int32 3000000000
  /\ applications_list decimal_Number (Some reviewer) wide sample_db
     = (Thrown DatabaseError, sample_db).
Proof.
  intros query wide.
  assert (int32 1) as H1 by (unfold int32; lia).
  assert (~ int32 3000000000) as Hwide by (unfold int32; lia).
  split; [reflexivity|]. split; [exact H1|]. split; [reflexivity|].
  split; [|split; [reflexivity|split; [exact Hwide|]]].
  - apply (proj2 (list_returns_selected_in_order decimal_Number sample_db
                    reviewer query)).
    intros s Hs _. injection Hs as <-. right. exists 1.
    split; [reflexivity|exact H1].
  - apply (proj1 (list_returns_selected_in_order decimal_Number sample_db
                    reviewer wide) "3000000000" eq_refl).
    + discriminate.
    + right. exists 3000000000. split; [reflexivity|exact Hwide].
Defined.

(** * Examples for the further properties *)

Lemma submit_then_update_is_refused_witness :
  constraints_ok (applications sample_db) = true
  /\ storage.getApplicationByToken "aa" sample_db = (Value (Some ada), sample_db)
  /\ exists db' a',
      applications_submitByToken "aa" 1000 sample_db
      = (Value (json 200 (applicationJson (Some a'))), db')
      /\ forall body now',
           applications_updateByToken "aa" body now' db'
           = (Value (json 403 (messageJson "Cannot edit submitted application")),
              db').
Proof.
  split; [reflexivity|]. split; [reflexivity|].
  apply (submit_then_update_is_refused sample_db "aa" 1000 ada); reflexivity.
Defined.

Lemma resubmission_repeats_the_result_witness :
  constraints_ok (applications sample_db) = true
  /\ storage.getApplicationByToken "aa" sample_db = (Value (Some ada), sample_db)
  /\ exists db1 a1 db2 a2 ev1 ev2,
      applications_submitByToken "aa" 1000 sample_db
      = (Value (json 200 (applicationJson (Some a1))), db1)
      /\ applications_submitByToken "aa" 2000 db1
         = (Value (json 200 (applicationJson (Some a2))), db2)
      /\ Application.systemResult a2 = Application.systemResult a1
      /\ Application.computedLimitCents a2 = Application.computedLimitCents a1
      /\ Application.ruleVersion a2 = Application.ruleVersion a1
      /\ Application.status a2 = "Submitted"
      /\ Application.submittedAt a2 = Some 2000
      /\ patched
           (PartialApplication.mk None None None None None None None None None
              None None None None None None None (Some (Some 2000)) None None
              None)
           2000 a1 a2
      /\ activityEvents db2 = activityEvents sample_db ++ [ev1; ev2]
      /\ ActivityEvent.applicationId ev1 = Application.id ada
      /\ ActivityEvent.applicationId ev2 = Application.id ada
      /\ ActivityEvent.type ev1 = "System"
      /\ ActivityEvent.type ev2 = "System"
      /\ ActivityEvent.message ev2 = ActivityEvent.message ev1.
Proof.
  split; [reflexivity|]. split; [reflexivity|].
  apply (resubmission_repeats_the_result sample_db "aa" 1000 2000 ada);
    reflexivity.
Defined.

Lemma submit_changes_only_its_application_witness :
  constraints_ok (applications sample_db) = true
  /\ storage.getApplicationByToken "aa" sample_db = (Value (Some ada), sample_db)
  /\ exists db' a',
      applications_submitByToken "aa" 1000 sample_db
      = (Value (json 200 (applicationJson (Some a'))), db')
      /\ (forall t, t <> "aa" ->
                    fst (storage.getApplicationByToken t db')
                    = fst (storage.getApplicationByToken t sample_db))
      /\ users db' = users sample_db
      /\ programs db' = programs sample_db
      /\ incomeLimits db' = incomeLimits sample_db
      /\ documents db' = documents sample_db
      /\ exists ev, activityEvents db' = activityEvents sample_db ++ [ev].
Proof.
  split; [reflexivity|]. split; [reflexivity|].
  apply (submit_changes_only_its_application sample_db "aa" 1000 ada);
    reflexivity.
Defined.

Lemma submission_shows_in_the_activity_witness :
  constraints_ok (applications sample_db) = true
  /\ storage.getApplicationByToken "aa" sample_db = (Value (Some ada), sample_db)
  /\ exists db' a' result docs events ev,
      applications_submitByToken "aa" 1000 sample_db
      = (Value (json 200 (applicationJson (Some a'))), db')
      /\ applications_getByToken "aa" db'
         = (Value (json 200 (applicationByTokenJson a' docs events)), db')
      /\ Application.systemResult a' = Some result
      /\ In ev events
      /\ ActivityEvent.type ev = "System"
      /\ ActivityEvent.createdByUserId ev = None
      /\ ActivityEvent.message ev
         = ("Application submitted. System calculation: " ++ result)%string.
Proof.
  split; [reflexivity|]. split; [reflexivity|].
  apply (submission_shows_in_the_activity sample_db "aa" 1000 ada);
    reflexivity.
Defined.


Lemma start_then_submit_needs_review_witness :
  let body := mkStartBody (str "1") (str "Eve") (str "eve@example.com") in
  let input := mkStartInput (Int 1) "Eve" "eve@example.com" in
  startApplicationSchema_parse decimal_Number sample_isEmail body = Some input
  /\ int32 1
  /\ constraints_ok (applications sample_db) = true
  /\ (forall b, In b (applications sample_db) ->
                Application.applicantToken b <> "ee"
                /\ Application.id b <> applications_id_seq sample_db)
  /\ exists id db1 db2 a2,
      applications_start decimal_Number sample_isEmail body "ee" 1000 sample_db
      = (Value (json 201 (startedJson "ee" id)), db1)
      /\ applications_submitByToken "ee" 2000 db1
         = (Value (json 200 (applicationJson (Some a2))), db2)
      /\ Application.id a2 = id
      /\ Application.applicantName a2 = input_applicantName input
      /\ Application.status a2 = "Submitted"
      /\ Application.systemResult a2 = Some "NeedsReview"
      /\ Application.computedLimitCents a2 = None
      /\ Application.ruleVersion a2 = None.
Proof.
  intros body input.
  assert (forall b, In b (applications sample_db) ->
                    Application.applicantToken b <> "ee"
                    /\ Application.id b <> applications_id_seq sample_db)
    as Hfresh.
  { intros b [<-|[<-|[<-|[<-|[]]]]]; split; discriminate. }
  assert (int32 1) as H1 by (unfold int32; lia).
  split; [reflexivity|]. split; [exact H1|]. split; [reflexivity|].
  split; [exact Hfresh|].
  apply (start_then_submit_needs_review decimal_Number sample_isEmail sample_db
           body "ee" 1000 2000 input 1); try reflexivity.
  - exact H1.
  - exact Hfresh.
Defined.


Lemma decision_changes_only_its_application_witness :
  let body := mkDecisionBody (Some "Approved") (Some "documents checked") in
  constraints_ok (applications sample_db) = true
  /\ sample_Number "1" = Int 1
  /\ storage.getApplication 1 sample_db = (Value (Some ada), sample_db)
  /\ exists db' a',
      applications_decision sample_Number (Some reviewer) "1" body 1000 sample_db
      = (Value (json 200 (applicationJson (Some a'))), db')
      /\ (forall i, i <> 1 ->
                    fst (storage.getApplication i db')
                    = fst (storage.getApplication i sample_db))
      /\ (forall t, t <> Application.applicantToken ada ->
                    fst (storage.getApplicationByToken t db')
                    = fst (storage.getApplicationByToken t sample_db))
      /\ users db' = users sample_db
      /\ programs db' = programs sample_db
      /\ incomeLimits db' = incomeLimits sample_db
      /\ documents db' = documents sample_db
      /\ Application.householdSize a' = Application.householdSize ada
      /\ Application.annualIncomeCents a' = Application.annualIncomeCents ada
      /\ Application.systemResult a' = Application.systemResult ada
      /\ Application.computedLimitCents a' = Application.computedLimitCents ada.
Proof.
  intros body.
  split; [reflexivity|]. split; [reflexivity|]. split; [reflexivity|].
  apply (decision_changes_only_its_application sample_Number sample_db reviewer
           "1" 1 body 1000 ada); reflexivity.
Defined.

Lemma upload_needs_application_and_file_witness :
  storage.getApplicationByToken "zz" sample_db = (Value None, sample_db)
  /\ applications_upload "zz" (Some sample_file) 1 1000 sample_db
     = (Value (replyStatus 400), sample_db)
  /\ applications_upload "aa" None 1 1000 sample_db
     = (Value (replyStatus 400), sample_db).
Proof.
  split; [reflexivity|]. split.
  - apply (upload_needs_application_and_file sample_db "zz" (Some sample_file)
             1 1000).
    left. reflexivity.
  - apply (upload_needs_application_and_file sample_db "aa" None 1 1000).
    right. reflexivity.
Defined.

(** The application of token [cc] is [Approved] and still takes a file. *)
Lemma upload_adds_a_document_to_the_view_witness :
  storage.getApplicationByToken "cc" sample_db = (Value (Some cy), sample_db)
  /\ applications_getByToken "cc" sample_db
     = (Value (json 200 (applicationByTokenJson cy [] [])), sample_db)
  /\ 0 <= size sample_file < 2147483648
  /\ exists doc db',
      applications_upload "cc" (Some sample_file) 1 1000 sample_db
      = (Value (replyJson 200 doc), db')
      /\ Document.applicationId doc = Application.id cy
      /\ Document.filename doc = originalname sample_file
      /\ Document.path doc = file_path sample_file
      /\ Document.mimeType doc = mimetype sample_file
      /\ Document.sizeBytes doc = size sample_file
      /\ applications db' = applications sample_db
      /\ activityEvents db' = activityEvents sample_db
      /\ applications_getByToken "cc" db'
         = (Value (json 200 (applicationByTokenJson cy ([] ++ [doc]) [])), db').
Proof.
  assert (0 <= size sample_file < 2147483648) as Hsize by (simpl; lia).
  split; [reflexivity|]. split; [reflexivity|]. split; [exact Hsize|].
  apply (proj2 (upload_adds_a_document_to_the_view sample_db "cc" sample_file
                  1 1000 cy [] [] eq_refl eq_refl) Hsize).
Defined.

Lemma read_by_token_shows_its_documents_and_events_witness :
  storage.getApplicationByToken "zz" sample_db = (Value None, sample_db)
  /\ applications_getByToken "zz" sample_db = (Value (sendStatus 404), sample_db)
  /\ storage.getApplicationByToken "aa" sample_db = (Value (Some ada), sample_db)
  /\ exists docs events,
      applications_getByToken "aa" sample_db
      = (Value (json 200 (applicationByTokenJson ada docs events)), sample_db)
      /\ (forall d, In d docs
                    <-> In d (documents sample_db)
                        /\ Document.applicationId d = Application.id ada)
      /\ (forall e, In e events
                    <-> In e (activityEvents sample_db)
                        /\ ActivityEvent.applicationId e = Application.id ada)
      /\ Sorted (desc_by ActivityEvent.createdAt) events.
Proof.
  split; [reflexivity|]. split.
  - apply (proj1 (read_by_token_shows_its_documents_and_events sample_db "zz")).
    reflexivity.
  - split; [reflexivity|].
    apply (proj2 (read_by_token_shows_its_documents_and_events sample_db "aa")
             ada).
    reflexivity.
Defined.

Lemma detail_joins_users_and_current_limit_witness :
  sample_Number "1" = Int 1
  /\ storage.getApplication 1 sample_db = (Value (Some ada), sample_db)
  /\ exists docs events program snapshot,
      applications_get sample_Number (Some reviewer) "1" sample_db
      = (Value (json 200
                  (applicationDetailJson ada docs events program snapshot)),
         sample_db)
      /\ storage.getProgram (Application.programId ada) sample_db
         = (Value program, sample_db)
      /\ storage.getActivityEvents (Application.id ada) sample_db
         = (Value (map fst events), sample_db)
      /\ (forall ev u,
             In (ev, u) events ->
             ActivityEvent.createdByUserId ev = None -> u = None)
      /\ (forall ev u uid,
             In (ev, u) events ->
             ActivityEvent.createdByUserId ev = Some uid -> uid <> 0 ->
             storage.getUser uid sample_db = (Value u, sample_db))
      /\ (forall h,
             Application.householdSize ada = Some h -> h <> 0 ->
             storage.getIncomeLimitForHousehold
               (Application.programId ada) h sample_db
             = (Value snapshot, sample_db))
      /\ (Application.householdSize ada = None
          \/ Application.householdSize ada = Some 0 ->
          snapshot = None).
Proof.
  split; [reflexivity|]. split; [reflexivity|].
  apply (proj2 (proj2 (detail_joins_users_and_current_limit sample_Number
                         sample_db reviewer "1")) 1 ada); reflexivity.
Defined.

Lemma stored_program_is_found_witness :
  let program := InsertProgram.mk "Heating Aid" "County" 500 None in
  (forall p, In p (programs sample_db) -> Program.id p < programs_id_seq sample_db)
  /\ sample_Number "2" = Int (programs_id_seq sample_db)
  /\ int32 (programs_id_seq sample_db)
  /\ exists p db',
      programs_get sample_Number "2" sample_db
      = (Value (replyStatus 404), sample_db)
      /\ storage.createProgram program 1000 sample_db = (Value p, db')
      /\ programs_get sample_Number "2" db' = (Value (replyJson 200 p), db')
      /\ Program.id p = programs_id_seq sample_db
      /\ Program.name p = InsertProgram.name program
      /\ Program.regionLabel p = InsertProgram.regionLabel program
      /\ Program.effectiveStart p = InsertProgram.effectiveStart program
      /\ Program.effectiveEnd p = InsertProgram.effectiveEnd program
      /\ programs db' = programs sample_db ++ [p]
      /\ (forall q, In q (programs db') -> Program.id q < programs_id_seq db').
Proof.
  intros program.
  assert (forall p, In p (programs sample_db) ->
                    Program.id p < programs_id_seq sample_db) as Hseq.
  { intros p [<-|[]]. reflexivity. }
  assert (int32 (programs_id_seq sample_db)) as Hrange
      by (unfold int32; simpl; lia).
  split; [exact Hseq|]. split; [reflexivity|]. split; [exact Hrange|].
  apply (stored_program_is_found sample_Number sample_db program 1000
           "2" Hseq eq_refl Hrange).
Defined.

(** The body names program 9; the limit is created for program 1, the
    program of the route. *)
Lemma created_limit_is_listed_witness :
  let body := IncomeLimitBody.mk (Some (Int 9)) (Int 3) (Int 4500000) "2024-V1" in
  sample_Number "1" = Int 1
  /\ int32 1 /\ int32 3 /\ int32 4500000
  /\ incomeLimits_list sample_Number "1" sample_db
     = (Value (replyJson 200 (incomeLimits sample_db)), sample_db)
  /\ exists limit db',
      incomeLimits_create sample_Number (Some reviewer) "1" body 1000 sample_db
      = (Value (json 201 (incomeLimitJson limit)), db')
      /\ IncomeLimit.programId limit = 1
      /\ IncomeLimit.householdSize limit = 3
      /\ IncomeLimit.limitCents limit = 4500000
      /\ IncomeLimit.versionLabel limit = IncomeLimitBody.versionLabel body
      /\ incomeLimits_list sample_Number "1" db'
         = (Value (replyJson 200 (incomeLimits sample_db ++ [limit])), db')
      /\ forall id' q,
           sample_Number id' = Int q -> q <> 1 ->
           fst (incomeLimits_list sample_Number id' db')
           = fst (incomeLimits_list sample_Number id' sample_db).
Proof.
  intros body.
  assert (int32 1) as H1 by (unfold int32; lia).
  assert (int32 3) as H3 by (unfold int32; lia).
  assert (int32 4500000) as Hc by (unfold int32; lia).
  split; [reflexivity|]. split; [exact H1|]. split; [exact H3|].
  split; [exact Hc|]. split; [reflexivity|].
  apply (proj1 (created_limit_is_listed sample_Number sample_db reviewer "1" 1
                  3 4500000 body 1000 (incomeLimits sample_db)
                  eq_refl H1 eq_refl) eq_refl H3 eq_refl Hc).
Defined.

(** The draft of token [ff] is for a household of three, which has no
    limit until the reviewer creates one of 4500000. *)
Lemma created_limit_decides_submissions_witness :
  let body := IncomeLimitBody.mk None (Int 3) (Int 4500000) "2025-V1" in
  constraints_ok (applications family_db) = true
  /\ sample_Number "1" = Int (Application.programId fay)
  /\ int32 (Application.programId fay) /\ int32 3 /\ int32 4500000
  /\ storage.getApplicationByToken "ff" family_db = (Value (Some fay), family_db)
  /\ storage.getIncomeLimitForHousehold 1 3 family_db = (Value None, family_db)
  /\ exists limit db1 db2 a2,
      incomeLimits_create sample_Number (Some reviewer) "1" body 1000 family_db
      = (Value (json 201 (incomeLimitJson limit)), db1)
      /\ applications_submitByToken "ff" 2000 db1
         = (Value (json 200 (applicationJson (Some a2))), db2)
      /\ Application.systemResult a2
         = Some (if 4400000 <=? 4500000 then "Eligible" else "NotEligible")
      /\ Application.computedLimitCents a2 = Some 4500000
      /\ Application.ruleVersion a2 = Some (IncomeLimitBody.versionLabel body).
Proof.
  intros body.
  assert (int32 (Application.programId fay)) as H1
      by (unfold int32; simpl; lia).
  assert (int32 3) as H3 by (unfold int32; lia).
  assert (int32 4500000) as Hc by (unfold int32; lia).
  split; [reflexivity|]. split; [reflexivity|]. split; [exact H1|].
  split; [exact H3|]. split; [exact Hc|]. split; [reflexivity|].
  split; [reflexivity|].
  apply (created_limit_decides_submissions sample_Number family_db reviewer
           "1" 3 4500000 body 1000 "ff" 2000 fay 4400000);
    try reflexivity; try assumption.
  discriminate.
Defined.

Lemma seed_twice_is_seed_once_witness :
  let db1 := snd (seedDatabase "hash.salt" 1 1000 empty_db) in
  seedDatabase "hash.salt" 1 1000 empty_db = (Value tt, db1)
  /\ forall passwordHash' nextval' now',
      seedDatabase passwordHash' nextval' now' db1 = (Value tt, db1).
Proof.
  intros db1. split; [reflexivity|].
  apply (seed_twice_is_seed_once "hash.salt" 1 1000 empty_db db1).
  reflexivity.
Defined.

Lemma seed_creates_the_example_limits_witness :
  let db1 := snd (seedDatabase "hash.salt" 1 1000 empty_db) in
  seedDatabase "hash.salt" 1 1000 empty_db = (Value tt, db1)
  /\ programs empty_db = []
  /\ (exists program,
         storage.getProgram (programs_id_seq empty_db) db1
         = (Value (Some program), db1)
         /\ Program.name program = "Example Rebate Program"
         /\ Program.regionLabel program = "Statewide")
  /\ (forall h,
         1 <= h <= 6 ->
         exists limit,
           storage.getIncomeLimitForHousehold (programs_id_seq empty_db) h db1
           = (Value (Some limit), db1)
           /\ IncomeLimit.limitCents limit = 3000000 + 500000 * h
           /\ IncomeLimit.versionLabel limit = "2024-V1")
  /\ (forall h,
         h < 1 \/ 6 < h ->
         storage.getIncomeLimitForHousehold (programs_id_seq empty_db) h db1
         = (Value None, db1)).
Proof.
  intros db1. split; [reflexivity|]. split; [reflexivity|].
  apply (seed_creates_the_example_limits "hash.salt" 1 1000 empty_db db1).
  - reflexivity.
  - reflexivity.
  - intros l [].
Defined.


Lemma buildUrl_without_placeholder_witness :
  includes "/api/programs" ":id" = false
  /\ buildUrl sample_print "/api/programs" (Some [("id", paramNumber 5)])
     = "/api/programs".
Proof.
  split; [reflexivity|].
  apply (proj2 (buildUrl_without_placeholder sample_print "/api/programs"
                  [("id", paramNumber 5)])).
  intros key value [H|[]]. injection H as <- <-. reflexivity.
Defined.

Lemma buildUrl_fills_the_placeholder_witness :
  buildUrl sample_print "/api/applications/by-token/:token/submit"
    (Some [("token", paramString "9f3c")])
  = "/api/applications/by-token/9f3c/submit".
Proof.
  apply (buildUrl_fills_the_placeholder sample_print
           "/api/applications/by-token/" "token" "/submit"
           (paramString "9f3c")); reflexivity.
Defined.

Lemma started_application_is_listed_witness :
  let body := mkStartBody (str "9") (str "Eve") (str "eve@example.com") in
  let input := mkStartInput (Int 9) "Eve" "eve@example.com" in
  startApplicationSchema_parse decimal_Number sample_isEmail body = Some input
  /\ int32 9
  /\ constraints_ok (applications sample_db) = true
  /\ (forall b, In b (applications sample_db) ->
                Application.applicantToken b <> "ee"
                /\ Application.id b <> applications_id_seq sample_db)
  /\ exists id db1 enriched a program,
      applications_start decimal_Number sample_isEmail body "ee" 1000 sample_db
      = (Value (json 201 (startedJson "ee" id)), db1)
      /\ applications_list decimal_Number (Some reviewer)
           (mkListQuery None None None) db1
         = (Value (json 200 (applicationListJson enriched)), db1)
      /\ In (a, program) enriched
      /\ Application.id a = id
      /\ Application.applicantToken a = "ee"
      /\ Application.programId a = 9
      /\ Application.status a = "Draft"
      /\ Application.submittedAt a = None
      /\ storage.getProgram 9 sample_db = (Value program, sample_db).
Proof.
  intros body input.
  assert (forall b, In b (applications sample_db) ->
                    Application.applicantToken b <> "ee"
                    /\ Application.id b <> applications_id_seq sample_db)
    as Hfresh.
  { intros b [<-|[<-|[<-|[<-|[]]]]]; split; discriminate. }
  assert (int32 9) as H9 by (unfold int32; lia).
  split; [reflexivity|]. split; [exact H9|]. split; [reflexivity|].
  split; [exact Hfresh|].
  apply (started_application_is_listed decimal_Number sample_isEmail sample_db
           reviewer body "ee" 1000 input 9); try reflexivity.
  - exact H9.
  - exact Hfresh.
Defined.

Lemma submitted_application_is_listed_witness :
  constraints_ok (applications sample_db) = true
  /\ storage.getApplicationByToken "aa" sample_db = (Value (Some ada), sample_db)
  /\ exists db' a' enriched program,
      applications_submitByToken "aa" 1000 sample_db
      = (Value (json 200 (applicationJson (Some a'))), db')
      /\ applications_list sample_Number (Some reviewer)
           (mkListQuery (Some "Submitted") None None) db'
         = (Value (json 200 (applicationListJson enriched)), db')
      /\ In (a', program) enriched
      /\ Application.id a' = Application.id ada
      /\ Application.status a' = "Submitted"
      /\ Application.submittedAt a' = Some 1000.
Proof.
  split; [reflexivity|]. split; [reflexivity|].
  apply (submitted_application_is_listed sample_Number sample_db reviewer "aa"
           1000 ada); reflexivity.
Defined.

Lemma decided_application_is_listed_under_its_status_witness :
  let body := mkDecisionBody (Some "Denied") (Some "over the limit") in
  constraints_ok (applications sample_db) = true
  /\ sample_Number "1" = Int 1
  /\ storage.getApplication 1 sample_db = (Value (Some ada), sample_db)
  /\ exists db' a' enriched program,
      applications_decision sample_Number (Some reviewer) "1" body 1000 sample_db
      = (Value (json 200 (applicationJson (Some a'))), db')
      /\ applications_list sample_Number (Some reviewer)
           (mkListQuery (Some "Denied") None None) db'
         = (Value (json 200 (applicationListJson enriched)), db')
      /\ In (a', program) enriched
      /\ Application.id a' = Application.id ada
      /\ Application.status a' = "Denied"
      /\ Application.reviewedBy a' = Some (User.id reviewer).
Proof.
  intros body.
  split; [reflexivity|]. split; [reflexivity|]. split; [reflexivity|].
  apply (decided_application_is_listed_under_its_status sample_Number sample_db
           reviewer "1" 1 body 1000 ada "Denied"); reflexivity.
Defined.

Lemma toggle_flips_one_option_witness :
  NoDup ["pay stub"; "tax return"]
  /\ MultiSelect.toggleOption ["pay stub"; "tax return"] "pay stub"
     = ["tax return"]
  /\ NoDup (MultiSelect.toggleOption ["pay stub"; "tax return"] "pay stub")
  /\ (In "tax return"
         (MultiSelect.toggleOption ["pay stub"; "tax return"] "pay stub")
      <-> ("tax return" = "pay stub" /\ ~ In "pay stub" ["pay stub"; "tax return"])
          \/ ("tax return" <> "pay stub"
              /\ In "tax return" ["pay stub"; "tax return"])).
Proof.
  assert (NoDup ["pay stub"; "tax return"]) as Hnd.
  { repeat constructor; simpl; intuition discriminate. }
  split; [exact Hnd|]. split; [reflexivity|]. split.
  - apply (proj2 (toggle_flips_one_option ["pay stub"; "tax return"] "pay stub")
             Hnd).
  - apply (proj1 (toggle_flips_one_option ["pay stub"; "tax return"] "pay stub")).
Defined.

Lemma toggle_twice_restores_the_selection_witness :
  ~ In "utility bill" ["pay stub"; "tax return"]
  /\ MultiSelect.toggleOption
       (MultiSelect.toggleOption ["pay stub"; "tax return"] "utility bill")
       "utility bill"
     = ["pay stub"; "tax return"]
  /\ NoDup ["pay stub"; "tax return"]
  /\ Permutation
       (MultiSelect.toggleOption
          (MultiSelect.toggleOption ["pay stub"; "tax return"] "pay stub")
          "pay stub")
       ["pay stub"; "tax return"].
Proof.
  assert (~ In "utility bill" ["pay stub"; "tax return"]) as Hn.
  { simpl. intuition discriminate. }
  assert (NoDup ["pay stub"; "tax return"]) as Hnd.
  { repeat constructor; simpl; intuition discriminate. }
  split; [exact Hn|]. split.
  - apply (proj1 (toggle_twice_restores_the_selection
                    ["pay stub"; "tax return"] "utility bill") Hn).
  - split; [exact Hnd|].
    apply (proj2 (toggle_twice_restores_the_selection
                    ["pay stub"; "tax return"] "pay stub") Hnd).
Defined.

(** A ZIP code typed and entered, a bad one refused, and the first one
    removed. *)
Lemma zip_codes_stay_five_digits_and_distinct_witness :
  let events :=
    [ZipCodeInput.Change "94016"; ZipCodeInput.KeyDown "Enter";
     ZipCodeInput.Change "9401"; ZipCodeInput.Blur;
     ZipCodeInput.Remove "94110"] in
  let st' := fold_left (ZipCodeInput.handle sample_trim) events sample_zips in
  Forall (fun zip => ZipCodeInput.five_digits zip = true)
         (ZipCodeInput.value sample_zips)
  /\ NoDup (ZipCodeInput.value sample_zips)
  /\ ZipCodeInput.value st' = ["94103"; "94016"]
  /\ Forall (fun zip => ZipCodeInput.five_digits zip = true)
            (ZipCodeInput.value st')
  /\ NoDup (ZipCodeInput.value st').
Proof.
  intros events st'.
  assert (Forall (fun zip => ZipCodeInput.five_digits zip = true)
                 (ZipCodeInput.value sample_zips)) as Hd.
  { repeat constructor. }
  assert (NoDup (ZipCodeInput.value sample_zips)) as Hn.
  { repeat constructor; simpl; intuition discriminate. }
  split; [exact Hd|]. split; [exact Hn|]. split; [reflexivity|].
  apply (zip_codes_stay_five_digits_and_distinct sample_trim sample_zips events
           Hd Hn).
Defined.

Lemma backspace_removes_the_last_zip_witness :
  ZipCodeInput.value sample_zips = ["94110"] ++ ["94103"]
  /\ NoDup (ZipCodeInput.value sample_zips)
  /\ ZipCodeInput.inputValue sample_zips = EmptyString
  /\ ZipCodeInput.handleKeyDown sample_trim sample_zips "Backspace"
     = ZipCodeInput.mk ["94110"] EmptyString (ZipCodeInput.error sample_zips).
Proof.
  assert (NoDup (ZipCodeInput.value sample_zips)) as Hn.
  { repeat constructor; simpl; intuition discriminate. }
  split; [reflexivity|]. split; [exact Hn|]. split; [reflexivity|].
  apply (backspace_removes_the_last_zip sample_trim sample_zips ["94110"]
           "94103" eq_refl Hn eq_refl).
Defined.
